(** * TradeL: signal classifier, user store, alert dispatch, subscription sweep

    A shallow embedding of the TradeL bot (app.py, alerts.py, whatsapp.py).

    - Text is a [string] of characters with codes below 256.  On that
      range [\d] and [[0-9]] both denote the ten ASCII digits, and [\s] and
      [str.strip] use Python's whitespace table (9..13, 28..32, 0x85,
      0xA0).
    - [str.upper] does not stay in that range: it writes U+00DF as SS and
      takes U+00B5 to U+039C and U+00FF to U+0178.  An upper-cased text is
      therefore kept as the list of its code points, and what the program
      does with it ([in], [re.search]) is defined on code points.
    - A [datetime] is a number of microseconds; an ISO-8601 text is kept as
      the instant it denotes.
    - Logging, the two providers and the users file are effects: every
      method returns its outcome together with the trace of effects it
      performed.  The text of a log entry is kept without the pictograph
      it starts with. *)

From Stdlib Require Import ZArith Lia Ascii.
From stdpp Require Import list strings pretty.

Local Open Scope Z_scope.

(* ================================================================== *)
(** ** Python string operations *)

Module Py.

Definition code (c : ascii) : nat := nat_of_ascii c.

(** [\d] and [[0-9]] on codes below 256. *)
Definition is_digit (c : ascii) : bool :=
  (48 <=? code c)%nat && (code c <=? 57)%nat.

(** Python's whitespace ([str.isspace], [\s]) on codes below 256. *)
Definition is_space (c : ascii) : bool :=
  let n := code c in
  ((9 <=? n)%nat && (n <=? 13)%nat) || ((28 <=? n)%nat && (n <=? 32)%nat)
  || (n =? 133)%nat || (n =? 160)%nat.

(** [ord(c)] and [chr(n)]; [chr] is used below 256 only. *)
Definition ord (c : ascii) : N := N_of_ascii c.
Definition chr (n : N) : ascii := ascii_of_N n.

(** The code points of a text. *)
Fixpoint points (s : string) : list N :=
  match s with
  | EmptyString => []
  | String c t => ord c :: points t
  end.

(** The text of code points below 256. *)
Fixpoint text (u : list N) : string :=
  match u with
  | [] => EmptyString
  | n :: u' => String (chr n) (text u')
  end.

(** [c.upper()] for a character below 256: the ASCII letters, the Latin-1
    letters 0xE0..0xFE (0xF7, the division sign, is no letter), and the
    three characters whose upper case is not one character of the range:
    U+00B5 gives U+039C, U+00DF gives SS, U+00FF gives U+0178. *)
Definition upper_char (c : ascii) : list N :=
  let n := ord c in
  if ((97 <=? n) && (n <=? 122))%N then [n - 32]%N
  else if (n =? 181)%N then [924%N]
  else if (n =? 223)%N then [83%N; 83%N]
  else if ((224 <=? n) && (n <=? 254) && negb (n =? 247))%N then [n - 32]%N
  else if (n =? 255)%N then [376%N]
  else [n].

(** [s.upper()], as code points *)
Fixpoint upper (s : string) : list N :=
  match s with
  | EmptyString => []
  | String c t => upper_char c ++ upper t
  end.

(** [s.startswith(p)]; on success the text after the prefix. *)
Fixpoint strip_prefix (p s : string) : option string :=
  match p, s with
  | EmptyString, _ => Some s
  | String a p', String b s' => if Ascii.eqb a b then strip_prefix p' s' else None
  | String _ _, EmptyString => None
  end.

Definition startswith (s p : string) : bool :=
  match strip_prefix p s with Some _ => true | None => false end.

(** [s.replace(c, "")] for a one-character [c]. *)
Fixpoint remove_char (c : ascii) (s : string) : string :=
  match s with
  | EmptyString => EmptyString
  | String a t => if Ascii.eqb a c then remove_char c t else String a (remove_char c t)
  end.

(** [s.lstrip()] *)
Fixpoint lstrip (s : string) : string :=
  match s with
  | String c t => if is_space c then lstrip t else s
  | EmptyString => EmptyString
  end.

(** [s.rstrip()] *)
Fixpoint rstrip (s : string) : string :=
  match s with
  | EmptyString => EmptyString
  | String c t =>
      match rstrip t with
      | EmptyString => if is_space c then EmptyString else String c EmptyString
      | r => String c r
      end
  end.

(** [s.strip()] *)
Definition strip (s : string) : string := rstrip (lstrip s).

(** [s[1:]] *)
Definition tail (s : string) : string :=
  match s with
  | EmptyString => EmptyString
  | String _ t => t
  end.

Definition is_empty (s : string) : bool :=
  match s with EmptyString => true | String _ _ => false end.

(** Truthiness of a [str]. *)
Definition truthy (s : string) : bool := negb (is_empty s).

(** *** The regular expressions of the program

    Only two patterns occur: [\d+\.?\d*], searched in the text, and
    [LABEL[:\s]+(NUM)], where NUM is [[0-9]+\.?[0-9]*], searched in the
    upper-cased text.
    In both, every repetition is over a character class that is disjoint
    from what may follow it, so the greedy match is the only candidate at a
    given start and backtracking never finds another one. *)

(** The longest prefix whose characters are in class [p], and the rest. *)
Fixpoint span (p : ascii -> bool) (s : string) : string * string :=
  match s with
  | String c t =>
      if p c then let '(a, r) := span p t in (String c a, r)
      else (EmptyString, s)
  | EmptyString => (EmptyString, EmptyString)
  end.

(** [D+\.?D*] anchored at the start of [s]: the matched text. *)
Definition match_number (d : ascii -> bool) (s : string) : option string :=
  let '(ip, r) := span d s in
  if is_empty ip then None
  else match r with
       | String x r' =>
           if Ascii.eqb x "." then let '(fp, _) := span d r' in Some (ip +:+ "." +:+ fp)
           else Some ip
       | EmptyString => Some ip
       end.

(** [re.search]: the match at the leftmost start position that has one. *)
Fixpoint re_search {A} (m : string -> option A) (s : string) : option A :=
  match m s with
  | Some g => Some g
  | None =>
      match s with
      | EmptyString => None
      | String _ t => re_search m t
      end
  end.

(** *** The same on code points, for the upper-cased text *)

(** [s.startswith(p)]; on success the code points after the prefix. *)
Fixpoint u_strip_prefix (p s : list N) : option (list N) :=
  match p, s with
  | [], _ => Some s
  | a :: p', b :: s' => if (a =? b)%N then u_strip_prefix p' s' else None
  | _ :: _, [] => None
  end.

Definition u_startswith (s p : list N) : bool :=
  match u_strip_prefix p s with Some _ => true | None => false end.

(** [sub in s] *)
Fixpoint u_contains (sub s : list N) : bool :=
  u_startswith s sub ||
  match s with
  | [] => false
  | _ :: t => u_contains sub t
  end.

(** [k in s] for a literal [k] of the program. *)
Definition contains (k : string) (s : list N) : bool := u_contains (points k) s.

(** [any(k in s for k in ks)] *)
Definition any_in (ks : list string) (s : list N) : bool :=
  existsb (fun k => contains k s) ks.

(** [\s] on code points: the whitespace of Unicode. *)
Definition u_is_space (n : N) : bool :=
  (((9 <=? n) && (n <=? 13)) || ((28 <=? n) && (n <=? 32))
   || (n =? 133) || (n =? 160) || (n =? 5760)
   || ((8192 <=? n) && (n <=? 8202)) || (n =? 8232) || (n =? 8233)
   || (n =? 8239) || (n =? 8287) || (n =? 12288))%N.

(** [[0-9]] *)
Definition u_is_digit (n : N) : bool := ((48 <=? n) && (n <=? 57))%N.

(** [[:\s]] *)
Definition u_is_sep (n : N) : bool := (n =? 58)%N || u_is_space n.

(** The longest prefix whose code points are in class [p], and the rest. *)
Fixpoint u_span (p : N -> bool) (s : list N) : list N * list N :=
  match s with
  | n :: t =>
      if p n then let '(a, r) := u_span p t in (n :: a, r)
      else ([], s)
  | [] => ([], [])
  end.

(** [[0-9]+\.?[0-9]*] anchored at the start of [s]: the matched code
    points. *)
Definition u_match_number (s : list N) : option (list N) :=
  let '(ip, r) := u_span u_is_digit s in
  match ip with
  | [] => None
  | _ :: _ =>
      match r with
      | x :: r' =>
          if (x =? 46)%N then let '(fp, _) := u_span u_is_digit r' in Some (ip ++ 46%N :: fp)
          else Some ip
      | [] => Some ip
      end
  end.

(** [LABEL[:\s]+(NUM)] anchored at the start of [s]: group 1, which holds
    ASCII digits and at most one dot and so is a text of the range. *)
Definition match_label (label : string) (s : list N) : option string :=
  match u_strip_prefix (points label) s with
  | Some r =>
      let '(seps, r') := u_span u_is_sep r in
      match seps with
      | [] => None
      | _ :: _ => text <$> u_match_number r'
      end
  | None => None
  end.

(** [re.search] in code points. *)
Fixpoint u_re_search {A} (m : list N -> option A) (s : list N) : option A :=
  match m s with
  | Some g => Some g
  | None =>
      match s with
      | [] => None
      | _ :: t => u_re_search m t
      end
  end.

End Py.

(** [upper] on every character below 256, as CPython 3.11 gives it. *)
Example upper_table :
  map (fun n => Py.upper (String (Py.chr n) "")) (map N.of_nat (seq 0 256)) =
  map (fun n => [n]) (map N.of_nat (seq 0 97)) ++
  map (fun n => [n]) (map N.of_nat (seq 65 26)) ++
  map (fun n => [n]) (map N.of_nat (seq 123 58)) ++
  [[924%N]] ++
  map (fun n => [n]) (map N.of_nat (seq 182 41)) ++
  [[83%N; 83%N]] ++
  map (fun n => [n]) (map N.of_nat (seq 192 23)) ++
  [[247%N]] ++
  map (fun n => [n]) (map N.of_nat (seq 216 7)) ++
  [[376%N]].
Proof. vm_compute. reflexivity. Qed.

(* ================================================================== *)
(** ** Time *)

Definition datetime := Z.

Definition timedelta_days (d : Z) : Z := d * 86400 * 1000000.

(** The text of a timestamp field.  [Iso t] is the ISO-8601 text of the
    instant [t]; [Raw s] is any other text [s], which [fromisoformat]
    rejects. *)
Inductive iso_text :=
| Iso (t : datetime)
| Raw (s : string).

Definition isoformat (t : datetime) : iso_text := Iso t.

(** [datetime.fromisoformat]; [None] is [ValueError]. *)
Definition fromisoformat (x : iso_text) : option datetime :=
  match x with
  | Iso t => Some t
  | Raw _ => None
  end.

(* ================================================================== *)
(** ** Signal detection helpers (app.py) *)

Definition SIGNAL_KEYWORDS : list string :=
  ["BUY"; "SELL"; "LONG"; "SHORT"; "TP:"; "SL:"; "ENTRY"; "SIGNAL"].

Definition TRADING_PAIRS : list string :=
  ["BTC"; "ETH"; "XRP"; "SOL"; "ADA"; "BNB";
   "USD"; "EUR"; "GBP"; "JPY"; "XAUUSD"; "GOLD"].

Definition is_some {A} (o : option A) : bool :=
  match o with Some _ => true | None => false end.

Definition is_trading_signal (text : string) : bool :=
  if Py.is_empty text then false
  else
    let upper := Py.upper text in
    let has_keyword := Py.any_in SIGNAL_KEYWORDS upper in
    let has_pair := Py.any_in TRADING_PAIRS upper in
    let has_numbers := is_some (Py.re_search (Py.match_number Py.is_digit) text) in
    has_keyword && (has_pair || has_numbers).

(** The dict built by [extract_signal]. *)
Record signal_data := {
  sd_message : string;
  sd_source : string;
  sd_pair : string;
  sd_action : string;
  sd_entry : string;
  sd_tp : string;
  sd_sl : string;
  sd_priority : string;
  sd_timestamp : iso_text
}.

(** [for p in TRADING_PAIRS: if p in upper: pair = p; break] *)
Fixpoint first_pair (ps : list string) (upper : list N) : string :=
  match ps with
  | [] => ""
  | p :: ps' => if Py.contains p upper then p else first_pair ps' upper
  end.

Definition find_value (upper : list N) (label : string) : string :=
  match Py.u_re_search (Py.match_label label) upper with
  | Some g => g
  | None => "N/A"
  end.

(** No step of [extract_signal] can raise on a [str]: [upper], [in] and
    [re.search] are total, and [group(1)] is only taken of a match.  So it
    is a function of the text (and of the clock, for the timestamp). *)
Definition extract_signal (now : datetime) (text : string) : signal_data :=
  let upper := Py.upper text in
  let action :=
    if Py.contains "BUY" upper || Py.contains "LONG" upper then "BUY"
    else if Py.contains "SELL" upper || Py.contains "SHORT" upper then "SELL"
    else "" in
  let pair := first_pair TRADING_PAIRS upper in
  let priority :=
    if String.eqb action "BUY" || String.eqb action "SELL" then "high" else "medium" in
  {| sd_message := text;
     sd_source := "whatsapp";
     sd_pair := pair;
     sd_action := action;
     sd_entry := find_value upper "ENTRY";
     sd_tp := find_value upper "TP";
     sd_sl := find_value upper "SL";
     sd_priority := priority;
     sd_timestamp := isoformat now |}.

(* ================================================================== *)
(** ** Records of the store and of the providers *)

(** A subscriber dict as [add_user] builds it.  [u_push_token] is
    [user.get("push_token", "")]: the empty text when the key is absent. *)
Record user := {
  u_id : string;
  u_name : string;
  u_email : string;
  u_phone : string;
  u_country : string;
  u_plan : string;
  u_status : string;
  u_joined : iso_text;
  u_expiry : option iso_text;
  u_alerts_received : Z;
  u_push_token : string
}.

Definition set_status (v : string) (u : user) : user :=
  {| u_id := u_id u; u_name := u_name u; u_email := u_email u;
     u_phone := u_phone u; u_country := u_country u; u_plan := u_plan u;
     u_status := v; u_joined := u_joined u; u_expiry := u_expiry u;
     u_alerts_received := u_alerts_received u; u_push_token := u_push_token u |}.

Definition set_expiry (v : option iso_text) (u : user) : user :=
  {| u_id := u_id u; u_name := u_name u; u_email := u_email u;
     u_phone := u_phone u; u_country := u_country u; u_plan := u_plan u;
     u_status := u_status u; u_joined := u_joined u; u_expiry := v;
     u_alerts_received := u_alerts_received u; u_push_token := u_push_token u |}.

Definition set_alerts_received (v : Z) (u : user) : user :=
  {| u_id := u_id u; u_name := u_name u; u_email := u_email u;
     u_phone := u_phone u; u_country := u_country u; u_plan := u_plan u;
     u_status := u_status u; u_joined := u_joined u; u_expiry := u_expiry u;
     u_alerts_received := v; u_push_token := u_push_token u |}.

(** The signal dict of [process_signal]. *)
Record signal := {
  sg_id : string;
  sg_timestamp : iso_text;
  sg_source : string;
  sg_pair : string;
  sg_action : string;
  sg_entry : string;
  sg_tp : string;
  sg_sl : string;
  sg_message : string;
  sg_priority : string
}.

(** The body of an outgoing WhatsApp message: the template and what fills
    it (the rendered text plays no part below). *)
Inductive message :=
| AlertMessage (sg : signal).

(** The JSON document posted to OneSignal. *)
Record push_payload := {
  pp_authorization : string;
  pp_app_id : string;
  pp_include_player_ids : list string;
  pp_heading : string;
  pp_contents : string;
  pp_data : signal;
  pp_priority : Z;
  pp_timeout : Z
}.

(** What OneSignal answered, as far as the code reads it: [pr_id] is
    [result.get("id")], empty when absent. *)
Record push_result := { pr_id : string }.

Inductive exn :=
| EnvironmentError (msg : string)
| Timeout
| OtherError (msg : string)
| DanglingRef.

Definition str_exn (e : exn) : string :=
  match e with
  | EnvironmentError m => m
  | Timeout => "timeout"
  | OtherError m => m
  | DanglingRef => "dangling reference"
  end.

(** An HTTP response: its status and what [response.json()] gives. *)
Record response := {
  status_code : Z;
  json : exn + push_result
}.

Inductive level := DEBUG | INFO | WARNING | ERROR.

(** Everything the program does to the outside. *)
Inductive event :=
| Log (lvl : level) (msg : string)
| TwilioCreate (from_ : string) (body : message) (to : string)
| HttpPost (url : string) (payload : push_payload)
| SaveUsers (snapshot : list user).

(** The process environment and the two providers.  A provider call
    answers or raises; which, may depend on everything that happened
    before it. *)
Record world := {
  TWILIO_SID : option string;
  TWILIO_TOKEN : option string;
  ONESIGNAL_APP_ID : string;
  ONESIGNAL_API_KEY : string;
  messages_create : list event -> string -> message -> string -> exn + string;
  requests_post : list event -> string -> push_payload -> exn + response
}.

(* ================================================================== *)
(** ** The monad of methods: state, trace and exceptions *)

(** [users] is [bot.users], a list of dict objects; a reference to one of
    them is its position in that list. *)
Record state := {
  users : list user;
  trace : list event
}.

Inductive outcome (A : Type) :=
| Ret (a : A)
| Raise (e : exn).
Arguments Ret {A} a.
Arguments Raise {A} e.

Definition M (A : Type) : Type := state -> outcome A * state.

Definition ret {A} (a : A) : M A := fun st => (Ret a, st).

Definition raise {A} (e : exn) : M A := fun st => (Raise e, st).

Definition bind {A B} (m : M A) (k : A -> M B) : M B :=
  fun st =>
    match m st with
    | (Ret a, st') => k a st'
    | (Raise e, st') => (Raise e, st')
    end.

(** [try: m except Exception as e: h e] *)
Definition try_catch {A} (m : M A) (h : exn -> M A) : M A :=
  fun st =>
    match m st with
    | (Ret a, st') => (Ret a, st')
    | (Raise e, st') => h e st'
    end.

Notation "x <- m ;; k" := (bind m (fun x => k))
  (at level 100, m at level 99, k at level 200, right associativity).
Notation "m ;;; k" := (bind m (fun _ => k))
  (at level 100, k at level 200, right associativity).

Definition emit (e : event) : M unit :=
  fun st => (Ret tt, {| users := users st; trace := trace st ++ [e] |}).

Definition log (lvl : level) (msg : string) : M unit := emit (Log lvl msg).

(** Read through a reference.  A reference taken from [self.users] always
    points into it; [DanglingRef] stands for the case that cannot arise. *)
Definition deref (r : nat) : M user :=
  fun st =>
    match users st !! r with
    | Some u => (Ret u, st)
    | None => (Raise DanglingRef, st)
    end.

(** Mutate the dict behind a reference. *)
Definition assign (r : nat) (f : user -> user) : M unit :=
  fun st =>
    match users st !! r with
    | Some u => (Ret tt, {| users := <[r := f u]> (users st); trace := trace st |})
    | None => (Raise DanglingRef, st)
    end.

(** [for x in xs: body x] *)
Fixpoint for_each {A} (xs : list A) (body : A -> M unit) : M unit :=
  match xs with
  | [] => ret tt
  | x :: xs' => body x ;;; for_each xs' body
  end.

(** A [for] loop that carries a local variable. *)
Fixpoint for_fold {A S} (xs : list A) (s : S) (body : A -> S -> M S) : M S :=
  match xs with
  | [] => ret s
  | x :: xs' => s' <- body x s ;; for_fold xs' s' body
  end.

(* ================================================================== *)
(** ** WhatsAppService (whatsapp.py) *)

Definition truthy_env (v : option string) : bool :=
  match v with
  | Some s => Py.truthy s
  | None => false
  end.

Record WhatsAppService := {
  account_sid : option string;
  auth_token : option string;
  from_number : string
}.

Definition WhatsAppService_init (w : world) : M WhatsAppService :=
  if negb (truthy_env (TWILIO_SID w)) || negb (truthy_env (TWILIO_TOKEN w)) then
    raise (EnvironmentError "TWILIO_SID and TWILIO_TOKEN environment variables must be set.")
  else
    ret {| account_sid := TWILIO_SID w;
           auth_token := TWILIO_TOKEN w;
           from_number := "whatsapp:+14155238886" |}.

Definition _normalise_phone (phone : string) : string :=
  let phone := Py.remove_char "-" (Py.remove_char " " (Py.strip phone)) in
  let phone := if Py.startswith phone "+" then Py.tail phone else phone in
  let phone := if Py.startswith phone "0" then "234" +:+ Py.tail phone else phone in
  phone.

(** [self.client.messages.create(from_=.., body=.., to=..)]: the call goes
    out, then the provider answers with a message sid or raises. *)
Definition client_messages_create (w : world) (from_ : string) (body : message)
    (to : string) : M string :=
  fun st =>
    let st' := {| users := users st;
                  trace := trace st ++ [TwilioCreate from_ body to] |} in
    match messages_create w (trace st) from_ body to with
    | inr sid => (Ret sid, st')
    | inl e => (Raise e, st')
    end.

Definition send_message (w : world) (self : WhatsAppService) (to_number : string)
    (msg : message) : M (bool * string) :=
  try_catch
    (let normalised := _normalise_phone to_number in
     let to_whatsapp := "whatsapp:+" +:+ normalised in
     sid <- client_messages_create w (from_number self) msg to_whatsapp ;;
     log INFO ("Message sent to " +:+ to_whatsapp +:+ " | SID: " +:+ sid) ;;;
     ret (true, sid))
    (fun e =>
       log ERROR ("Failed to send to " +:+ to_number +:+ ": " +:+ str_exn e) ;;;
       ret (false, str_exn e)).

Definition format_alert_message (sg : signal) : message := AlertMessage sg.

Definition send_alert (w : world) (self : WhatsAppService) (to_number : string)
    (sg : signal) : M (bool * string) :=
  let msg := format_alert_message sg in
  send_message w self to_number msg.

(* ================================================================== *)
(** ** AlertSystem (alerts.py) *)

Record AlertSystem := {
  onesignal_app_id : string;
  onesignal_api_key : string
}.

Definition AlertSystem_init (w : world) : AlertSystem :=
  {| onesignal_app_id := ONESIGNAL_APP_ID w;
     onesignal_api_key := ONESIGNAL_API_KEY w |}.

Definition send_whatsapp_alert (w : world) (usr : user) (sg : signal) : M bool :=
  try_catch
    (wa <- WhatsAppService_init w ;;
     res <- send_alert w wa (u_phone usr) sg ;;
     let '(success, result) := res in
     (if success : bool then
        log INFO ("WhatsApp alert sent -> " +:+ u_name usr +:+ " (" +:+ u_phone usr +:+ ")")
      else
        log ERROR ("WhatsApp failed -> " +:+ u_name usr +:+ ": " +:+ result)) ;;;
     ret success)
    (fun e =>
       log ERROR ("WhatsApp exception -> " +:+ u_name usr +:+ ": " +:+ str_exn e) ;;;
       ret false).

Definition onesignal_url : string := "https://onesignal.com/api/v1/notifications".

(** [requests.post(url, headers=.., json=.., timeout=10)] *)
Definition requests_post_call (w : world) (url : string) (payload : push_payload)
    : M response :=
  fun st =>
    let st' := {| users := users st;
                  trace := trace st ++ [HttpPost url payload] |} in
    match requests_post w (trace st) url payload with
    | inr resp => (Ret resp, st')
    | inl e => (Raise e, st')
    end.

(** [response.json()] *)
Definition response_json (resp : response) : M push_result :=
  match json resp with
  | inr r => ret r
  | inl e => raise e
  end.

Definition send_push_notification (w : world) (self : AlertSystem)
    (push_token : string) (sg : signal) : M (option push_result) :=
  if negb (Py.truthy (onesignal_app_id self)) || negb (Py.truthy (onesignal_api_key self)) then
    log DEBUG "OneSignal not configured - skipping push notification" ;;;
    ret None
  else
    let action := sg_action sg in
    let pair := sg_pair sg in
    let title :=
      if Py.truthy action && Py.truthy pair
      then "TradeL: " +:+ action +:+ " " +:+ pair
      else "TradeL Alert" in
    let body := String.substring 0 200 (sg_message sg) in
    let payload :=
      {| pp_authorization := "Basic " +:+ onesignal_api_key self;
         pp_app_id := onesignal_app_id self;
         pp_include_player_ids := [push_token];
         pp_heading := title;
         pp_contents := body;
         pp_data := sg;
         pp_priority := 10;
         pp_timeout := 10 |} in
    try_catch
      (resp <- requests_post_call w onesignal_url payload ;;
       result <- response_json resp ;;
       (if (status_code resp =? 200) && Py.truthy (pr_id result) then
          log INFO ("Push sent | id: " +:+ pr_id result)
        else
          log WARNING "Push issue") ;;;
       ret (Some result))
      (fun e =>
         match e with
         | Timeout => log ERROR "OneSignal request timed out" ;;; ret None
         | _ => log ERROR ("Push notification error: " +:+ str_exn e) ;;; ret None
         end).

Definition trigger_phone_alarm (w : world) (self : AlertSystem) (usr : user)
    (sg : signal) : M unit :=
  let push_token := u_push_token usr in
  if Py.truthy push_token then
    send_push_notification w self push_token sg ;;; ret tt
  else
    log DEBUG ("No push token for " +:+ u_name usr +:+ " - WhatsApp only").

(* ================================================================== *)
(** ** TradeLBot (app.py) *)

Definition save_users : M unit :=
  fun st => emit (SaveUsers (users st)) st.

Definition is_active (u : user) : bool := String.eqb (u_status u) "active".

(** References to every dict of [self.users], in order. *)
Definition all_users : M (list nat) :=
  fun st => (Ret (seq 0 (length (users st))), st).

Fixpoint active_refs (i : nat) (us : list user) : list nat :=
  match us with
  | [] => []
  | u :: us' =>
      if is_active u then i :: active_refs (S i) us' else active_refs (S i) us'
  end.

(** [[u for u in self.users if u["status"] == "active"]]: a new list of
    the same dict objects. *)
Definition get_active_users : M (list nat) :=
  fun st => (Ret (active_refs 0 (users st)), st).

Fixpoint activate_loop (now : datetime) (user_id : string) (refs : list nat) : M bool :=
  match refs with
  | [] =>
      log WARNING ("User not found: " +:+ user_id) ;;;
      ret false
  | r :: refs' =>
      usr <- deref r ;;
      if String.eqb (u_id usr) user_id then
        assign r (set_status "active") ;;;
        assign r (set_expiry (Some (isoformat (now + timedelta_days 30)))) ;;;
        save_users ;;;
        log INFO ("Activated user: " +:+ user_id) ;;;
        ret true
      else activate_loop now user_id refs'
  end.

Definition activate_user (now : datetime) (user_id : string) : M bool :=
  refs <- all_users ;;
  activate_loop now user_id refs.

Fixpoint deactivate_loop (user_id : string) (refs : list nat) : M bool :=
  match refs with
  | [] => ret false
  | r :: refs' =>
      usr <- deref r ;;
      if String.eqb (u_id usr) user_id then
        assign r (set_status "inactive") ;;;
        save_users ;;;
        log INFO ("Deactivated user: " +:+ user_id) ;;;
        ret true
      else deactivate_loop user_id refs'
  end.

Definition deactivate_user (user_id : string) : M bool :=
  refs <- all_users ;;
  deactivate_loop user_id refs.

Definition alert_one (w : world) (alert_system : AlertSystem) (sg : signal)
    (r : nat) : M unit :=
  try_catch
    (usr <- deref r ;;
     (if Py.truthy (u_phone usr) then
        send_whatsapp_alert w usr sg ;;;
        trigger_phone_alarm w alert_system usr sg
      else ret tt) ;;;
     cur <- deref r ;;
     assign r (set_alerts_received (u_alerts_received cur + 1)) ;;;
     log INFO ("Alert sent to " +:+ u_name usr +:+ " (" +:+ u_phone usr +:+ ")"))
    (fun e =>
       usr <- deref r ;;
       log ERROR ("Alert failed for " +:+ u_id usr +:+ ": " +:+ str_exn e)).

Definition trigger_alerts (w : world) (sg : signal) : M unit :=
  let alert_system := AlertSystem_init w in
  active_users <- get_active_users ;;
  log INFO ("Sending alerts to " +:+ pretty (length active_users) +:+ " active users") ;;;
  for_each active_users (alert_one w alert_system sg) ;;;
  save_users.

(** Truthiness of [user.get("expiry")]. *)
Definition truthy_expiry (v : option iso_text) : bool :=
  match v with
  | None => false
  | Some (Iso _) => true
  | Some (Raw s) => Py.truthy s
  end.

Definition sweep_one (now : datetime) (r : nat) (changed : bool) : M bool :=
  usr <- deref r ;;
  if is_active usr && truthy_expiry (u_expiry usr) then
    match u_expiry usr with
    | Some txt =>
        match fromisoformat txt with
        | Some expiry =>
            if now >? expiry then
              assign r (set_status "inactive") ;;;
              log INFO ("Subscription expired: " +:+ u_id usr +:+ " (" +:+ u_name usr +:+ ")") ;;;
              ret true
            else ret changed
        | None => ret changed
        end
    | None => ret changed
    end
  else ret changed.

Definition check_subscriptions (now : datetime) : M unit :=
  refs <- all_users ;;
  changed <- for_fold refs false (sweep_one now) ;;
  if changed : bool then save_users else ret tt.

(* ================================================================== *)
(** * Vocabulary of the properties *)

(** The literal [sub] occurs in the code points [u]. *)
Definition substring_of (sub : string) (u : list N) : Prop :=
  exists pre post, u = pre ++ Py.points sub ++ post.

(** [s] has a character of class [p]. *)
Definition has_char (p : ascii -> bool) (s : string) : Prop :=
  exists pre c post, s = pre +:+ String c post /\ p c = true.

Fixpoint all_chars (p : ascii -> bool) (s : string) : bool :=
  match s with
  | EmptyString => true
  | String c t => p c && all_chars p t
  end.

(** [s] reads [digits] or [digits.digits] (the fraction may be empty). *)
Definition numeral (s : string) : Prop :=
  exists ip fp,
    ip <> "" /\ all_chars Py.is_digit ip = true /\ all_chars Py.is_digit fp = true /\
    (s = ip \/ s = ip +:+ "." +:+ fp).

(** A character an address is usually written with. *)
Definition phone_char (c : ascii) : bool :=
  Py.is_digit c || Ascii.eqb c " " || Ascii.eqb c "-".

(** The address, apart from surrounding whitespace and one leading plus
    sign, is written with digits, spaces and hyphens only. *)
Definition plain_address (phone : string) : bool :=
  let p := Py.strip phone in
  all_chars phone_char (if Py.startswith p "+" then Py.tail p else p).

Definition not_space_hyphen (c : ascii) : bool :=
  negb (Ascii.eqb c " ") && negb (Ascii.eqb c "-").

(** The characters of [s] that are in class [p], in order. *)
Fixpoint keep (p : ascii -> bool) (s : string) : string :=
  match s with
  | EmptyString => EmptyString
  | String c t => if p c then String c (keep p t) else keep p t
  end.

Definition digits_of (s : string) : string := keep Py.is_digit s.

(** The last step of [_normalise_phone]. *)
Definition local_to_international (phone : string) : string :=
  if Py.startswith phone "0" then "234" +:+ Py.tail phone else phone.

(** Number of writes of the users file in a trace. *)
Fixpoint writes (tr : list event) : nat :=
  match tr with
  | [] => 0
  | SaveUsers _ :: tr' => S (writes tr')
  | _ :: tr' => writes tr'
  end.

(** Position of the first user with a given id. *)
Fixpoint find_user (user_id : string) (us : list user) : option nat :=
  match us with
  | [] => None
  | u :: us' =>
      if String.eqb (u_id u) user_id then Some 0%nat
      else S <$> find_user user_id us'
  end.

(** [f] applied to the first user with a given id, if there is one. *)
Fixpoint update_first (user_id : string) (f : user -> user) (us : list user)
    : option (list user) :=
  match us with
  | [] => None
  | u :: us' =>
      if String.eqb (u_id u) user_id then Some (f u :: us')
      else cons u <$> update_first user_id f us'
  end.

Definition activated (now : datetime) (u : user) : user :=
  set_expiry (Some (isoformat (now + timedelta_days 30))) (set_status "active" u).

(** The sweep at [now] flips this user: active, with an expiry that parses
    and lies before [now]. *)
Definition expired (now : datetime) (u : user) : bool :=
  is_active u && truthy_expiry (u_expiry u) &&
  match u_expiry u with
  | Some txt =>
      match fromisoformat txt with
      | Some expiry => now >? expiry
      | None => false
      end
  | None => false
  end.

Definition sweep_user (now : datetime) (u : user) : user :=
  if expired now u then set_status "inactive" u else u.

Definition sweep_logs (now : datetime) (us : list user) : list event :=
  flat_map
    (fun u =>
       if expired now u then
         [Log INFO ("Subscription expired: " +:+ u_id u +:+ " (" +:+ u_name u +:+ ")")]
       else [])
    us.

(** Number of HTTP requests in a trace. *)
Fixpoint http_posts (tr : list event) : nat :=
  match tr with
  | [] => 0
  | HttpPost _ _ :: tr' => S (http_posts tr')
  | _ :: tr' => http_posts tr'
  end.

Definition has_twilio (w : world) : bool :=
  truthy_env (TWILIO_SID w) && truthy_env (TWILIO_TOKEN w).

(** Where the WhatsApp message for a user is sent. *)
Definition destination (u : user) : string :=
  "whatsapp:+" +:+ _normalise_phone (u_phone u).

(** Destinations of the WhatsApp sends of a trace, in order. *)
Definition twilio_dests (tr : list event) : list string :=
  flat_map (fun e => match e with TwilioCreate _ _ to => [to] | _ => [] end) tr.

(** The error entry [send_message] logs when the transport raised. *)
Definition is_send_failure (e : event) : bool :=
  match e with
  | Log ERROR msg => Py.startswith msg "Failed to send to "
  | _ => false
  end.

Definition send_failures (tr : list event) : nat :=
  length (List.filter is_send_failure tr).

(** The users a dispatch pass sends to: active, with a phone. *)
Definition eligible (u : user) : bool := is_active u && Py.truthy (u_phone u).

Definition bump (u : user) : user :=
  set_alerts_received (u_alerts_received u + 1) u.

Definition bump_active (u : user) : user := if is_active u then bump u else u.

(** The transport of the text channel raises on every call. *)
Definition always_raises (w : world) : Prop :=
  forall tr from_ body to, exists e, messages_create w tr from_ body to = inl e.

(** ** Sample data *)

Definition sample_user (user_id name phone status : string) : user :=
  {| u_id := user_id; u_name := name; u_email := ""; u_phone := phone;
     u_country := "NG"; u_plan := "basic"; u_status := status;
     u_joined := Iso 0; u_expiry := None; u_alerts_received := 0;
     u_push_token := "" |}.

Definition ada : user := sample_user "TR20240101120000" "Ada" "08012345678" "active".
Definition bob : user := sample_user "TR20240101120001" "Bob" "" "active".
Definition cyd : user := sample_user "TR20240101120002" "Cyd" "+234 809-876 5432" "active".
Definition dan : user := sample_user "TR20240101120003" "Dan" "08031112222" "pending".

(** The signal of the [/signal/test] route. *)
Definition test_signal : signal :=
  {| sg_id := "SIG20240101120500"; sg_timestamp := Iso 300000000;
     sg_source := "test"; sg_pair := "BTCUSD"; sg_action := "BUY";
     sg_entry := "50000"; sg_tp := "51500"; sg_sl := "49000";
     sg_message := "This is a TEST alert from TradeL. Your alerts are working perfectly!";
     sg_priority := "high" |}.

(** Twilio configured and answering, OneSignal not configured. *)
Definition up_world : world :=
  {| TWILIO_SID := Some "AC0123"; TWILIO_TOKEN := Some "secret";
     ONESIGNAL_APP_ID := ""; ONESIGNAL_API_KEY := "";
     messages_create := fun _ _ _ _ => inr "SM0001";
     requests_post := fun _ _ _ => inl Timeout |}.

(** Twilio configured, every send raising. *)
Definition down_world : world :=
  {| TWILIO_SID := Some "AC0123"; TWILIO_TOKEN := Some "secret";
     ONESIGNAL_APP_ID := ""; ONESIGNAL_API_KEY := "";
     messages_create := fun _ _ _ _ => inl (OtherError "connection refused");
     requests_post := fun _ _ _ => inl Timeout |}.

Definition sample_state : state :=
  {| users := [ada; bob; cyd; dan]; trace := [] |}.

(* ================================================================== *)
(** * Properties *)

(** ** Text *)

#[local] Arguments String.append !s1 s2 : simpl nomatch.

Lemma strip_prefix_app (p r : string) : Py.strip_prefix p (p +:+ r) = Some r.
Proof.
  induction p as [|a p IH]; simpl; [destruct r; reflexivity|].
  rewrite Ascii.eqb_refl. exact IH.
Qed.

Lemma strip_prefix_Some (p s r : string) :
  Py.strip_prefix p s = Some r -> s = p +:+ r.
Proof.
  revert s. induction p as [|a p IH]; intros s H.
  - destruct s; simpl in *; congruence.
  - destruct s as [|b s]; simpl in *; [discriminate|].
    destruct (Ascii.eqb a b) eqn:E; [|discriminate].
    apply Ascii.eqb_eq in E. subst b. f_equal. apply IH, H.
Qed.

Lemma startswith_spec (s p : string) :
  Py.startswith s p = true <-> exists r, s = p +:+ r.
Proof.
  unfold Py.startswith. split.
  - destruct (Py.strip_prefix p s) as [r|] eqn:E; [|discriminate].
    intros _. exists r. apply strip_prefix_Some, E.
  - intros [r ->]. rewrite strip_prefix_app. reflexivity.
Qed.

Lemma u_strip_prefix_app (p r : list N) : Py.u_strip_prefix p (p ++ r) = Some r.
Proof.
  induction p as [|a p IH]; simpl; [destruct r; reflexivity|].
  rewrite N.eqb_refl. exact IH.
Qed.

Lemma u_strip_prefix_Some (p s r : list N) :
  Py.u_strip_prefix p s = Some r -> s = p ++ r.
Proof.
  revert s. induction p as [|a p IH]; intros s H.
  - destruct s; simpl in *; congruence.
  - destruct s as [|b s]; simpl in *; [discriminate|].
    destruct (N.eqb a b) eqn:E; [|discriminate].
    apply N.eqb_eq in E. subst b. f_equal. apply IH, H.
Qed.

Lemma u_startswith_spec (s p : list N) :
  Py.u_startswith s p = true <-> exists r, s = p ++ r.
Proof.
  unfold Py.u_startswith. split.
  - destruct (Py.u_strip_prefix p s) as [r|] eqn:E; [|discriminate].
    intros _. exists r. apply u_strip_prefix_Some, E.
  - intros [r ->]. rewrite u_strip_prefix_app. reflexivity.
Qed.

Lemma u_contains_unfold (sub s : list N) :
  Py.u_contains sub s =
  Py.u_startswith s sub ||
  match s with [] => false | _ :: t => Py.u_contains sub t end.
Proof. destruct s; reflexivity. Qed.

Lemma contains_spec (sub : string) (u : list N) :
  Py.contains sub u = true <-> substring_of sub u.
Proof.
  unfold Py.contains, substring_of. generalize (Py.points sub). clear sub. intros sub.
  split.
  - induction u as [|a u IH]; rewrite u_contains_unfold; intros H;
      apply orb_true_iff in H as [H|H].
    + apply u_startswith_spec in H as [r ->]. exists [], r. reflexivity.
    + discriminate.
    + apply u_startswith_spec in H as [r Hr]. exists [], r. exact Hr.
    + destruct (IH H) as (pre & post & ->). exists (a :: pre), post. reflexivity.
  - intros (pre & post & ->). induction pre as [|a pre IH].
    + rewrite u_contains_unfold. apply orb_true_iff. left.
      apply u_startswith_spec. exists post. reflexivity.
    + simpl app. rewrite u_contains_unfold. apply orb_true_iff. right. exact IH.
Qed.

Lemma any_in_spec (ks : list string) (u : list N) :
  Py.any_in ks u = true <-> exists k, In k ks /\ substring_of k u.
Proof.
  unfold Py.any_in. rewrite existsb_exists.
  split; intros (k & Hk & H); exists k; split; auto; apply contains_spec; exact H.
Qed.

Lemma match_number_is_some (d : ascii -> bool) (s : string) :
  is_some (Py.match_number d s) =
  match s with EmptyString => false | String c _ => d c end.
Proof.
  unfold Py.match_number. destruct s as [|c s]; simpl; [reflexivity|].
  destruct (d c); [|reflexivity].
  destruct (Py.span d s) as [a r]. simpl.
  destruct r as [|x r']; [reflexivity|].
  destruct (Ascii.eqb x "."); [|reflexivity].
  destruct (Py.span d r'). reflexivity.
Qed.

Lemma search_number_spec (d : ascii -> bool) (s : string) :
  is_some (Py.re_search (Py.match_number d) s) = true <-> has_char d s.
Proof.
  split.
  - induction s as [|c s IH]; simpl.
    + discriminate.
    + pose proof (match_number_is_some d (String c s)) as Hm.
      destruct (Py.match_number d (String c s)) eqn:E; simpl in Hm.
      * intros _. exists "", c, s. split; [reflexivity|congruence].
      * intros H. destruct (IH H) as (pre & x & post & -> & Hx).
        exists (String c pre), x, post. split; [reflexivity|exact Hx].
  - intros (pre & x & post & -> & Hx). induction pre as [|a pre IH]; simpl.
    + pose proof (match_number_is_some d (String x post)) as Hm.
      destruct (Py.match_number d (String x post)); simpl in Hm; [reflexivity|congruence].
    + destruct (Py.match_number d (String a (pre +:+ String x post))); [reflexivity|].
      exact IH.
Qed.

Lemma chr_digit (n : N) : Py.u_is_digit n = true -> Py.is_digit (Py.chr n) = true.
Proof.
  unfold Py.u_is_digit. rewrite andb_true_iff, !N.leb_le. intros [Hl Hu].
  assert (H : (n = 48 \/ n = 49 \/ n = 50 \/ n = 51 \/ n = 52 \/ n = 53 \/ n = 54 \/
               n = 55 \/ n = 56 \/ n = 57)%N) by lia.
  repeat (destruct H as [->|H]; [reflexivity|]). subst n. reflexivity.
Qed.

Lemma text_app (a b : list N) : Py.text (a ++ b) = Py.text a +:+ Py.text b.
Proof. induction a as [|n a IH]; simpl; [reflexivity|]. rewrite IH. reflexivity. Qed.

Lemma text_digits (u : list N) :
  forallb Py.u_is_digit u = true -> all_chars Py.is_digit (Py.text u) = true.
Proof.
  induction u as [|n u IH]; simpl; [reflexivity|].
  rewrite !andb_true_iff. intros [Hn Hu]. split; [apply chr_digit, Hn|apply IH, Hu].
Qed.

Lemma u_span_all (p : N -> bool) (s : list N) :
  forallb p (fst (Py.u_span p s)) = true.
Proof.
  induction s as [|c s IH]; simpl; [reflexivity|].
  destruct (p c) eqn:E; [|reflexivity].
  destruct (Py.u_span p s) as [a r]. simpl in *. rewrite E. exact IH.
Qed.

Lemma u_match_number_numeral (s g : list N) :
  Py.u_match_number s = Some g -> numeral (Py.text g).
Proof.
  unfold Py.u_match_number.
  pose proof (u_span_all Py.u_is_digit s) as Hip.
  destruct (Py.u_span Py.u_is_digit s) as [ip r]. simpl in Hip.
  destruct ip as [|c ip]; [discriminate|].
  apply text_digits in Hip.
  destruct r as [|x r'].
  - intros [= <-]. exists (Py.text (c :: ip)), "". repeat split; auto; discriminate.
  - destruct (N.eqb x 46).
    + pose proof (u_span_all Py.u_is_digit r') as Hfp.
      destruct (Py.u_span Py.u_is_digit r') as [fp r'']. simpl in Hfp.
      apply text_digits in Hfp.
      intros [= <-]. exists (Py.text (c :: ip)), (Py.text fp).
      split; [discriminate|]. split; [exact Hip|]. split; [exact Hfp|].
      right. change (c :: ip ++ 46%N :: fp) with ((c :: ip) ++ 46%N :: fp).
      rewrite text_app. reflexivity.
    + intros [= <-]. exists (Py.text (c :: ip)), "". repeat split; auto; discriminate.
Qed.

Lemma u_re_search_Some {A} (m : list N -> option A) (s : list N) (g : A) :
  Py.u_re_search m s = Some g -> exists pre t, s = pre ++ t /\ m t = Some g.
Proof.
  induction s as [|c s IH]; simpl.
  - destruct (m []) eqn:E; [|discriminate]. intros [= <-]. exists [], []. auto.
  - destruct (m (c :: s)) eqn:E.
    + intros [= <-]. exists [], (c :: s). auto.
    + intros H. destruct (IH H) as (pre & t & -> & Ht).
      exists (c :: pre), t. auto.
Qed.

Lemma match_label_numeral (label : string) (s : list N) (g : string) :
  Py.match_label label s = Some g -> numeral g.
Proof.
  unfold Py.match_label.
  destruct (Py.u_strip_prefix (Py.points label) s) as [r|]; [|discriminate].
  destruct (Py.u_span Py.u_is_sep r) as [seps r'].
  destruct seps; [discriminate|].
  destruct (Py.u_match_number r') as [m|] eqn:E; [|discriminate].
  intros [= <-]. eapply u_match_number_numeral, E.
Qed.

Lemma find_value_populated (upper : list N) (label : string) :
  find_value upper label = "N/A" \/ numeral (find_value upper label).
Proof.
  unfold find_value.
  destruct (Py.u_re_search (Py.match_label label) upper) as [g|] eqn:E; [|left; reflexivity].
  right. apply u_re_search_Some in E as (pre & t & _ & Ht).
  eapply match_label_numeral, Ht.
Qed.

(** The pair is the earliest entry of the list that occurs in the text. *)
Lemma first_pair_spec (ps : list string) (upper : list N) :
  (first_pair ps upper = "" /\
   forall q, In q ps -> q <> "" -> Py.contains q upper = false) \/
  (exists before after,
     ps = before ++ first_pair ps upper :: after /\
     Py.contains (first_pair ps upper) upper = true /\
     forall q, In q before -> Py.contains q upper = false).
Proof.
  induction ps as [|p ps IH]; simpl.
  - left. split; [reflexivity|]. intros q [].
  - destruct (Py.contains p upper) eqn:E.
    + right. exists [], ps. repeat split; auto. intros q [].
    + destruct IH as [[H0 Hn]|(before & after & Hps & Hc & Hb)].
      * left. split; [exact H0|]. intros q [<-|Hq] Hne; auto.
      * right. exists (p :: before), after. repeat split; auto.
        -- simpl. f_equal. exact Hps.
        -- intros q [<-|Hq]; auto.
Qed.

Lemma first_pair_in (ps : list string) (upper : list N) :
  first_pair ps upper = "" \/ In (first_pair ps upper) ps.
Proof.
  induction ps as [|p ps IH]; simpl; [left; reflexivity|].
  destruct (Py.contains p upper); [right; left; reflexivity|].
  destruct IH; [left|right; right]; assumption.
Qed.

Lemma keyword_nonempty (k : string) : In k SIGNAL_KEYWORDS -> k <> "".
Proof.
  unfold SIGNAL_KEYWORDS. simpl. intros H.
  repeat (destruct H as [<-|H]; [discriminate|]). destruct H.
Qed.

Lemma substring_of_empty (sub : string) : substring_of sub [] -> sub = "".
Proof.
  intros (pre & post & H). destruct pre; simpl in H; [|discriminate].
  destruct sub; [reflexivity|discriminate].
Qed.

Lemma is_trading_signal_spec (text : string) :
  is_trading_signal text = true <->
  (exists k, In k SIGNAL_KEYWORDS /\ substring_of k (Py.upper text)) /\
  ((exists p, In p TRADING_PAIRS /\ substring_of p (Py.upper text)) \/
   has_char Py.is_digit text).
Proof.
  unfold is_trading_signal. destruct text as [|c text].
  - simpl. split; [discriminate|].
    intros [(k & Hk & Hs) _]. apply substring_of_empty in Hs.
    apply keyword_nonempty in Hk. contradiction.
  - cbv [Py.is_empty]. cbv zeta.
    rewrite andb_true_iff, orb_true_iff, !any_in_spec, search_number_spec.
    reflexivity.
Qed.

(** C2. [is_trading_signal] is true exactly when the upper-cased text holds
    a signal keyword and, besides, a trading pair or a numeral (a digit
    of the text).  So a keyword with a numeral gives true, and a text with
    neither pair nor numeral gives false whatever keywords it has. *)
Theorem is_trading_signal_iff (text : string) :
  (is_trading_signal text = true <->
   (exists k, In k SIGNAL_KEYWORDS /\ substring_of k (Py.upper text)) /\
   ((exists p, In p TRADING_PAIRS /\ substring_of p (Py.upper text)) \/
    has_char Py.is_digit text)) /\
  ((exists k, In k SIGNAL_KEYWORDS /\ substring_of k (Py.upper text)) ->
   has_char Py.is_digit text -> is_trading_signal text = true) /\
  (~ (exists p, In p TRADING_PAIRS /\ substring_of p (Py.upper text)) ->
   ~ has_char Py.is_digit text -> is_trading_signal text = false).
Proof.
  split; [apply is_trading_signal_spec|split].
  - intros Hk Hd. apply is_trading_signal_spec. auto.
  - intros Hp Hd. apply not_true_is_false. intros H.
    apply is_trading_signal_spec in H as [_ [H|H]]; contradiction.
Qed.

(** Upper-casing beyond ASCII: the sharp s (code 223) reads SS, so it can
    complete a keyword or a pair; the micro sign (181) and the y with
    diaeresis (255) leave the range and match nothing. *)
Example upper_beyond_ascii :
  Py.upper (String "223" "ignal 5") = Py.points "SSIGNAL 5" /\
  is_trading_signal (String "223" "ignal 5") = true /\
  is_trading_signal ("buy " +:+ String "223" "ol") = true /\
  sd_pair (extract_signal 0 ("buy " +:+ String "223" "ol")) = "SOL" /\
  Py.upper (String "181" (String "255" (String "233" ""))) = [924; 376; 201]%N /\
  is_trading_signal ("buy " +:+ String "181" "") = false /\
  is_trading_signal "signal" = false /\
  is_trading_signal "signal 5" = true.
Proof. vm_compute. repeat split. Qed.

(** C3. The message "BUY BTCUSD entry 50000 tp 51500 sl 49000" is a signal
    and parses to BUY / BTC / 50000 / 51500 / 49000 with high priority.
    The pair follows the order of [TRADING_PAIRS], not the order in the
    text: "SELL USD-BTC" gives BTC as well. *)
Theorem extract_signal_scenario (now : datetime) :
  let text := "BUY BTCUSD entry 50000 tp 51500 sl 49000" in
  let r := extract_signal now text in
  is_trading_signal text = true /\
  sd_action r = "BUY" /\ sd_pair r = "BTC" /\
  sd_entry r = "50000" /\ sd_tp r = "51500" /\ sd_sl r = "49000" /\
  sd_priority r = "high" /\
  sd_pair (extract_signal now "SELL USD-BTC") = "BTC".
Proof. vm_compute. repeat split. Qed.

(** C7. [extract_signal] is a total function of the text, and each of the
    five fields of its result is populated: the pair is a listed pair or
    empty, the action is BUY, SELL or empty, and entry, tp and sl are each
    a numeral or "N/A". *)
Theorem extract_signal_total (now : datetime) (text : string) :
  let r := extract_signal now text in
  (sd_pair r = "" \/ In (sd_pair r) TRADING_PAIRS) /\
  (sd_action r = "" \/ sd_action r = "BUY" \/ sd_action r = "SELL") /\
  (sd_entry r = "N/A" \/ numeral (sd_entry r)) /\
  (sd_tp r = "N/A" \/ numeral (sd_tp r)) /\
  (sd_sl r = "N/A" \/ numeral (sd_sl r)).
Proof.
  cbv zeta. unfold extract_signal. cbn [sd_pair sd_action sd_entry sd_tp sd_sl].
  split; [apply first_pair_in|]. split.
  - destruct (Py.contains "BUY" _ || Py.contains "LONG" _); [auto|].
    destruct (Py.contains "SELL" _ || Py.contains "SHORT" _); auto.
  - repeat split; apply find_value_populated.
Qed.

(** ** Phone numbers *)

Lemma startswith_char (s : string) (c : ascii) :
  Py.startswith s (String c "") =
  match s with String b _ => Ascii.eqb c b | EmptyString => false end.
Proof.
  destruct s as [|b s]; [reflexivity|].
  unfold Py.startswith. simpl. destruct (Ascii.eqb c b); [|reflexivity].
  destruct s; reflexivity.
Qed.

Lemma all_chars_tail (p : ascii -> bool) (s : string) :
  all_chars p s = true -> all_chars p (Py.tail s) = true.
Proof.
  destruct s as [|c s]; simpl; [auto|]. intros H.
  apply andb_true_iff in H. tauto.
Qed.

Lemma removed_no_space_hyphen (s : string) :
  all_chars not_space_hyphen (Py.remove_char "-" (Py.remove_char " " s)) = true.
Proof.
  induction s as [|a s IH]; simpl; [auto|].
  destruct (Ascii.eqb a " ") eqn:E1; [auto|]. simpl.
  destruct (Ascii.eqb a "-") eqn:E2; [auto|]. simpl.
  unfold not_space_hyphen at 1. rewrite E1, E2. exact IH.
Qed.

Lemma local_to_international_all (p : ascii -> bool) (s : string) :
  p "2"%char = true -> p "3"%char = true -> p "4"%char = true ->
  all_chars p s = true -> all_chars p (local_to_international s) = true.
Proof.
  intros H2 H3 H4 H. unfold local_to_international.
  destruct (Py.startswith s "0"); [|exact H].
  simpl. rewrite H2, H3, H4. apply all_chars_tail, H.
Qed.

Lemma local_to_international_no_zero (s : string) :
  Py.startswith (local_to_international s) "0" = false.
Proof.
  unfold local_to_international.
  destruct (Py.startswith s "0") eqn:E; [reflexivity|exact E].
Qed.

(** C9, against the claim: an address written with other characters keeps
    them, so the result is not digit-only ("(0801) 234-5678" keeps its
    brackets and its leading 0), and whitespace inside the address other
    than spaces stays (a tab does). *)
Lemma normalise_phone_not_canonical :
  _normalise_phone "(0801) 234-5678" = "(0801)2345678" /\
  all_chars Py.is_digit (_normalise_phone "(0801) 234-5678") = false /\
  Py.is_space "009" = true /\
  _normalise_phone ("0801" +:+ String "009" "2345678")
  = "234801" +:+ String "009" "2345678".
Proof. vm_compute. repeat split. Qed.

Lemma space_not_digit (c : ascii) : Py.is_space c = true -> Py.is_digit c = false.
Proof.
  destruct c as [[] [] [] [] [] [] [] []]; vm_compute; intros H;
    first [reflexivity | discriminate H].
Qed.

Lemma keep_cons (p : ascii -> bool) (c : ascii) (s : string) :
  keep p (String c s) = if p c then String c (keep p s) else keep p s.
Proof. reflexivity. Qed.

Lemma keep_all (p : ascii -> bool) (s : string) : all_chars p (keep p s) = true.
Proof.
  induction s as [|c s IH]; simpl; [reflexivity|].
  destruct (p c) eqn:E; simpl; rewrite ?E; exact IH.
Qed.

Lemma keep_lstrip (s : string) : digits_of (Py.lstrip s) = digits_of s.
Proof.
  unfold digits_of. induction s as [|c s IH]; simpl; [reflexivity|].
  destruct (Py.is_space c) eqn:E; [|reflexivity].
  rewrite IH, (space_not_digit c E). reflexivity.
Qed.

Lemma keep_rstrip (s : string) : digits_of (Py.rstrip s) = digits_of s.
Proof.
  unfold digits_of. induction s as [|c t IH]; simpl Py.rstrip; [reflexivity|].
  destruct (Py.rstrip t) as [|x r].
  - simpl in IH. rewrite keep_cons, <- IH.
    destruct (Py.is_space c) eqn:E.
    + rewrite (space_not_digit c E). reflexivity.
    + simpl. reflexivity.
  - rewrite (keep_cons _ c (String x r)), (keep_cons _ c t), IH. reflexivity.
Qed.

Lemma keep_strip (s : string) : digits_of (Py.strip s) = digits_of s.
Proof. unfold Py.strip. rewrite keep_rstrip. apply keep_lstrip. Qed.

Lemma removed_keep (s : string) :
  all_chars phone_char s = true ->
  Py.remove_char "-" (Py.remove_char " " s) = digits_of s.
Proof.
  unfold digits_of. induction s as [|a s IH]; simpl; [auto|].
  intros H. apply andb_true_iff in H as [Ha Hs].
  destruct (Ascii.eqb a " ") eqn:E1.
  - apply Ascii.eqb_eq in E1. subst a. simpl. auto.
  - simpl. destruct (Ascii.eqb a "-") eqn:E2.
    + apply Ascii.eqb_eq in E2. subst a. simpl. auto.
    + unfold phone_char in Ha. rewrite E1, E2, !orb_false_r in Ha.
      rewrite Ha. f_equal. auto.
Qed.

(** On a plainly written address the result is its digits, with a leading
    0 rewritten to 234. *)
Lemma normalise_plain (phone : string) :
  plain_address phone = true ->
  _normalise_phone phone = local_to_international (digits_of phone).
Proof.
  unfold plain_address. cbv zeta. intros H.
  rewrite <- (keep_strip phone).
  change (_normalise_phone phone) with
    (local_to_international
       (let q := Py.remove_char "-" (Py.remove_char " " (Py.strip phone)) in
        if Py.startswith q "+" then Py.tail q else q)).
  cbv zeta. f_equal. rewrite startswith_char in H.
  destruct (Py.strip phone) as [|b p]; [reflexivity|].
  destruct (Ascii.eqb "+" b) eqn:Eb.
  - apply Ascii.eqb_eq in Eb. subst b. simpl in H.
    change (Py.remove_char "-" (Py.remove_char " " (String "+" p)))
      with (String "+" (Py.remove_char "-" (Py.remove_char " " p))).
    rewrite startswith_char. simpl. rewrite (removed_keep p H). reflexivity.
  - rewrite (removed_keep _ H), startswith_char.
    pose proof (keep_all Py.is_digit (String b p)) as Hd.
    unfold digits_of. destruct (keep Py.is_digit (String b p)) as [|x q];
      [reflexivity|].
    destruct (Ascii.eqb "+" x) eqn:Ex; [|reflexivity].
    apply Ascii.eqb_eq in Ex. subst x. simpl in Hd. discriminate.
Qed.

(** C9, amended.  [_normalise_phone] strips surrounding whitespace, then
    removes every space and hyphen, drops one leading plus sign and
    rewrites a leading 0 to 234.  Its result never holds a space or a
    hyphen and never starts with 0.  When the address, apart from
    surrounding whitespace and one leading plus sign, is written with
    digits, spaces and hyphens, the result is the digits of the address
    with a leading 0 rewritten to 234, hence digit-only.  The three
    documented formats all give 2348012345678. *)
Theorem normalise_phone_amended (phone : string) :
  all_chars not_space_hyphen (_normalise_phone phone) = true /\
  Py.startswith (_normalise_phone phone) "0" = false /\
  (plain_address phone = true ->
   _normalise_phone phone = local_to_international (digits_of phone) /\
   all_chars Py.is_digit (_normalise_phone phone) = true) /\
  _normalise_phone "08012345678" = "2348012345678" /\
  _normalise_phone "2348012345678" = "2348012345678" /\
  _normalise_phone "+2348012345678" = "2348012345678".
Proof.
  split; [|split; [|split; [|vm_compute; repeat split]]].
  - change (_normalise_phone phone) with
      (local_to_international
         (let q := Py.remove_char "-" (Py.remove_char " " (Py.strip phone)) in
          if Py.startswith q "+" then Py.tail q else q)).
    cbv zeta. apply local_to_international_all; try reflexivity.
    destruct (Py.startswith _ "+");
      [apply all_chars_tail|]; apply removed_no_space_hyphen.
  - apply local_to_international_no_zero.
  - intros H. rewrite (normalise_plain phone H). split; [reflexivity|].
    apply local_to_international_all; try reflexivity. apply keep_all.
Qed.

Lemma normalise_phone_amended_witness :
  plain_address "  +234 801-234 5678 " = true /\
  _normalise_phone "  +234 801-234 5678 " = "2348012345678" /\
  all_chars Py.is_digit (_normalise_phone "  +234 801-234 5678 ") = true.
Proof.
  split; [reflexivity|].
  destruct (normalise_phone_amended "  +234 801-234 5678 ") as (_ & _ & H & _).
  destruct (H eq_refl) as [H1 H2]. split; [exact H1|exact H2].
Defined.

(** ** The user store *)

Lemma state_eta (st : state) : {| users := users st; trace := trace st |} = st.
Proof. destruct st; reflexivity. Qed.

Lemma insert_middle {A} (l1 l2 : list A) (x y : A) :
  <[length l1 := y]> (l1 ++ x :: l2) = l1 ++ y :: l2.
Proof. induction l1 as [|a l1 IH]; simpl; [reflexivity|]. f_equal. exact IH. Qed.

Lemma snoc_app {A} (l1 l2 : list A) (x : A) : l1 ++ x :: l2 = (l1 ++ [x]) ++ l2.
Proof. rewrite <- app_assoc. reflexivity. Qed.

Lemma length_snoc {A} (l : list A) (x : A) : length (l ++ [x]) = S (length l).
Proof. rewrite length_app. simpl. lia. Qed.

(** Reads and writes through the reference that follows [done]. *)
Ltac at_middle :=
  repeat (first [rewrite list_lookup_middle by reflexivity
                |rewrite insert_middle]; simpl).

Lemma writes_app (a b : list event) : writes (a ++ b) = (writes a + writes b)%nat.
Proof.
  induction a as [|e a IH]; simpl; [reflexivity|].
  destruct e; simpl; rewrite IH; reflexivity.
Qed.

Lemma update_first_None (user_id : string) (f : user -> user) (us : list user) :
  (forall u, In u us -> u_id u <> user_id) -> update_first user_id f us = None.
Proof.
  induction us as [|u us IH]; simpl; [reflexivity|]. intros H.
  destruct (String.eqb (u_id u) user_id) eqn:E.
  - apply String.eqb_eq in E. exfalso. apply (H u); auto.
  - rewrite IH; auto.
Qed.

Lemma update_first_find (user_id : string) (f : user -> user) (us : list user) (i : nat) :
  find_user user_id us = Some i ->
  exists u, us !! i = Some u /\ u_id u = user_id /\
            update_first user_id f us = Some (<[i := f u]> us).
Proof.
  revert i. induction us as [|u us IH]; simpl; intros i H; [discriminate|].
  destruct (String.eqb (u_id u) user_id) eqn:E.
  - injection H as <-. apply String.eqb_eq in E. exists u. auto.
  - destruct (find_user user_id us) as [j|]; [|discriminate].
    injection H as <-. destruct (IH j eq_refl) as (v & Hv & Hid & Hu).
    exists v. rewrite Hu. auto.
Qed.

Lemma activate_loop_spec (now : datetime) (user_id : string) (rest : list user) :
  forall (done : list user) (tr : list event),
    activate_loop now user_id (seq (length done) (length rest))
      {| users := done ++ rest; trace := tr |} =
    match update_first user_id (activated now) rest with
    | Some rest' =>
        (Ret true,
         {| users := done ++ rest';
            trace := tr ++ [SaveUsers (done ++ rest');
                            Log INFO ("Activated user: " +:+ user_id)] |})
    | None =>
        (Ret false,
         {| users := done ++ rest;
            trace := tr ++ [Log WARNING ("User not found: " +:+ user_id)] |})
    end.
Proof.
  induction rest as [|u rest IH]; intros done tr; simpl.
  - reflexivity.
  - unfold bind at 1. unfold deref. simpl.
    rewrite list_lookup_middle by reflexivity.
    destruct (String.eqb (u_id u) user_id).
    + unfold bind, assign, save_users, log, emit, ret. simpl.
      at_middle.
      rewrite <- app_assoc. reflexivity.
    + rewrite snoc_app, <- length_snoc with (x := u). rewrite IH.
      destruct (update_first user_id (activated now) rest); simpl;
        rewrite <- !snoc_app; reflexivity.
Qed.

Lemma deactivate_loop_spec (user_id : string) (rest : list user) :
  forall (done : list user) (tr : list event),
    deactivate_loop user_id (seq (length done) (length rest))
      {| users := done ++ rest; trace := tr |} =
    match update_first user_id (set_status "inactive") rest with
    | Some rest' =>
        (Ret true,
         {| users := done ++ rest';
            trace := tr ++ [SaveUsers (done ++ rest');
                            Log INFO ("Deactivated user: " +:+ user_id)] |})
    | None => (Ret false, {| users := done ++ rest; trace := tr |})
    end.
Proof.
  induction rest as [|u rest IH]; intros done tr; simpl.
  - reflexivity.
  - unfold bind at 1. unfold deref. simpl.
    rewrite list_lookup_middle by reflexivity.
    destruct (String.eqb (u_id u) user_id).
    + unfold bind, assign, save_users, log, emit, ret. simpl.
      at_middle.
      rewrite <- app_assoc. reflexivity.
    + rewrite snoc_app, <- length_snoc with (x := u). rewrite IH.
      destruct (update_first user_id (set_status "inactive") rest); simpl;
        rewrite <- !snoc_app; reflexivity.
Qed.

Lemma activate_user_spec (now : datetime) (user_id : string) (st : state) :
  activate_user now user_id st =
  match update_first user_id (activated now) (users st) with
  | Some us' =>
      (Ret true,
       {| users := us';
          trace := trace st ++ [SaveUsers us';
                                Log INFO ("Activated user: " +:+ user_id)] |})
  | None =>
      (Ret false,
       {| users := users st;
          trace := trace st ++ [Log WARNING ("User not found: " +:+ user_id)] |})
  end.
Proof.
  destruct st as [us tr]. unfold activate_user, bind, all_users. simpl.
  exact (activate_loop_spec now user_id us [] tr).
Qed.

Lemma deactivate_user_spec (user_id : string) (st : state) :
  deactivate_user user_id st =
  match update_first user_id (set_status "inactive") (users st) with
  | Some us' =>
      (Ret true,
       {| users := us';
          trace := trace st ++ [SaveUsers us';
                                Log INFO ("Deactivated user: " +:+ user_id)] |})
  | None => (Ret false, st)
  end.
Proof.
  destruct st as [us tr]. unfold deactivate_user, bind, all_users. simpl.
  exact (deactivate_loop_spec user_id us [] tr).
Qed.

(** C10. When no user has the given id, [activate_user] and
    [deactivate_user] return False, leave every user record as it was and
    do not write the users file: [activate_user] only logs a warning,
    [deactivate_user] does nothing at all. *)
Theorem unknown_user_untouched (now : datetime) (user_id : string) (st : state) :
  (forall u, In u (users st) -> u_id u <> user_id) ->
  activate_user now user_id st =
    (Ret false,
     {| users := users st;
        trace := trace st ++ [Log WARNING ("User not found: " +:+ user_id)] |}) /\
  writes (trace (snd (activate_user now user_id st))) = writes (trace st) /\
  deactivate_user user_id st = (Ret false, st).
Proof.
  intros H.
  rewrite activate_user_spec, deactivate_user_spec.
  rewrite !update_first_None by exact H. simpl.
  rewrite writes_app. simpl. repeat split. lia.
Qed.

(** ** The subscription sweep *)

Lemma sweep_one_spec (now : datetime) (u : user) (done rest : list user)
    (tr : list event) (changed : bool) :
  sweep_one now (length done) changed {| users := done ++ u :: rest; trace := tr |} =
  (Ret (changed || expired now u),
   {| users := done ++ sweep_user now u :: rest;
      trace := tr ++ sweep_logs now [u] |}).
Proof.
  unfold sweep_one, sweep_user, sweep_logs, expired.
  unfold bind at 1. unfold deref. simpl.
  rewrite list_lookup_middle by reflexivity.
  destruct (is_active u); simpl;
    [|rewrite orb_false_r, app_nil_r; reflexivity].
  destruct (truthy_expiry (u_expiry u)); simpl;
    [|rewrite orb_false_r, app_nil_r; reflexivity].
  destruct (u_expiry u) as [txt|]; simpl;
    [|rewrite orb_false_r, app_nil_r; reflexivity].
  destruct (fromisoformat txt) as [expiry|]; simpl;
    [|rewrite orb_false_r, app_nil_r; reflexivity].
  destruct (now >? expiry); simpl;
    [|rewrite orb_false_r, app_nil_r; reflexivity].
  unfold bind, assign, log, emit, ret. simpl.
  rewrite list_lookup_middle by reflexivity. rewrite insert_middle.
  rewrite orb_true_r. reflexivity.
Qed.

Lemma sweep_loop_spec (now : datetime) (rest : list user) :
  forall (done : list user) (tr : list event) (changed : bool),
    for_fold (seq (length done) (length rest)) changed (sweep_one now)
      {| users := done ++ rest; trace := tr |} =
    (Ret (changed || existsb (expired now) rest),
     {| users := done ++ map (sweep_user now) rest;
        trace := tr ++ sweep_logs now rest |}).
Proof.
  induction rest as [|u rest IH]; intros done tr changed; simpl.
  - unfold ret. rewrite orb_false_r, !app_nil_r. reflexivity.
  - unfold bind. rewrite sweep_one_spec.
    rewrite snoc_app, <- length_snoc with (x := sweep_user now u). rewrite IH.
    rewrite <- snoc_app, orb_assoc. unfold sweep_logs. simpl.
    rewrite app_nil_r, <- app_assoc. reflexivity.
Qed.

(** One sweep, as a function of the store: every expired user is flipped,
    each flip is logged, and the file is written once iff some user was
    flipped. *)
Lemma check_subscriptions_spec (now : datetime) (st : state) :
  check_subscriptions now st =
  (Ret tt,
   {| users := map (sweep_user now) (users st);
      trace := trace st ++ sweep_logs now (users st) ++
               (if existsb (expired now) (users st)
                then [SaveUsers (map (sweep_user now) (users st))] else []) |}).
Proof.
  destruct st as [us tr]. unfold check_subscriptions, all_users.
  pose proof (sweep_loop_spec now us [] tr false) as H. simpl in H.
  unfold bind. simpl. rewrite H.
  destruct (existsb (expired now) us).
  - unfold save_users, emit. simpl. rewrite <- app_assoc. reflexivity.
  - unfold ret. rewrite app_nil_r. reflexivity.
Qed.

Lemma expired_sweep_user (now : datetime) (u : user) :
  expired now (sweep_user now u) = false.
Proof.
  unfold sweep_user. destruct (expired now u) eqn:E; [reflexivity|exact E].
Qed.

Lemma existsb_expired_swept (now : datetime) (us : list user) :
  existsb (expired now) (map (sweep_user now) us) = false.
Proof.
  induction us as [|u us IH]; simpl; [reflexivity|].
  rewrite expired_sweep_user. exact IH.
Qed.

(** A sweep that finds no expired user changes nothing and writes nothing. *)
Lemma clean_sweep_noop (now : datetime) (st : state) :
  existsb (expired now) (users st) = false ->
  check_subscriptions now st = (Ret tt, st).
Proof.
  intros H. rewrite check_subscriptions_spec, H.
  assert (Hm : map (sweep_user now) (users st) = users st /\
               sweep_logs now (users st) = []).
  { induction (users st) as [|u us IH]; simpl in *; [auto|].
    apply orb_false_iff in H as [Hu Hus]. destruct (IH Hus) as [-> Hl].
    unfold sweep_user, sweep_logs in *. simpl. rewrite Hu. simpl. auto. }
  destruct Hm as [-> ->]. simpl. rewrite app_nil_r. apply f_equal, state_eta.
Qed.

(** C4. Sweeping is idempotent: right after a sweep no user is expired any
    more, and a second sweep returns with the store and the trace exactly
    as the first one left them, so no record changes and the users file is
    not written again. *)
Theorem check_subscriptions_idempotent (now : datetime) (st : state) :
  let st1 := snd (check_subscriptions now st) in
  existsb (expired now) (users st1) = false /\
  check_subscriptions now st1 = (Ret tt, st1) /\
  writes (trace (snd (check_subscriptions now st1))) = writes (trace st1).
Proof.
  cbv zeta.
  assert (H : existsb (expired now) (users (snd (check_subscriptions now st))) = false).
  { rewrite check_subscriptions_spec. simpl. apply existsb_expired_swept. }
  split; [exact H|]. rewrite (clean_sweep_noop now _ H). split; reflexivity.
Qed.

Lemma lookup_map {A B} (f : A -> B) (l : list A) (i : nat) :
  map f l !! i = f <$> l !! i.
Proof. revert i. induction l as [|x l IH]; intros [|i]; simpl; auto. Qed.

Lemma lookup_In {A} (l : list A) (i : nat) (x : A) : l !! i = Some x -> In x l.
Proof.
  revert i. induction l as [|y l IH]; intros [|i]; simpl; try discriminate.
  - intros [= ->]. auto.
  - intros H. right. eapply IH, H.
Qed.

Lemma writes_sweep_logs (now : datetime) (us : list user) :
  writes (sweep_logs now us) = 0%nat.
Proof.
  induction us as [|u us IH]; simpl; [reflexivity|].
  unfold sweep_logs in *. simpl. destruct (expired now u); simpl; exact IH.
Qed.

Lemma expired_activated (T now : datetime) (u : user) :
  T + timedelta_days 30 < now -> expired now (activated T u) = true.
Proof.
  intros H. unfold expired, activated, is_active. simpl.
  apply Z.gtb_lt. exact H.
Qed.

(** C5. Activation at time [T] sets the status to active and the expiry to
    [T] + 30 days; a sweep at any later time than that expiry flips the
    same user to inactive and writes the users file exactly once. *)
Theorem activate_then_sweep (T now : datetime) (user_id : string) (st : state)
    (i : nat) :
  find_user user_id (users st) = Some i ->
  T + timedelta_days 30 < now ->
  exists st1 st2 u1 u2,
    activate_user T user_id st = (Ret true, st1) /\
    users st1 !! i = Some u1 /\ u_id u1 = user_id /\
    u_status u1 = "active" /\
    u_expiry u1 = Some (isoformat (T + timedelta_days 30)) /\
    check_subscriptions now st1 = (Ret tt, st2) /\
    users st2 !! i = Some u2 /\ u_id u2 = user_id /\
    u_status u2 = "inactive" /\
    writes (trace st2) = S (writes (trace st1)).
Proof.
  intros Hf Hlt.
  destruct (update_first_find user_id (activated T) (users st) i Hf)
    as (u & Hu & Hid & Hup).
  assert (Hi : (i < length (users st))%nat) by (eapply lookup_lt_Some, Hu).
  rewrite activate_user_spec, Hup.
  eexists _, _, (activated T u), (set_status "inactive" (activated T u)).
  split; [reflexivity|]. simpl users.
  assert (H1 : <[i := activated T u]> (users st) !! i = Some (activated T u))
    by (apply list_lookup_insert_eq, Hi).
  split; [exact H1|]. split; [exact Hid|]. split; [reflexivity|].
  split; [reflexivity|].
  rewrite check_subscriptions_spec. split; [reflexivity|]. simpl users.
  split; [|split; [exact Hid|split; [reflexivity|]]].
  - rewrite lookup_map, H1. simpl. unfold sweep_user.
    rewrite expired_activated by exact Hlt. reflexivity.
  - simpl trace.
    assert (He : existsb (expired now) (<[i := activated T u]> (users st)) = true).
    { apply existsb_exists. exists (activated T u). split.
      - eapply lookup_In, H1.
      - apply expired_activated, Hlt. }
    rewrite He, !writes_app, writes_sweep_logs. simpl. lia.
Qed.

(** ** The push channel *)

Lemma http_posts_app (a b : list event) :
  http_posts (a ++ b) = (http_posts a + http_posts b)%nat.
Proof.
  induction a as [|e a IH]; simpl; [reflexivity|].
  destruct e; simpl; rewrite IH; reflexivity.
Qed.

(** C8. Without OneSignal credentials (the app id or the API key is
    empty) [send_push_notification] returns None for any token and signal
    after a debug note: nothing is posted and no failure is logged.  For a
    user without push token [trigger_phone_alarm] likewise only leaves a
    debug note. *)
Theorem push_channel_inert (w : world) (token : string) (usr : user)
    (sg : signal) (st : state) :
  (ONESIGNAL_APP_ID w = "" \/ ONESIGNAL_API_KEY w = "" ->
   send_push_notification w (AlertSystem_init w) token sg st =
     (Ret None,
      {| users := users st;
         trace := trace st ++
           [Log DEBUG "OneSignal not configured - skipping push notification"] |}) /\
   http_posts (trace (snd (send_push_notification w (AlertSystem_init w) token sg st)))
   = http_posts (trace st)) /\
  (u_push_token usr = "" ->
   trigger_phone_alarm w (AlertSystem_init w) usr sg st =
     (Ret tt,
      {| users := users st;
         trace := trace st ++
           [Log DEBUG ("No push token for " +:+ u_name usr +:+ " - WhatsApp only")] |}) /\
   http_posts (trace (snd (trigger_phone_alarm w (AlertSystem_init w) usr sg st)))
   = http_posts (trace st)).
Proof.
  split.
  - intros H.
    assert (E : send_push_notification w (AlertSystem_init w) token sg st =
                (Ret None,
                 {| users := users st;
                    trace := trace st ++
                      [Log DEBUG "OneSignal not configured - skipping push notification"] |})).
    { unfold send_push_notification, AlertSystem_init. simpl.
      destruct H as [-> | ->]; simpl; rewrite ?orb_true_r; reflexivity. }
    rewrite E. split; [reflexivity|]. simpl. rewrite http_posts_app. simpl. lia.
  - intros H.
    assert (E : trigger_phone_alarm w (AlertSystem_init w) usr sg st =
                (Ret tt,
                 {| users := users st;
                    trace := trace st ++
                      [Log DEBUG ("No push token for " +:+ u_name usr +:+ " - WhatsApp only")] |})).
    { unfold trigger_phone_alarm. rewrite H. reflexivity. }
    rewrite E. split; [reflexivity|]. simpl. rewrite http_posts_app. simpl. lia.
Qed.

(** ** Alert dispatch *)

Lemma twilio_dests_app (a b : list event) :
  twilio_dests (a ++ b) = twilio_dests a ++ twilio_dests b.
Proof. apply flat_map_app. Qed.

Lemma send_failures_app (a b : list event) :
  send_failures (a ++ b) = (send_failures a + send_failures b)%nat.
Proof. unfold send_failures. rewrite List.filter_app, length_app. reflexivity. Qed.

Section Dispatch.

Variable w : world.
Variable sg : signal.

Lemma send_whatsapp_alert_run (u : user) (st : state) :
  exists b evs,
    send_whatsapp_alert w u sg st =
      (Ret b, {| users := users st; trace := trace st ++ evs |}) /\
    twilio_dests evs = (if has_twilio w then [destination u] else []) /\
    (has_twilio w = true -> always_raises w ->
     b = false /\ send_failures evs = 1%nat).
Proof.
  unfold send_whatsapp_alert, try_catch, bind, WhatsAppService_init, has_twilio.
  destruct (truthy_env (TWILIO_SID w)); simpl;
    [destruct (truthy_env (TWILIO_TOKEN w)); simpl|].
  - unfold send_alert, send_message, try_catch, bind, client_messages_create,
      log, emit, ret. simpl.
    destruct (messages_create w (trace st) _ _ _) as [e|sid] eqn:E; simpl.
    + rewrite <- !app_assoc. simpl. eexists _, _. split; [reflexivity|].
      split; [reflexivity|]. intros _ _. split; [reflexivity|].
      unfold send_failures. simpl. reflexivity.
    + rewrite <- !app_assoc. simpl. eexists _, _. split; [reflexivity|].
      split; [reflexivity|]. intros _ Hr.
      match type of E with
      | messages_create w ?a ?b ?c ?d = _ => destruct (Hr a b c d) as [e He]
      end.
      congruence.
  - unfold raise, log, emit, ret. simpl. eexists _, _. split; [reflexivity|].
    split; [reflexivity|]. discriminate.
  - unfold raise, log, emit, ret. simpl. eexists _, _. split; [reflexivity|].
    split; [reflexivity|]. discriminate.
Qed.

Lemma send_push_notification_run (self : AlertSystem) (token : string)
    (st : state) :
  exists r evs,
    send_push_notification w self token sg st =
      (Ret r, {| users := users st; trace := trace st ++ evs |}) /\
    twilio_dests evs = [] /\ send_failures evs = 0%nat.
Proof.
  unfold send_push_notification.
  destruct (negb (Py.truthy (onesignal_app_id self))
            || negb (Py.truthy (onesignal_api_key self))).
  - unfold bind, log, emit, ret. simpl. eexists _, _. repeat split.
  - cbv zeta. set (payload := Build_push_payload _ _ _ _ _ _ _ _).
    unfold try_catch, bind, requests_post_call, response_json.
    destruct (requests_post w (trace st) onesignal_url payload) as [e|resp]; simpl.
    + destruct e; unfold bind, log, emit, ret; simpl;
        rewrite <- ?app_assoc; simpl; eexists _, _; repeat split.
    + destruct (json resp) as [e|result]; unfold raise, ret; simpl.
      * destruct e; unfold bind, log, emit, ret; simpl;
          rewrite <- ?app_assoc; simpl; eexists _, _; repeat split.
      * destruct ((status_code resp =? 200) && Py.truthy (pr_id result));
          unfold bind, log, emit, ret; simpl;
          rewrite <- ?app_assoc; simpl; eexists _, _; repeat split.
Qed.

Lemma trigger_phone_alarm_run (self : AlertSystem) (u : user) (st : state) :
  exists evs,
    trigger_phone_alarm w self u sg st =
      (Ret tt, {| users := users st; trace := trace st ++ evs |}) /\
    twilio_dests evs = [] /\ send_failures evs = 0%nat.
Proof.
  unfold trigger_phone_alarm. destruct (Py.truthy (u_push_token u)).
  - destruct (send_push_notification_run self (u_push_token u) st)
      as (r & evs & E & H1 & H2).
    unfold bind. rewrite E. unfold ret. eauto.
  - unfold log, emit. eexists. repeat split.
Qed.

Lemma bind_Ret {A B} (m : M A) (k : A -> M B) (st st' : state) (a : A) :
  m st = (Ret a, st') -> bind m k st = k a st'.
Proof. intros H. unfold bind. rewrite H. reflexivity. Qed.

Lemma try_catch_Ret {A} (m : M A) (h : exn -> M A) (st st' : state) (a : A) :
  m st = (Ret a, st') -> try_catch m h st = (Ret a, st').
Proof. intros H. unfold try_catch. rewrite H. reflexivity. Qed.

Lemma deref_middle (done rest : list user) (u : user) (tr : list event) :
  deref (length done) {| users := done ++ u :: rest; trace := tr |} =
  (Ret u, {| users := done ++ u :: rest; trace := tr |}).
Proof. unfold deref. simpl. rewrite list_lookup_middle by reflexivity. reflexivity. Qed.

Lemma assign_middle (f : user -> user) (done rest : list user) (u : user)
    (tr : list event) :
  assign (length done) f {| users := done ++ u :: rest; trace := tr |} =
  (Ret tt, {| users := done ++ f u :: rest; trace := tr |}).
Proof.
  unfold assign. simpl. rewrite list_lookup_middle by reflexivity.
  rewrite insert_middle. reflexivity.
Qed.

(** Both channels for one user: they return, leave the store alone and
    only add to the trace. *)
Lemma channels_run (u : user) (st : state) :
  exists evs,
    (if Py.truthy (u_phone u) then
       send_whatsapp_alert w u sg ;;;
       trigger_phone_alarm w (AlertSystem_init w) u sg
     else ret tt) st =
      (Ret tt, {| users := users st; trace := trace st ++ evs |}) /\
    twilio_dests evs =
      (if Py.truthy (u_phone u) && has_twilio w then [destination u] else []) /\
    (has_twilio w = true -> always_raises w ->
     send_failures evs = if Py.truthy (u_phone u) then 1%nat else 0%nat).
Proof.
  destruct (Py.truthy (u_phone u)); simpl.
  - destruct (send_whatsapp_alert_run u st) as (b & e1 & E1 & D1 & F1).
    destruct (trigger_phone_alarm_run (AlertSystem_init w) u
                {| users := users st; trace := trace st ++ e1 |})
      as (e2 & E2 & D2 & F2).
    simpl in E2. exists (e1 ++ e2).
    rewrite (bind_Ret _ _ _ _ _ E1), E2, app_assoc.
    split; [reflexivity|]. rewrite twilio_dests_app, D1, D2, app_nil_r.
    split; [reflexivity|]. intros Ht Hr.
    rewrite send_failures_app, F2. destruct (F1 Ht Hr) as [_ ->]. reflexivity.
  - exists []. unfold ret. rewrite app_nil_r, state_eta. auto.
Qed.

Lemma alert_one_run (u : user) (done rest : list user) (tr : list event) :
  exists evs,
    alert_one w (AlertSystem_init w) sg (length done)
      {| users := done ++ u :: rest; trace := tr |} =
      (Ret tt, {| users := done ++ bump u :: rest; trace := tr ++ evs |}) /\
    twilio_dests evs =
      (if Py.truthy (u_phone u) && has_twilio w then [destination u] else []) /\
    (has_twilio w = true -> always_raises w ->
     send_failures evs = if Py.truthy (u_phone u) then 1%nat else 0%nat).
Proof.
  destruct (channels_run u {| users := done ++ u :: rest; trace := tr |})
    as (evs & E & D & F). simpl in E.
  exists (evs ++ [Log INFO ("Alert sent to " +:+ u_name u +:+ " (" +:+ u_phone u +:+ ")")]).
  split; [|split].
  - unfold alert_one. apply try_catch_Ret.
    rewrite (bind_Ret _ _ _ _ _ (deref_middle done rest u tr)).
    rewrite (bind_Ret _ _ _ _ _ E).
    rewrite (bind_Ret _ _ _ _ _ (deref_middle done rest u (tr ++ evs))).
    rewrite (bind_Ret _ _ _ _ _ (assign_middle _ done rest u (tr ++ evs))).
    unfold log, emit. simpl. rewrite app_assoc. reflexivity.
  - rewrite twilio_dests_app, D. simpl. apply app_nil_r.
  - intros Ht Hr. rewrite send_failures_app, (F Ht Hr).
    unfold send_failures. simpl. lia.
Qed.

Lemma alert_loop_run (rest : list user) :
  forall (done : list user) (tr : list event),
  exists evs,
    for_each (active_refs (length done) rest) (alert_one w (AlertSystem_init w) sg)
      {| users := done ++ rest; trace := tr |} =
      (Ret tt, {| users := done ++ map bump_active rest; trace := tr ++ evs |}) /\
    twilio_dests evs =
      (if has_twilio w then map destination (List.filter eligible rest) else []) /\
    (has_twilio w = true -> always_raises w ->
     send_failures evs = length (List.filter eligible rest)).
Proof.
  induction rest as [|u rest IH]; intros done tr; simpl.
  - exists []. unfold ret. rewrite !app_nil_r.
    destruct (has_twilio w); repeat split; auto.
  - assert (He : eligible u = is_active u && Py.truthy (u_phone u)) by reflexivity.
    rewrite !He. unfold bump_active at 1. destruct (is_active u); simpl.
    + destruct (alert_one_run u done rest tr) as (e1 & E1 & D1 & F1).
      destruct (IH (done ++ [bump u]) (tr ++ e1)) as (e2 & E2 & D2 & F2).
      rewrite length_snoc, <- !snoc_app in E2.
      exists (e1 ++ e2). rewrite (bind_Ret _ _ _ _ _ E1), E2, app_assoc.
      split; [reflexivity|]. rewrite twilio_dests_app, D1, D2.
      split.
      * destruct (Py.truthy (u_phone u)), (has_twilio w); reflexivity.
      * intros Ht Hr. rewrite send_failures_app, (F1 Ht Hr), (F2 Ht Hr).
        destruct (Py.truthy (u_phone u)); reflexivity.
    + destruct (IH (done ++ [u]) tr) as (e2 & E2 & D2 & F2).
      rewrite length_snoc, <- !snoc_app in E2.
      exists e2. auto.
Qed.

(** One dispatch pass: it returns, every active user's counter goes up by
    one, the file is written once at the end, and with Twilio credentials
    a message goes out to every eligible user, in order. *)
Lemma trigger_alerts_run (st : state) :
  exists evs,
    trigger_alerts w sg st =
      (Ret tt,
       {| users := map bump_active (users st);
          trace := trace st ++ evs ++ [SaveUsers (map bump_active (users st))] |}) /\
    twilio_dests evs =
      (if has_twilio w then map destination (List.filter eligible (users st)) else []) /\
    (has_twilio w = true -> always_raises w ->
     send_failures evs = length (List.filter eligible (users st))).
Proof.
  destruct st as [us tr]. unfold trigger_alerts, get_active_users. cbv zeta.
  unfold bind at 1. simpl users. simpl trace. cbv beta iota.
  set (note := Log INFO ("Sending alerts to " +:+
                          pretty (length (active_refs 0 us)) +:+ " active users")).
  destruct (alert_loop_run us [] (tr ++ [note])) as (evs & E & D & F).
  simpl in E. exists (note :: evs).
  split; [|split].
  - unfold bind at 1. unfold log, emit. simpl. fold note.
    rewrite (bind_Ret _ _ _ _ _ E). unfold save_users, emit. simpl.
    rewrite <- !app_assoc. reflexivity.
  - exact D.
  - intros Ht Hr. rewrite <- (F Ht Hr). reflexivity.
Qed.

End Dispatch.

(** ** Dispatch: the claims *)

(** C1, on the code: with two active users, Ada with a phone and Bob
    without, one dispatch pass sends to Ada only, yet raises the
    [alerts_received] counter of both. *)
Theorem dispatch_counts_user_without_phone :
  let st := {| users := [ada; bob]; trace := [] |} in
  let res := trigger_alerts up_world test_signal st in
  fst res = Ret tt /\
  twilio_dests (trace (snd res)) = ["whatsapp:+2348012345678"] /\
  map (fun u => (u_name u, u_phone u, u_alerts_received u)) (users (snd res))
  = [("Ada", "08012345678", 1); ("Bob", "", 1)].
Proof. vm_compute. repeat split. Qed.

(** C6. With Twilio configured and a transport that raises on every call,
    a dispatch pass still returns normally: a send goes out to every
    eligible user of the batch, in order; each raise is caught inside
    [send_message], logged there as an error and turned into the result
    (False, text of the error); and the pass ends with its single write of
    the users file. *)
Theorem failure_isolation (w : world) (sg : signal) (st : state) :
  has_twilio w = true ->
  always_raises w ->
  (exists evs,
     trigger_alerts w sg st =
       (Ret tt,
        {| users := map bump_active (users st);
           trace := trace st ++ evs ++ [SaveUsers (map bump_active (users st))] |}) /\
     twilio_dests evs = map destination (List.filter eligible (users st)) /\
     send_failures evs = length (List.filter eligible (users st))) /\
  (forall (self : WhatsAppService) (to_number : string) (msg : message) (st0 : state),
   exists e,
     send_message w self to_number msg st0 =
       (Ret (false, str_exn e),
        {| users := users st0;
           trace := trace st0 ++
             [TwilioCreate (from_number self) msg
                ("whatsapp:+" +:+ _normalise_phone to_number);
              Log ERROR ("Failed to send to " +:+ to_number +:+ ": " +:+ str_exn e)] |})).
Proof.
  intros Ht Hr. split.
  - destruct (trigger_alerts_run w sg st) as (evs & E & D & F).
    exists evs. rewrite Ht in D. auto.
  - intros self to_number msg st0.
    destruct (Hr (trace st0) (from_number self) msg
                ("whatsapp:+" +:+ _normalise_phone to_number)) as [e He].
    exists e. unfold send_message, try_catch, bind, client_messages_create.
    rewrite He. unfold log, emit, ret. simpl. rewrite <- app_assoc. reflexivity.
Qed.

Lemma failure_isolation_witness :
  has_twilio down_world = true /\
  exists evs,
    trigger_alerts down_world test_signal sample_state =
      (Ret tt,
       {| users := map bump_active (users sample_state);
          trace := trace sample_state ++ evs ++
                   [SaveUsers (map bump_active (users sample_state))] |}) /\
    twilio_dests evs = map destination (List.filter eligible (users sample_state)) /\
    send_failures evs = length (List.filter eligible (users sample_state)).
Proof.
  split; [reflexivity|].
  apply (failure_isolation down_world test_signal sample_state).
  - reflexivity.
  - intros tr from_ body to. eexists. reflexivity.
Defined.

Lemma activate_then_sweep_witness :
  exists st1 st2 u1 u2,
    activate_user 0 "TR20240101120003" sample_state = (Ret true, st1) /\
    users st1 !! 3%nat = Some u1 /\ u_id u1 = "TR20240101120003" /\
    u_status u1 = "active" /\
    u_expiry u1 = Some (isoformat (0 + timedelta_days 30)) /\
    check_subscriptions (timedelta_days 31) st1 = (Ret tt, st2) /\
    users st2 !! 3%nat = Some u2 /\ u_id u2 = "TR20240101120003" /\
    u_status u2 = "inactive" /\
    writes (trace st2) = S (writes (trace st1)).
Proof.
  apply (activate_then_sweep 0 (timedelta_days 31) "TR20240101120003" sample_state 3);
    reflexivity.
Defined.

Lemma unknown_user_untouched_witness :
  activate_user 0 "TR19990101000000" sample_state =
    (Ret false,
     {| users := users sample_state;
        trace := trace sample_state ++
                 [Log WARNING ("User not found: " +:+ "TR19990101000000")] |}) /\
  writes (trace (snd (activate_user 0 "TR19990101000000" sample_state)))
  = writes (trace sample_state) /\
  deactivate_user "TR19990101000000" sample_state = (Ret false, sample_state).
Proof.
  apply (unknown_user_untouched 0 "TR19990101000000" sample_state).
  simpl. intros u H.
  repeat (destruct H as [<-|H]; [discriminate|]). destruct H.
Defined.

Lemma push_channel_inert_witness :
  send_push_notification up_world (AlertSystem_init up_world) "player-1" test_signal
    sample_state =
    (Ret None,
     {| users := users sample_state;
        trace := trace sample_state ++
          [Log DEBUG "OneSignal not configured - skipping push notification"] |}) /\
  trigger_phone_alarm up_world (AlertSystem_init up_world) ada test_signal sample_state =
    (Ret tt,
     {| users := users sample_state;
        trace := trace sample_state ++
          [Log DEBUG ("No push token for " +:+ u_name ada +:+ " - WhatsApp only")] |}).
Proof.
  destruct (push_channel_inert up_world "player-1" ada test_signal sample_state)
    as [H1 H2].
  split; [apply H1; left|apply H2]; reflexivity.
Defined.

(* ================================================================== *)
(** * The rest of the program *)

From Stdlib Require Import Sorted.
From stdpp Require Import gmap.

Local Open Scope Z_scope.

(** ** The clock, as [strftime] prints it

    A [datetime] counts microseconds from 1970-01-01T00:00:00.  The date
    is found by the usual era / day-of-era computation over the proleptic
    Gregorian calendar.  Python's datetime covers years 1 to 9999; the
    formats are those of CPython on Linux, where [%Y] does not pad a year
    below 1000. *)

Module Clock.

Definition seconds (t : datetime) : Z := t / 1000000.

Record fields := {
  year : Z; month : Z; day : Z; hour : Z; minute : Z; second : Z
}.

(** Year, month and day of the day number [z] (days since 1970-01-01). *)
Definition civil (z : Z) : Z * Z * Z :=
  let z := z + 719468 in
  let era := z / 146097 in
  let doe := z - era * 146097 in
  let yoe := (doe - doe / 1460 + doe / 36524 - doe / 146096) / 365 in
  let doy := doe - (365 * yoe + yoe / 4 - yoe / 100) in
  let mp := (5 * doy + 2) / 153 in
  let d := doy - (153 * mp + 2) / 5 + 1 in
  let m := if mp <? 10 then mp + 3 else mp - 9 in
  let y := yoe + era * 400 + (if m <=? 2 then 1 else 0) in
  (y, m, d).

Definition fields_of (t : datetime) : fields :=
  let s := seconds t in
  let '(y, m, d) := civil (s / 86400) in
  let r := s mod 86400 in
  {| year := y; month := m; day := d;
     hour := r / 3600; minute := (r mod 3600) / 60; second := r mod 60 |}.

Definition digit (n : Z) : ascii := ascii_of_nat (48 + Z.to_nat (n mod 10)).

(** Two decimal digits, zero padded: [%m], [%d], [%H], [%M], [%S]. *)
Definition d2 (n : Z) : string := String (digit (n / 10)) (String (digit n) "").

(** [%Y]: the year in decimal, as many digits as it has. *)
Definition year_text (y : Z) : string :=
  if y <? 10 then String (digit y) ""
  else if y <? 100 then d2 y
  else if y <? 1000 then String (digit (y / 100)) (d2 y)
  else String (digit (y / 1000)) (String (digit (y / 100)) (d2 y)).

(** [strftime("%Y%m%d%H%M%S")] *)
Definition stamp14 (t : datetime) : string :=
  let f := fields_of t in
  year_text (year f) +:+ d2 (month f) +:+ d2 (day f) +:+
  d2 (hour f) +:+ d2 (minute f) +:+ d2 (second f).

(** [strftime("%m%d%H%M")] *)
Definition stamp8 (t : datetime) : string :=
  let f := fields_of t in
  d2 (month f) +:+ d2 (day f) +:+ d2 (hour f) +:+ d2 (minute f).

(** [strftime("%Y-%m-%d")] *)
Definition date10 (t : datetime) : string :=
  let f := fields_of t in
  year_text (year f) +:+ "-" +:+ d2 (month f) +:+ "-" +:+ d2 (day f).

End Clock.

Example clock_demo :
  Clock.stamp14 0 = "19700101000000" /\
  Clock.stamp14 ((19796 * 86400 + 15 * 3600 + 2 * 60 + 33) * 1000000 + 17) = "20240314150233" /\
  Clock.stamp8 ((19796 * 86400 + 15 * 3600 + 2 * 60 + 33) * 1000000) = "03141502" /\
  Clock.date10 ((19782 * 86400 + 86399) * 1000000) = "2024-02-29" /\
  Clock.date10 ((19783 * 86400) * 1000000) = "2024-03-01" /\
  Clock.date10 (-1) = "1969-12-31" /\
  Clock.stamp14 (951782400 * 1000000) = "20000229000000" /\
  Clock.stamp14 (4102444799 * 1000000) = "20991231235959".
Proof. vm_compute. repeat split. Qed.

(* ================================================================== *)
(** ** TradeLBot, continued (app.py) *)

(** The JSON object a caller passes to [add_user]: a key may be absent. *)
Record user_data := {
  ud_name : option string;
  ud_email : option string;
  ud_phone : option string;
  ud_country : option string;
  ud_plan : option string
}.

(** [d.get(key, dflt)] *)
Definition dict_get (v : option string) (dflt : string) : string := default dflt v.

(** Truthiness of [d.get(key)]. *)
Definition truthy_get (v : option string) : bool :=
  match v with
  | Some s => Py.truthy s
  | None => false
  end.

(** [self.users.append(user)] *)
Definition append_user (u : user) : M unit :=
  fun st => (Ret tt, {| users := users st ++ [u]; trace := trace st |}).

(** [add_user]; the clock is read twice, for the id and for [joined]. *)
Definition add_user (now_id now_joined : datetime) (user_data : user_data) : M string :=
  let user_id := "TR" +:+ Clock.stamp14 now_id in
  let usr :=
    {| u_id := user_id;
       u_name := dict_get (ud_name user_data) "Trader";
       u_email := dict_get (ud_email user_data) "";
       u_phone := dict_get (ud_phone user_data) "";
       u_country := dict_get (ud_country user_data) "NG";
       u_plan := dict_get (ud_plan user_data) "basic";
       u_status := "pending";
       u_joined := isoformat now_joined;
       u_expiry := None;
       u_alerts_received := 0;
       u_push_token := "" |} in
  append_user usr ;;;
  save_users ;;;
  log INFO ("Added user: " +:+ u_name usr +:+ " (" +:+ user_id +:+ ")") ;;;
  ret user_id.

(** The bot together with the [signals/] directory: the daily files by
    path. *)
Record app_state := {
  bot : state;
  signal_files : gmap string (list signal)
}.

Definition App (A : Type) : Type := app_state -> outcome A * app_state.

Definition app_ret {A} (a : A) : App A := fun s => (Ret a, s).

Definition app_bind {A B} (m : App A) (k : A -> App B) : App B :=
  fun s =>
    match m s with
    | (Ret a, s') => k a s'
    | (Raise e, s') => (Raise e, s')
    end.

(** A method of the bot, run on the bot of the application. *)
Definition lift {A} (m : M A) : App A :=
  fun s =>
    let '(o, st) := m (bot s) in
    (o, {| bot := st; signal_files := signal_files s |}).

Notation "x <~ m ;; k" := (app_bind m (fun x => k))
  (at level 100, m at level 99, k at level 200, right associativity).
Notation "m ;;~ k" := (app_bind m (fun _ => k))
  (at level 100, k at level 200, right associativity).

(** [json.load] of the file when it exists, else the empty list. *)
Definition read_signals (path : string) : App (list signal) :=
  fun s => (Ret (default [] (signal_files s !! path)), s).

(** [json.dump] of the whole list to the file. *)
Definition write_signals (path : string) (sgs : list signal) : App unit :=
  fun s => (Ret tt, {| bot := bot s; signal_files := <[path := sgs]> (signal_files s) |}).

Definition signals_path (now : datetime) : string :=
  "signals/" +:+ Clock.date10 now +:+ ".json".

(** [process_signal] on a dict that has every key it reads (both callers
    pass such a dict).  The clock is read three times: for the id, for the
    timestamp and for the path of the daily file. *)
Definition process_signal (w : world) (now_id now_ts now_path : datetime)
    (signal_data : signal_data) : App string :=
  let signal_id := "SIG" +:+ Clock.stamp14 now_id in
  let sg :=
    {| sg_id := signal_id;
       sg_timestamp := isoformat now_ts;
       sg_source := sd_source signal_data;
       sg_pair := sd_pair signal_data;
       sg_action := sd_action signal_data;
       sg_entry := sd_entry signal_data;
       sg_tp := sd_tp signal_data;
       sg_sl := sd_sl signal_data;
       sg_message := sd_message signal_data;
       sg_priority := sd_priority signal_data |} in
  let path := signals_path now_path in
  signals <~ read_signals path ;;
  write_signals path (signals ++ [sg]) ;;~
  lift (log INFO ("Signal detected: " +:+ signal_id +:+ " | " +:+
                  String.substring 0 60 (sg_message sg))) ;;~
  lift (trigger_alerts w sg) ;;~
  app_ret signal_id.

(** ** Routes (app.py) *)

(** A JSON answer: the HTTP status and the object's fields. *)
Record http_answer := {
  http_status : Z;
  http_json : list (string * string)
}.

Definition jsonify (status : Z) (fields : list (string * string)) : http_answer :=
  {| http_status := status; http_json := fields |}.

(** The form Twilio posts. *)
Record form := {
  form_Body : option string;
  form_From : option string
}.

(** [POST /webhook/whatsapp]; [now_signal] is the clock as [extract_signal]
    reads it. *)
Definition whatsapp_webhook (w : world) (now_signal now_id now_ts now_path : datetime)
    (f : form) : App http_answer :=
  let body := dict_get (form_Body f) "" in
  let sender := dict_get (form_From f) "" in
  lift (log INFO ("Incoming message from " +:+ sender +:+ ": " +:+
                  String.substring 0 80 body)) ;;~
  if is_trading_signal body then
    let sd := extract_signal now_signal body in
    signal_id <~ process_signal w now_id now_ts now_path sd ;;
    app_ret (jsonify 200 [("status", "signal_processed"); ("signal_id", signal_id)])
  else
    app_ret (jsonify 200 [("status", "not_a_signal")]).

(** [POST /users/add]; [data] is [request.get_json()]. *)
Definition route_add_user (now_id now_joined : datetime) (data : option user_data)
    : M http_answer :=
  match data with
  | Some d =>
      if truthy_get (ud_phone d) then
        user_id <- add_user now_id now_joined d ;;
        ret (jsonify 200 [("status", "added"); ("user_id", user_id)])
      else ret (jsonify 400 [("error", "phone is required")])
  | None => ret (jsonify 400 [("error", "phone is required")])
  end.

(** [POST /users/deactivate/<user_id>] *)
Definition route_deactivate_user (user_id : string) : M http_answer :=
  success <- deactivate_user user_id ;;
  if success : bool then ret (jsonify 200 [("status", "deactivated")])
  else ret (jsonify 404 [("error", "user not found")]).

(** The dict of the [/signal/test] route.  It has no timestamp key, and
    [process_signal] reads none: the field is left empty. *)
Definition test_signal_data : signal_data :=
  {| sd_message := "This is a TEST alert from TradeL. Your alerts are working perfectly!";
     sd_source := "test";
     sd_pair := "BTCUSD";
     sd_action := "BUY";
     sd_entry := "50000";
     sd_tp := "51500";
     sd_sl := "49000";
     sd_priority := "high";
     sd_timestamp := Raw "" |}.

(** [POST /signal/test] *)
Definition route_test_signal (w : world) (now_id now_ts now_path : datetime)
    : App http_answer :=
  signal_id <~ process_signal w now_id now_ts now_path test_signal_data ;;
  app_ret (jsonify 200 [("status", "test_sent"); ("signal_id", signal_id)]).

(** ** Start-up (app.py) *)




(* ================================================================== *)
(** ** ManualPaymentSystem (payments_symple.py)

    The two JSON files live in a file system, a map from path to content.
    What the methods print to the terminal is left out. *)

Module Payments.

Record bank_details := {
  bank : string;
  name : string;
  account : string;
  price_ngn : Z;
  price_usd : string
}.

(** [price_usd] is kept as the text of its literal. *)
Definition BANK_DETAILS : bank_details :=
  {| bank := "GTBank"; name := "YOUR FULL NAME"; account := "0123456789";
     price_ngn := 5000; price_usd := "19.99" |}.

Definition PENDING_FILE : string := "data/pending_payments.json".
Definition CONFIRMED_FILE : string := "data/confirmed_payments.json".

(** A payment dict; [p_confirmed_at] is absent until confirmation. *)
Record payment := {
  p_user_id : string;
  p_name : string;
  p_phone : string;
  p_amount : Z;
  p_currency : string;
  p_reference : string;
  p_status : string;
  p_created_at : iso_text;
  p_confirmed_at : option iso_text;
  p_bank_details : bank_details
}.

(** The user dict a payment is requested for: [id] is read with
    [user["id"]], the other two with [get]. *)
Record payer := {
  payer_id : string;
  payer_name : option string;
  payer_phone : option string
}.

Abbreviation fs := (gmap string (list payment)).

Definition _load_json (filepath : string) (files : fs) : list payment :=
  default [] (files !! filepath).

Definition _save_json (filepath : string) (data : list payment) (files : fs) : fs :=
  <[filepath := data]> files.

Record ManualPaymentSystem := { bank_details_of : bank_details }.

Definition init : ManualPaymentSystem := {| bank_details_of := BANK_DETAILS |}.

(** [s[-n:]] for [n > 0] *)
Definition last_n (n : nat) (s : string) : string :=
  String.substring (String.length s - n) n s.

Definition generate_reference (now : datetime) (phone : string) : string :=
  let timestamp := Clock.stamp8 now in
  let last4 := last_n 4 (Py.strip phone) in
  "TRADEL" +:+ timestamp +:+ last4.

(** The clock is read for the reference, then for [created_at]. *)
Definition create_payment_record (self : ManualPaymentSystem)
    (now_ref now_created : datetime) (usr : payer) (files : fs) : payment * fs :=
  let payment :=
    {| p_user_id := payer_id usr;
       p_name := dict_get (payer_name usr) "Trader";
       p_phone := dict_get (payer_phone usr) "";
       p_amount := price_ngn (bank_details_of self);
       p_currency := "NGN";
       p_reference := generate_reference now_ref (dict_get (payer_phone usr) "0000");
       p_status := "pending";
       p_created_at := isoformat now_created;
       p_confirmed_at := None;
       p_bank_details := bank_details_of self |} in
  let pending := _load_json PENDING_FILE files in
  (payment, _save_json PENDING_FILE (pending ++ [payment]) files).

(** What fills the payment request text. *)
Inductive payment_text :=
| PaymentRequest (reference : string) (amount : Z) (name : string) (bd : bank_details).

Definition get_payment_message (self : ManualPaymentSystem)
    (now_ref now_created : datetime) (usr : payer) (files : fs) : payment_text * fs :=
  let '(payment, files') := create_payment_record self now_ref now_created usr files in
  (PaymentRequest (p_reference payment) (p_amount payment) (p_name payment)
     (p_bank_details payment),
   files').

Definition has_reference (reference : string) (p : payment) : bool :=
  String.eqb (p_reference p) reference.

Definition confirmed (now : datetime) (p : payment) : payment :=
  {| p_user_id := p_user_id p; p_name := p_name p; p_phone := p_phone p;
     p_amount := p_amount p; p_currency := p_currency p;
     p_reference := p_reference p; p_status := "confirmed";
     p_created_at := p_created_at p; p_confirmed_at := Some (isoformat now);
     p_bank_details := p_bank_details p |}.

Definition confirm_payment (now : datetime) (reference : string) (files : fs)
    : bool * fs :=
  let pending := _load_json PENDING_FILE files in
  match List.find (has_reference reference) pending with
  | None => (false, files)
  | Some found =>
      let found := confirmed now found in
      let pending := List.filter (fun p => negb (has_reference reference p)) pending in
      let files := _save_json PENDING_FILE pending files in
      let confirmed := _load_json CONFIRMED_FILE files in
      let files := _save_json CONFIRMED_FILE (confirmed ++ [found]) files in
      (true, files)
  end.

(** [c.lower()] for a character below 256: the ASCII letters and the
    Latin-1 letters 0xC0..0xDE (0xD7, the multiplication sign, is no
    letter); every result is in the range. *)
Definition lower_char (c : ascii) : ascii :=
  let n := Py.code c in
  if ((65 <=? n)%nat && (n <=? 90)%nat)
     || ((192 <=? n)%nat && (n <=? 222)%nat && negb (n =? 215)%nat)
  then ascii_of_nat (n + 32) else c.

(** [s.lower()] *)
Fixpoint lower (s : string) : string :=
  match s with
  | EmptyString => EmptyString
  | String c t => String (lower_char c) (lower t)
  end.

(** [answer] is what the operator types at the prompt. *)
Definition manual_verify (now : datetime) (reference answer : string) (files : fs)
    : bool * fs :=
  let answer := lower (Py.strip answer) in
  if String.eqb answer "y" then confirm_payment now reference files
  else (false, files).

End Payments.

Example generate_reference_demo :
  Payments.generate_reference
    ((19796 * 86400 + 15 * 3600 + 2 * 60 + 33) * 1000000) " 08012345678 "
  = "TRADEL031415025678" /\
  Payments.generate_reference 0 "42" = "TRADEL0101000042" /\
  Payments.last_n 4 "" = "".
Proof. vm_compute. repeat split. Qed.

(* ================================================================== *)
(** * Properties of the rest of the program *)

(** ** Activation and deactivation *)

Lemma is_active_iff (u : user) : is_active u = true <-> u_status u = "active".
Proof. unfold is_active. apply String.eqb_eq. Qed.

Lemma find_user_None (user_id : string) (us : list user) :
  find_user user_id us = None <-> forall u, In u us -> u_id u <> user_id.
Proof.
  induction us as [|u us IH]; simpl.
  - split; [intros _ v []|reflexivity].
  - destruct (String.eqb (u_id u) user_id) eqn:E.
    + apply String.eqb_eq in E. split; [discriminate|].
      intros H. exfalso. apply (H u); auto.
    + apply String.eqb_neq in E.
      destruct (find_user user_id us) as [j|]; simpl.
      * split; [discriminate|]. intros H. exfalso.
        assert (Hn : Some j = None) by (apply IH; intros v Hv; apply H; auto).
        discriminate Hn.
      * split; [|reflexivity]. intros _ v [<-|Hv]; [exact E|].
        apply IH; [reflexivity|exact Hv].
Qed.

Lemma find_user_Some (user_id : string) (us : list user) (i : nat) :
  find_user user_id us = Some i ->
  exists u, us !! i = Some u /\ u_id u = user_id /\
    forall j v, (j < i)%nat -> us !! j = Some v -> u_id v <> user_id.
Proof.
  revert i. induction us as [|u us IH]; simpl; intros i H; [discriminate|].
  destruct (String.eqb (u_id u) user_id) eqn:E.
  - injection H as <-. apply String.eqb_eq in E. exists u.
    repeat split; auto. intros j v Hj. lia.
  - apply String.eqb_neq in E.
    destruct (find_user user_id us) as [k|]; [|discriminate].
    injection H as <-. destruct (IH k eq_refl) as (v & Hv & Hid & Hlt).
    exists v. repeat split; auto. intros [|j] x Hj Hx; simpl in Hx.
    + injection Hx as <-. exact E.
    + eapply Hlt; [|exact Hx]. lia.
Qed.

Lemma find_user_is_Some (user_id : string) (us : list user) :
  (exists u, In u us /\ u_id u = user_id) <-> exists i, find_user user_id us = Some i.
Proof.
  split.
  - intros (u & Hu & Hid). destruct (find_user user_id us) as [i|] eqn:E; [eauto|].
    exfalso. eapply find_user_None; eauto.
  - intros [i Hi]. destruct (find_user_Some _ _ _ Hi) as (u & Hu & Hid & _).
    exists u. split; [eapply lookup_In, Hu|exact Hid].
Qed.

Lemma update_first_by_find (user_id : string) (f : user -> user) (us : list user) :
  update_first user_id f us =
  match find_user user_id us with
  | Some i => match us !! i with Some u => Some (<[i := f u]> us) | None => None end
  | None => None
  end.
Proof.
  destruct (find_user user_id us) as [i|] eqn:E.
  - destruct (update_first_find user_id f us i E) as (u & Hu & _ & H).
    rewrite Hu. exact H.
  - apply update_first_None. apply find_user_None, E.
Qed.

(** How a store looks after one record, the first with a given id, went
    through [f]. *)
Lemma lookup_updated (user_id : string) (f : user -> user) (us : list user)
    (i j : nat) (u v : user) :
  find_user user_id us = Some i -> us !! i = Some u -> us !! j = Some v ->
  <[i := f u]> us !! j = Some (if decide (j = i) then f v else v).
Proof.
  intros Hf Hu Hv. destruct (decide (j = i)) as [->|Hne].
  - rewrite list_lookup_insert_eq by (eapply lookup_lt_Some, Hu). congruence.
  - rewrite list_lookup_insert_ne by auto. exact Hv.
Qed.

(** X1. [activate_user] returns True exactly when some user has the id.
    It never changes the number of users; the first user with the id, and
    no other, becomes active with expiry now + 30 days whatever its status
    and expiry were, keeping all its other fields; the users file is
    written once on success and not at all otherwise. *)
Theorem activate_user_effect (now : datetime) (user_id : string) (st : state) :
  let res := activate_user now user_id st in
  exists b,
    fst res = Ret b /\
    (b = true <-> exists u, In u (users st) /\ u_id u = user_id) /\
    length (users (snd res)) = length (users st) /\
    (forall j v, users st !! j = Some v ->
       users (snd res) !! j =
       Some (if decide (find_user user_id (users st) = Some j)
             then set_expiry (Some (isoformat (now + timedelta_days 30)))
                    (set_status "active" v)
             else v)) /\
    writes (trace (snd res)) = (writes (trace st) + if b then 1 else 0)%nat.
Proof.
  cbv zeta. rewrite activate_user_spec, update_first_by_find.
  destruct (find_user user_id (users st)) as [i|] eqn:E.
  - destruct (find_user_Some _ _ _ E) as (u & Hu & Hid & _). rewrite Hu.
    exists true. simpl. split; [reflexivity|]. split.
    { split; [intros _|reflexivity]. exists u. split; [eapply lookup_In, Hu|exact Hid]. }
    split; [apply length_insert|]. split.
    + intros j v Hv. rewrite (lookup_updated _ _ _ _ _ _ _ E Hu Hv).
      f_equal. destruct (decide (j = i)) as [->|Hne].
      * rewrite decide_True by reflexivity. reflexivity.
      * rewrite decide_False by congruence. reflexivity.
    + rewrite writes_app. simpl. lia.
  - exists false. simpl. split; [reflexivity|]. split.
    { split; [discriminate|]. intros (u & Hu & Hid). exfalso.
      eapply find_user_None; eauto. }
    split; [reflexivity|]. split.
    + intros j v Hv. exact Hv.
    + rewrite writes_app. simpl. lia.
Qed.


(** ** The sweep, record by record *)

Lemma expired_iff (now : datetime) (u : user) :
  expired now u = true <->
  u_status u = "active" /\ exists e, u_expiry u = Some (Iso e) /\ e < now.
Proof.
  unfold expired. rewrite !andb_true_iff, is_active_iff. split.
  - intros [[Ha _] He]. split; [exact Ha|].
    destruct (u_expiry u) as [[e|s]|]; simpl in He; try discriminate.
    exists e. split; [reflexivity|]. apply Z.gtb_lt, He.
  - intros [Ha (e & He & Hlt)]. rewrite He. simpl.
    repeat split; auto. apply Z.gtb_lt, Hlt.
Qed.

Lemma sweep_user_changes (now : datetime) (u : user) :
  expired now u = true -> sweep_user now u <> u.
Proof.
  intros H. unfold sweep_user. rewrite H. intros E.
  apply expired_iff in H as [Ha _].
  assert (Hs : u_status (set_status "inactive" u) = u_status u) by (rewrite E; reflexivity).
  simpl in Hs. rewrite Ha in Hs. discriminate.
Qed.

Lemma map_sweep_fixed (now : datetime) (us : list user) :
  map (sweep_user now) us = us <-> existsb (expired now) us = false.
Proof.
  induction us as [|u us IH]; simpl; [tauto|].
  rewrite orb_false_iff, <- IH. split.
  - intros [= Hu Hus]. split; [|exact Hus].
    destruct (expired now u) eqn:E; [|reflexivity].
    exfalso. eapply sweep_user_changes; eauto.
  - intros [Hu Hus]. unfold sweep_user at 1. rewrite Hu, Hus. reflexivity.
Qed.


(** ** The active users *)

Lemma active_refs_In (us : list user) :
  forall (k i : nat),
    In i (active_refs k us) <->
    exists j u, i = (k + j)%nat /\ us !! j = Some u /\ is_active u = true.
Proof.
  induction us as [|u us IH]; intros k i; simpl.
  - split; [intros []|]. intros (j & v & _ & H & _). discriminate.
  - assert (Hrec : In i (active_refs (S k) us) <->
                   exists j v, i = (k + S j)%nat /\ us !! j = Some v /\ is_active v = true).
    { rewrite IH. split; intros (j & v & Hi & H); exists j, v;
        (split; [lia|exact H]). }
    destruct (is_active u) eqn:E; simpl; rewrite Hrec; split.
    + intros [<-|(j & v & Hi & Hv & Ha)].
      * exists 0%nat, u. repeat split; auto; lia.
      * exists (S j), v. auto.
    + intros ([|j] & v & Hi & Hv & Ha); simpl in Hv.
      * left. lia.
      * right. exists j, v. auto.
    + intros (j & v & Hi & Hv & Ha). exists (S j), v. auto.
    + intros ([|j] & v & Hi & Hv & Ha); simpl in Hv.
      * injection Hv as <-. congruence.
      * exists j, v. auto.
Qed.

Lemma active_refs_sorted (us : list user) :
  forall k, StronglySorted lt (active_refs k us) /\
            Forall (fun i => (k <= i)%nat) (active_refs k us).
Proof.
  induction us as [|u us IH]; intros k; simpl.
  - split; constructor.
  - destruct (IH (S k)) as [Hs Hf]. destruct (is_active u).
    + split.
      * constructor; [exact Hs|]. eapply Forall_impl; [exact Hf|].
        simpl. intros. lia.
      * constructor; [lia|]. eapply Forall_impl; [exact Hf|]. simpl. intros. lia.
    + split; [exact Hs|]. eapply Forall_impl; [exact Hf|]. simpl. intros. lia.
Qed.

Lemma active_refs_length (us : list user) :
  forall k, length (active_refs k us) = length (List.filter is_active us).
Proof.
  induction us as [|u us IH]; intros k; simpl; [reflexivity|].
  destruct (is_active u); simpl; rewrite IH; reflexivity.
Qed.

(** X4. [get_active_users] changes nothing and returns references to
    exactly the users whose status is active: each reference points into
    the store, they come in store order without repetition, and there are
    as many as active users. *)
Theorem get_active_users_exact (st : state) :
  exists refs,
    get_active_users st = (Ret refs, st) /\
    (forall i, In i refs <->
       exists u, users st !! i = Some u /\ u_status u = "active") /\
    StronglySorted lt refs /\
    length refs = length (List.filter is_active (users st)).
Proof.
  exists (active_refs 0 (users st)). split; [reflexivity|]. split; [|split].
  - intros i. rewrite active_refs_In. split.
    + intros (j & u & -> & Hu & Ha). exists u. split; [exact Hu|].
      apply is_active_iff, Ha.
    + intros (u & Hu & Ha). exists i, u. repeat split; auto.
      apply is_active_iff, Ha.
  - apply active_refs_sorted.
  - apply active_refs_length.
Qed.

(** ** Adding users *)

#[local] Arguments Clock.stamp14 : simpl never.
#[local] Arguments Clock.stamp8 : simpl never.
#[local] Arguments Clock.date10 : simpl never.

(** The record [add_user] builds. *)
Definition new_user (now_id now_joined : datetime) (d : user_data) : user :=
  {| u_id := "TR" +:+ Clock.stamp14 now_id;
     u_name := dict_get (ud_name d) "Trader";
     u_email := dict_get (ud_email d) "";
     u_phone := dict_get (ud_phone d) "";
     u_country := dict_get (ud_country d) "NG";
     u_plan := dict_get (ud_plan d) "basic";
     u_status := "pending";
     u_joined := isoformat now_joined;
     u_expiry := None;
     u_alerts_received := 0;
     u_push_token := "" |}.

Lemma add_user_spec (now_id now_joined : datetime) (d : user_data) (st : state) :
  add_user now_id now_joined d st =
  (Ret ("TR" +:+ Clock.stamp14 now_id),
   {| users := users st ++ [new_user now_id now_joined d];
      trace := trace st ++
        [SaveUsers (users st ++ [new_user now_id now_joined d]);
         Log INFO ("Added user: " +:+ dict_get (ud_name d) "Trader" +:+ " (" +:+
                   ("TR" +:+ Clock.stamp14 now_id) +:+ ")")] |}).
Proof.
  unfold add_user, new_user. cbv zeta.
  generalize ("TR" +:+ Clock.stamp14 now_id). intros user_id.
  unfold bind, append_user, save_users, log, emit, ret. cbn [users trace u_name].
  rewrite <- app_assoc. reflexivity.
Qed.

Lemma digit_is_digit (n : Z) : Py.is_digit (Clock.digit n) = true.
Proof.
  unfold Clock.digit.
  pose proof (Z.mod_pos_bound n 10 ltac:(lia)) as H.
  assert (Hk : (Z.to_nat (n mod 10) < 10)%nat) by lia.
  destruct (Z.to_nat (n mod 10)) as [|[|[|[|[|[|[|[|[|[|k]]]]]]]]]];
    try reflexivity; lia.
Qed.


Lemma stamp14_seconds (a b : datetime) :
  Clock.seconds a = Clock.seconds b -> Clock.stamp14 a = Clock.stamp14 b.
Proof. intros H. unfold Clock.stamp14, Clock.fields_of. rewrite H. reflexivity. Qed.


(** X6. [POST /users/add] stores nothing unless a phone is given: when
    the request carries no JSON object, or one whose phone is absent or
    empty, it answers 400 and leaves the whole state as it was; otherwise
    it answers 200 and has appended one pending user whose phone is not
    empty. *)
Theorem route_add_user_guard (now_id now_joined : datetime)
    (data : option user_data) (st : state) :
  let res := route_add_user now_id now_joined data st in
  exists answer,
    fst res = Ret answer /\
    ((http_status answer = 400 /\ snd res = st /\
      (data = None \/ exists d, data = Some d /\ truthy_get (ud_phone d) = false)) \/
     (http_status answer = 200 /\
      exists d u, data = Some d /\ users (snd res) = users st ++ [u] /\
        ud_phone d = Some (u_phone u) /\ u_phone u <> "" /\
        u_status u = "pending" /\
        http_json answer = [("status", "added"); ("user_id", u_id u)])).
Proof.
  cbv zeta. unfold route_add_user. destruct data as [d|].
  - destruct (truthy_get (ud_phone d)) eqn:E.
    + unfold bind. rewrite add_user_spec. unfold ret, jsonify. cbn [fst snd users].
      eexists. split; [reflexivity|]. right. split; [reflexivity|].
      exists d, (new_user now_id now_joined d).
      cbn [new_user u_id u_phone u_status http_json dict_get].
      unfold dict_get.
      destruct (ud_phone d) as [p|]; cbn [truthy_get default] in *; [|discriminate].
      split; [reflexivity|]. split; [reflexivity|]. split; [reflexivity|].
      split; [|split; reflexivity]. intros Hp. unfold id in Hp. subst p. discriminate E.
    + unfold ret, jsonify. cbn [fst snd].
      eexists. split; [reflexivity|]. left. cbn [http_status].
      split; [reflexivity|]. split; [reflexivity|]. right. exists d. auto.
  - unfold ret, jsonify. cbn [fst snd].
    eexists. split; [reflexivity|]. left. cbn [http_status]. auto.
Qed.

(** X7. Ids are only as fine as the clock's seconds: two [add_user] calls
    within the same second return the same id.  When no older user has
    that id, a following [activate_user] of the id activates the first of
    the two and leaves the second pending. *)
Theorem same_second_same_id (a a' b b' now : datetime) (d1 d2 : user_data)
    (st : state) :
  Clock.seconds a = Clock.seconds b ->
  (forall u, In u (users st) -> u_id u <> "TR" +:+ Clock.stamp14 a) ->
  let r1 := add_user a a' d1 st in
  let r2 := add_user b b' d2 (snd r1) in
  let r3 := activate_user now ("TR" +:+ Clock.stamp14 a) (snd r2) in
  fst r1 = Ret ("TR" +:+ Clock.stamp14 a) /\ fst r2 = fst r1 /\
  fst r3 = Ret true /\
  exists u1 u2,
    users (snd r3) = users st ++ [u1; u2] /\
    u_id u1 = u_id u2 /\
    u_name u1 = default "Trader" (ud_name d1) /\
    u_name u2 = default "Trader" (ud_name d2) /\
    u_status u1 = "active" /\ u_status u2 = "pending".
Proof.
  intros Hs Hfresh. cbv zeta.
  pose proof (stamp14_seconds a b Hs) as Hab.
  rewrite (add_user_spec a a' d1 st). cbn [fst snd].
  rewrite add_user_spec. cbn [fst snd users trace].
  split; [reflexivity|]. split; [rewrite Hab; reflexivity|].
  rewrite activate_user_spec. cbn [users trace].
  assert (Hup : update_first ("TR" +:+ Clock.stamp14 a) (activated now)
                  ((users st ++ [new_user a a' d1]) ++ [new_user b b' d2]) =
                Some (users st ++ [activated now (new_user a a' d1); new_user b b' d2])).
  { rewrite <- app_assoc. cbn [app]. clear - Hfresh.
    induction (users st) as [|u us IH]; cbn [app update_first].
    - cbn [new_user u_id]. rewrite String.eqb_refl. reflexivity.
    - destruct (String.eqb (u_id u) ("TR" +:+ Clock.stamp14 a)) eqn:E.
      + apply String.eqb_eq in E. exfalso. apply (Hfresh u); simpl; auto.
      + rewrite IH; [reflexivity|]. intros v Hv. apply Hfresh. simpl. auto. }
  rewrite Hup. cbn [fst snd users].
  split; [reflexivity|].
  exists (activated now (new_user a a' d1)), (new_user b b' d2).
  split; [reflexivity|].
  cbn [activated set_expiry set_status new_user u_id u_name u_status dict_get].
  split; [rewrite Hab; reflexivity|].
  repeat split.
Qed.

Lemma same_second_same_id_witness :
  let st := sample_state in
  let r1 := add_user 0 7 {| ud_name := Some "Eve"; ud_email := None;
                            ud_phone := Some "08050000001"; ud_country := None;
                            ud_plan := None |} st in
  let r2 := add_user 999999 999999
              {| ud_name := Some "Fay"; ud_email := None;
                 ud_phone := Some "08050000002"; ud_country := None;
                 ud_plan := None |} (snd r1) in
  let r3 := activate_user 5000000 ("TR" +:+ Clock.stamp14 0) (snd r2) in
  fst r2 = fst r1 /\ fst r3 = Ret true /\
  exists u1 u2,
    users (snd r3) = users st ++ [u1; u2] /\
    u_id u1 = u_id u2 /\
    u_name u1 = "Eve" /\ u_name u2 = "Fay" /\
    u_status u1 = "active" /\ u_status u2 = "pending".
Proof.
  cbv zeta.
  destruct (same_second_same_id 0 7 999999 999999 5000000
              {| ud_name := Some "Eve"; ud_email := None;
                 ud_phone := Some "08050000001"; ud_country := None;
                 ud_plan := None |}
              {| ud_name := Some "Fay"; ud_email := None;
                 ud_phone := Some "08050000002"; ud_country := None;
                 ud_plan := None |}
              sample_state) as (_ & H2 & H3 & H4).
  - reflexivity.
  - intros u H Heq. simpl in H.
    repeat (destruct H as [<-|H]; [vm_compute in Heq; discriminate Heq|]).
    destruct H.
  - split; [exact H2|]. split; [exact H3|exact H4].
Defined.

(** ** What a method leaves alone

    [preserves R m]: running [m] takes every state to one related to it by
    [R].  For a reflexive and transitive [R] this passes through the
    control structures of the monad. *)

Definition preserves {A} (R : state -> state -> Prop) (m : M A) : Prop :=
  forall st, R st (snd (m st)).

Section Preserves.

Variable R : state -> state -> Prop.
Hypothesis R_refl : forall st, R st st.
Hypothesis R_trans : forall a b c, R a b -> R b c -> R a c.

Lemma preserves_ret {A} (a : A) : preserves R (ret a).
Proof. intros st. apply R_refl. Qed.

Lemma preserves_raise {A} (e : exn) : preserves R (@raise A e).
Proof. intros st. apply R_refl. Qed.

Lemma preserves_deref (r : nat) : preserves R (deref r).
Proof. intros st. unfold deref. destruct (users st !! r); apply R_refl. Qed.

Lemma preserves_bind {A B} (m : M A) (k : A -> M B) :
  preserves R m -> (forall a, preserves R (k a)) -> preserves R (bind m k).
Proof.
  intros Hm Hk st. unfold bind. specialize (Hm st).
  destruct (m st) as [[a|e] st']; simpl in *; [|exact Hm].
  eapply R_trans; [exact Hm|apply Hk].
Qed.

Lemma preserves_try_catch {A} (m : M A) (h : exn -> M A) :
  preserves R m -> (forall e, preserves R (h e)) -> preserves R (try_catch m h).
Proof.
  intros Hm Hh st. unfold try_catch. specialize (Hm st).
  destruct (m st) as [[a|e] st']; simpl in *; [exact Hm|].
  eapply R_trans; [exact Hm|apply Hh].
Qed.

Lemma preserves_for_each {A} (xs : list A) (body : A -> M unit) :
  (forall x, preserves R (body x)) -> preserves R (for_each xs body).
Proof.
  intros Hb. induction xs as [|x xs IH]; simpl.
  - apply preserves_ret.
  - apply preserves_bind; [apply Hb|intros _; exact IH].
Qed.

Lemma preserves_for_fold {A S} (xs : list A) (body : A -> S -> M S) :
  (forall x s, preserves R (body x s)) -> forall s, preserves R (for_fold xs s body).
Proof.
  intros Hb. induction xs as [|x xs IH]; intros s; simpl.
  - apply preserves_ret.
  - apply preserves_bind; [apply Hb|intros s'; apply IH].
Qed.

End Preserves.

(** The store is the same and the users file has not been written. *)
Definition untouched (st st' : state) : Prop :=
  users st' = users st /\ writes (trace st') = writes (trace st).

Lemma untouched_refl (st : state) : untouched st st.
Proof. split; reflexivity. Qed.

Lemma untouched_trans (a b c : state) : untouched a b -> untouched b c -> untouched a c.
Proof. intros [H1 H2] [H3 H4]. split; congruence. Qed.

Lemma untouched_log (lvl : level) (msg : string) : preserves untouched (log lvl msg).
Proof.
  intros st. unfold log, emit, untouched. simpl. split; [reflexivity|].
  rewrite writes_app. simpl. lia.
Qed.

Lemma untouched_messages_create (w : world) (from_ : string) (body : message)
    (to : string) :
  preserves untouched (client_messages_create w from_ body to).
Proof.
  intros st. unfold client_messages_create, untouched.
  destruct (messages_create w (trace st) from_ body to); simpl;
    (split; [reflexivity|]); rewrite writes_app; simpl; lia.
Qed.

Lemma untouched_requests_post (w : world) (url : string) (payload : push_payload) :
  preserves untouched (requests_post_call w url payload).
Proof.
  intros st. unfold requests_post_call, untouched.
  destruct (requests_post w (trace st) url payload); simpl;
    (split; [reflexivity|]); rewrite writes_app; simpl; lia.
Qed.

(** Goes through the control structure of a method, for a relation with
    proofs [Rrefl] and [Rtrans]; [prims] closes the primitive steps. *)
Ltac preserve_with Rrefl Rtrans prims :=
  repeat first
    [ prims
    | apply (preserves_bind _ Rtrans); [|intros ?]
    | apply (preserves_try_catch _ Rtrans); [|intros ?]
    | apply (preserves_ret _ Rrefl)
    | apply (preserves_raise _ Rrefl)
    | apply (preserves_deref _ Rrefl)
    | match goal with |- preserves _ (if ?c then _ else _) => destruct c end
    | match goal with |- preserves _ (match ?c with _ => _ end) => destruct c end ].

Ltac quiet :=
  preserve_with untouched_refl untouched_trans
    ltac:(first [ apply untouched_log
                | apply untouched_messages_create
                | apply untouched_requests_post ]).

Lemma untouched_send_message (w : world) (self : WhatsAppService) (to_number : string)
    (msg : message) :
  preserves untouched (send_message w self to_number msg).
Proof. unfold send_message. quiet. Qed.

Lemma untouched_send_whatsapp_alert (w : world) (u : user) (sg : signal) :
  preserves untouched (send_whatsapp_alert w u sg).
Proof.
  unfold send_whatsapp_alert, WhatsAppService_init, send_alert. quiet.
Qed.

Lemma untouched_send_push_notification (w : world) (self : AlertSystem)
    (token : string) (sg : signal) :
  preserves untouched (send_push_notification w self token sg).
Proof. unfold send_push_notification, response_json. quiet. Qed.

Lemma untouched_trigger_phone_alarm (w : world) (self : AlertSystem) (u : user)
    (sg : signal) :
  preserves untouched (trigger_phone_alarm w self u sg).
Proof.
  unfold trigger_phone_alarm. quiet. apply untouched_send_push_notification.
Qed.

(** The users file has not been written. *)
Definition no_write (st st' : state) : Prop :=
  writes (trace st') = writes (trace st).

Lemma no_write_refl (st : state) : no_write st st.
Proof. reflexivity. Qed.

Lemma no_write_trans (a b c : state) : no_write a b -> no_write b c -> no_write a c.
Proof. unfold no_write. congruence. Qed.

Lemma preserves_weaken {A} (R R' : state -> state -> Prop) (m : M A) :
  (forall a b, R a b -> R' a b) -> preserves R m -> preserves R' m.
Proof. intros H Hm st. apply H, Hm. Qed.

Lemma untouched_no_write (a b : state) : untouched a b -> no_write a b.
Proof. intros [_ H]. exact H. Qed.

Lemma no_write_log (lvl : level) (msg : string) : preserves no_write (log lvl msg).
Proof. eapply preserves_weaken; [apply untouched_no_write|apply untouched_log]. Qed.

Lemma no_write_assign (r : nat) (f : user -> user) : preserves no_write (assign r f).
Proof.
  intros st. unfold assign, no_write. destruct (users st !! r); reflexivity.
Qed.

Lemma no_write_alert_one (w : world) (self : AlertSystem) (sg : signal) (r : nat) :
  preserves no_write (alert_one w self sg r).
Proof.
  unfold alert_one.
  preserve_with no_write_refl no_write_trans
    ltac:(first
      [ apply no_write_log
      | apply no_write_assign
      | eapply preserves_weaken;
          [apply untouched_no_write|apply untouched_send_whatsapp_alert]
      | eapply preserves_weaken;
          [apply untouched_no_write|apply untouched_trigger_phone_alarm] ]).
Qed.

Lemma trigger_alerts_writes (w : world) (sg : signal) (st : state) :
  writes (trace (snd (trigger_alerts w sg st))) = S (writes (trace st)).
Proof.
  destruct st as [us tr]. unfold trigger_alerts, get_active_users. cbv zeta.
  unfold bind at 1. simpl users. simpl trace. cbv beta iota.
  set (note := Log INFO ("Sending alerts to " +:+
                          pretty (length (active_refs 0 us)) +:+ " active users")).
  destruct (alert_loop_run w sg us [] (tr ++ [note])) as (evs & E & _).
  simpl in E.
  pose proof (preserves_for_each no_write no_write_refl no_write_trans
                (active_refs 0 us) (alert_one w (AlertSystem_init w) sg)
                (no_write_alert_one w (AlertSystem_init w) sg)
                {| users := us; trace := tr ++ [note] |}) as Hq.
  rewrite E in Hq. unfold no_write in Hq. simpl in Hq.
  unfold bind at 1. unfold log, emit. simpl. fold note.
  rewrite (bind_Ret _ _ _ _ _ E). unfold save_users, emit. simpl.
  rewrite writes_app, Hq. simpl. rewrite writes_app. simpl. lia.
Qed.

(** ** One dispatch pass, for every world *)

(** X8. [trigger_alerts] returns normally whatever the providers and the
    environment do.  It keeps the number of users; every user whose status
    is active gets its counter raised by one, with or without phone, and
    nothing else of any record changes.  WhatsApp sends go to the active
    users with a phone, in store order, when both Twilio credentials are
    set, and to nobody otherwise.  The users file is written exactly once,
    as the last effect of the pass, with the store as the pass leaves
    it. *)
Theorem trigger_alerts_effect (w : world) (sg : signal) (st : state) :
  let res := trigger_alerts w sg st in
  fst res = Ret tt /\
  length (users (snd res)) = length (users st) /\
  (forall j v, users st !! j = Some v ->
     users (snd res) !! j =
     Some (if is_active v
           then set_alerts_received (u_alerts_received v + 1) v else v)) /\
  twilio_dests (trace (snd res)) =
    twilio_dests (trace st) ++
    (if has_twilio w then map destination (List.filter eligible (users st)) else []) /\
  writes (trace (snd res)) = S (writes (trace st)) /\
  last (trace (snd res)) = Some (SaveUsers (users (snd res))).
Proof.
  cbv zeta. pose proof (trigger_alerts_writes w sg st) as Hw.
  destruct (trigger_alerts_run w sg st) as (evs & E & D & _).
  rewrite E in *. simpl in *.
  split; [reflexivity|]. split; [apply length_map|]. split.
  { intros j v Hv. rewrite lookup_map, Hv. reflexivity. }
  split; [|split; [exact Hw|]].
  - rewrite !twilio_dests_app, D. simpl. rewrite app_nil_r. reflexivity.
  - rewrite !app_assoc. apply last_snoc.
Qed.

(** X9. A user just added is not alerted: in a dispatch pass that follows
    [add_user], the new record keeps its zero counter and the sends are
    those of the store before the addition. *)
Theorem new_user_not_alerted (w : world) (sg : signal) (now_id now_joined : datetime)
    (d : user_data) (st : state) :
  let st1 := snd (add_user now_id now_joined d st) in
  let res := trigger_alerts w sg st1 in
  fst res = Ret tt /\
  (exists u, users (snd res) !! length (users st) = Some u /\
     u_id u = "TR" +:+ Clock.stamp14 now_id /\
     u_status u = "pending" /\ u_alerts_received u = 0) /\
  twilio_dests (trace (snd res)) =
    twilio_dests (trace st) ++
    (if has_twilio w then map destination (List.filter eligible (users st)) else []).
Proof.
  cbv zeta. rewrite add_user_spec. cbn [snd].
  destruct (trigger_alerts_run w sg
              {| users := users st ++ [new_user now_id now_joined d];
                 trace := trace st ++
                   [SaveUsers (users st ++ [new_user now_id now_joined d]);
                    Log INFO ("Added user: " +:+ dict_get (ud_name d) "Trader" +:+
                              " (" +:+ ("TR" +:+ Clock.stamp14 now_id) +:+ ")")] |})
    as (evs & E & D & _).
  rewrite E. cbn [fst snd users trace] in *.
  split; [reflexivity|]. split.
  - exists (new_user now_id now_joined d). split; [|repeat split].
    rewrite lookup_map. rewrite list_lookup_middle by reflexivity. reflexivity.
  - assert (Hn : List.filter eligible [new_user now_id now_joined d] = [])
      by reflexivity.
    rewrite !twilio_dests_app, D, List.filter_app, Hn.
    cbn [twilio_dests flat_map app]. rewrite !app_nil_r. reflexivity.
Qed.

(** ** The channel adapters *)

(** The HTTP requests of a trace, in order. *)
Definition http_requests (tr : list event) : list (string * push_payload) :=
  flat_map (fun e => match e with HttpPost url p => [(url, p)] | _ => [] end) tr.

Lemma http_requests_app (a b : list event) :
  http_requests (a ++ b) = http_requests a ++ http_requests b.
Proof. apply flat_map_app. Qed.


(** X10. [send_message] never raises and never touches the store or the
    users file.  It makes exactly one call of the transport, to
    whatsapp:+ followed by the normalised number, and its result mirrors
    that call: (True, sid) when the transport answers with a sid, (False,
    text of the error) when it raises. *)
Theorem send_message_contract (w : world) (self : WhatsAppService)
    (to_number : string) (msg : message) (st : state) :
  let dest := "whatsapp:+" +:+ _normalise_phone to_number in
  let res := send_message w self to_number msg st in
  exists ok txt,
    fst res = Ret (ok, txt) /\
    users (snd res) = users st /\
    writes (trace (snd res)) = writes (trace st) /\
    twilio_dests (trace (snd res)) = twilio_dests (trace st) ++ [dest] /\
    ((ok = true /\
      messages_create w (trace st) (from_number self) msg dest = inr txt) \/
     (ok = false /\ exists e,
        messages_create w (trace st) (from_number self) msg dest = inl e /\
        txt = str_exn e)).
Proof.
  cbv zeta. destruct (untouched_send_message w self to_number msg st) as [Hu Hw].
  revert Hu Hw.
  unfold send_message, try_catch, bind, client_messages_create.
  destruct (messages_create w (trace st) (from_number self) msg
              ("whatsapp:+" +:+ _normalise_phone to_number)) as [e|sid];
    unfold log, emit, ret; cbn [fst snd users trace]; intros Hu Hw.
  - exists false, (str_exn e). split; [reflexivity|]. split; [exact Hu|].
    split; [exact Hw|]. split.
    + rewrite !twilio_dests_app. cbn [twilio_dests flat_map app].
      rewrite app_nil_r. reflexivity.
    + right. split; [reflexivity|]. exists e. auto.
  - exists true, sid. split; [reflexivity|]. split; [exact Hu|].
    split; [exact Hw|]. split.
    + rewrite !twilio_dests_app. cbn [twilio_dests flat_map app].
      rewrite app_nil_r. reflexivity.
    + left. auto.
Qed.

(** X11. [send_whatsapp_alert] never raises and never touches the store
    or the users file.  It returns True exactly when both Twilio
    credentials are set and the transport answers; with a credential
    missing or empty the service cannot be built, nothing is sent, and the
    result is False. *)
Theorem send_whatsapp_alert_outcome (w : world) (u : user) (sg : signal) (st : state) :
  let res := send_whatsapp_alert w u sg st in
  exists b,
    fst res = Ret b /\
    users (snd res) = users st /\
    writes (trace (snd res)) = writes (trace st) /\
    twilio_dests (trace (snd res)) =
      twilio_dests (trace st) ++ (if has_twilio w then [destination u] else []) /\
    (b = true <->
     has_twilio w = true /\
     exists sid,
       messages_create w (trace st) "whatsapp:+14155238886"
         (format_alert_message sg) (destination u) = inr sid).
Proof.
  cbv zeta. destruct (untouched_send_whatsapp_alert w u sg st) as [Hu Hw].
  revert Hu Hw.
  unfold send_whatsapp_alert, try_catch, bind, WhatsAppService_init, has_twilio,
    destination.
  destruct (truthy_env (TWILIO_SID w)); cbn [negb orb andb];
    [destruct (truthy_env (TWILIO_TOKEN w)); cbn [negb orb andb]|].
  - unfold send_alert, send_message, try_catch, bind, client_messages_create, ret.
    cbn [from_number].
    destruct (messages_create w (trace st) "whatsapp:+14155238886"
                (format_alert_message sg)
                ("whatsapp:+" +:+ _normalise_phone (u_phone u))) as [e|sid];
      unfold log, emit, ret; cbn [fst snd users trace]; intros Hu Hw.
    + exists false. split; [reflexivity|]. split; [exact Hu|]. split; [exact Hw|].
      split.
      * rewrite !twilio_dests_app. cbn [twilio_dests flat_map app].
        rewrite !app_nil_r. reflexivity.
      * split; [discriminate|]. intros [_ [sid Hs]]. discriminate Hs.
    + exists true. split; [reflexivity|]. split; [exact Hu|]. split; [exact Hw|].
      split.
      * rewrite !twilio_dests_app. cbn [twilio_dests flat_map app].
        rewrite !app_nil_r. reflexivity.
      * split; [intros _|reflexivity]. split; [reflexivity|]. exists sid. reflexivity.
  - unfold raise, log, emit, ret. cbn [fst snd users trace]. intros Hu Hw.
    exists false. split; [reflexivity|]. split; [exact Hu|]. split; [exact Hw|].
    split.
    + rewrite !twilio_dests_app. cbn [twilio_dests flat_map app].
      rewrite !app_nil_r. reflexivity.
    + split; [discriminate|]. intros [H _]. discriminate H.
  - unfold raise, log, emit, ret. cbn [fst snd users trace]. intros Hu Hw.
    exists false. split; [reflexivity|]. split; [exact Hu|]. split; [exact Hw|].
    split.
    + rewrite !twilio_dests_app. cbn [twilio_dests flat_map app].
      rewrite !app_nil_r. reflexivity.
    + split; [discriminate|]. intros [H _]. discriminate H.
Qed.




(** ** Signals: the daily log and the webhook *)

(** The signal dict [process_signal] builds. *)
Definition stored_signal (now_id now_ts : datetime) (sd : signal_data) : signal :=
  {| sg_id := "SIG" +:+ Clock.stamp14 now_id;
     sg_timestamp := isoformat now_ts;
     sg_source := sd_source sd;
     sg_pair := sd_pair sd;
     sg_action := sd_action sd;
     sg_entry := sd_entry sd;
     sg_tp := sd_tp sd;
     sg_sl := sd_sl sd;
     sg_message := sd_message sd;
     sg_priority := sd_priority sd |}.

Lemma process_signal_run (w : world) (now_id now_ts now_path : datetime)
    (sd : signal_data) (s : app_state) :
  let sg := stored_signal now_id now_ts sd in
  let path := signals_path now_path in
  exists evs,
    process_signal w now_id now_ts now_path sd s =
      (Ret (sg_id sg),
       {| bot :=
            {| users := map bump_active (users (bot s));
               trace := trace (bot s) ++ evs ++
                        [SaveUsers (map bump_active (users (bot s)))] |};
          signal_files :=
            <[path := default [] (signal_files s !! path) ++ [sg]]> (signal_files s) |}) /\
    writes evs = 0%nat /\
    twilio_dests evs =
      (if has_twilio w
       then map destination (List.filter eligible (users (bot s))) else []).
Proof.
  cbv zeta. unfold process_signal. cbv zeta.
  fold (stored_signal now_id now_ts sd).
  set (sg := stored_signal now_id now_ts sd).
  set (note := Log INFO ("Signal detected: " +:+ ("SIG" +:+ Clock.stamp14 now_id) +:+
                          " | " +:+ String.substring 0 60 (sg_message sg))).
  set (b1 := {| users := users (bot s); trace := trace (bot s) ++ [note] |}).
  destruct (trigger_alerts_run w sg b1) as (evs & E & D & _).
  pose proof (trigger_alerts_writes w sg b1) as Hw. rewrite E in Hw.
  subst b1. cbn [snd users trace] in *.
  exists (note :: evs).
  split; [|split].
  - unfold app_bind, read_signals, write_signals, lift, app_ret.
    cbn [bot signal_files]. unfold log at 1. unfold emit. cbn [users trace bot].
    fold note. rewrite E. cbn [bot signal_files]. rewrite <- app_assoc. reflexivity.
  - subst note. rewrite !writes_app in Hw. cbn [writes] in *. lia.
  - exact D.
Qed.

(** X13. [process_signal] returns the id SIG followed by the digits of
    the clock.  It appends one signal, with that id and the
    fields of the dict it was given, to the log file of the day, keeping
    the entries the file had (or starting it when it did not exist), and
    touches no other file.  It then runs one dispatch pass: every active
    user's counter is raised by one and the users file is written
    once. *)
Theorem process_signal_effect (w : world) (now_id now_ts now_path : datetime)
    (sd : signal_data) (s : app_state) :
  let res := process_signal w now_id now_ts now_path sd s in
  let path := signals_path now_path in
  exists sg,
    fst res = Ret (sg_id sg) /\
    sg_id sg = "SIG" +:+ Clock.stamp14 now_id /\
    sg_timestamp sg = isoformat now_ts /\
    (sg_source sg, sg_pair sg, sg_action sg, sg_entry sg, sg_tp sg, sg_sl sg,
     sg_message sg, sg_priority sg) =
    (sd_source sd, sd_pair sd, sd_action sd, sd_entry sd, sd_tp sd, sd_sl sd,
     sd_message sd, sd_priority sd) /\
    signal_files (snd res) !! path =
      Some (default [] (signal_files s !! path) ++ [sg]) /\
    (forall other, other <> path ->
       signal_files (snd res) !! other = signal_files s !! other) /\
    users (bot (snd res)) = map bump_active (users (bot s)) /\
    writes (trace (bot (snd res))) = S (writes (trace (bot s))).
Proof.
  cbv zeta.
  destruct (process_signal_run w now_id now_ts now_path sd s) as (evs & E & Hw & _).
  rewrite E. cbn [fst snd bot signal_files users trace].
  exists (stored_signal now_id now_ts sd).
  split; [reflexivity|]. split; [reflexivity|]. split; [reflexivity|].
  split; [reflexivity|]. split; [apply lookup_insert_eq|]. split.
  - intros other Hne. apply lookup_insert_ne. congruence.
  - split; [reflexivity|]. rewrite !writes_app, Hw. cbn [writes]. lia.
Qed.

(** X14. A message that is not a trading signal (in particular a request
    without Body) goes no further than the webhook's log line: the answer
    is not_a_signal, no signal file and no user record changes, nothing is
    sent or posted, and the users file is not written. *)
Theorem webhook_ignores_other_messages (w : world)
    (now_signal now_id now_ts now_path : datetime) (f : form) (s : app_state) :
  is_trading_signal (default "" (form_Body f)) = false ->
  let res := whatsapp_webhook w now_signal now_id now_ts now_path f s in
  fst res = Ret (jsonify 200 [("status", "not_a_signal")]) /\
  signal_files (snd res) = signal_files s /\
  users (bot (snd res)) = users (bot s) /\
  writes (trace (bot (snd res))) = writes (trace (bot s)) /\
  twilio_dests (trace (bot (snd res))) = twilio_dests (trace (bot s)) /\
  http_requests (trace (bot (snd res))) = http_requests (trace (bot s)).
Proof.
  intros H. cbv zeta. unfold whatsapp_webhook, dict_get. cbv zeta. rewrite H.
  unfold app_bind, lift, app_ret, log, emit. cbn [fst snd bot signal_files users trace].
  split; [reflexivity|]. split; [reflexivity|]. split; [reflexivity|].
  rewrite writes_app, twilio_dests_app, http_requests_app.
  cbn [writes twilio_dests http_requests flat_map app]. rewrite !app_nil_r.
  repeat split. lia.
Qed.

Lemma webhook_ignores_other_messages_witness :
  let s := {| bot := sample_state; signal_files := ∅ |} in
  fst (whatsapp_webhook up_world 0 0 0 0
         {| form_Body := Some "good morning everyone"; form_From := Some "whatsapp:+2348012345678" |} s)
  = Ret (jsonify 200 [("status", "not_a_signal")]) /\
  fst (whatsapp_webhook up_world 0 0 0 0 {| form_Body := None; form_From := None |} s)
  = Ret (jsonify 200 [("status", "not_a_signal")]).
Proof.
  cbv zeta. split.
  - apply (webhook_ignores_other_messages up_world 0 0 0 0
             {| form_Body := Some "good morning everyone";
                form_From := Some "whatsapp:+2348012345678" |}
             {| bot := sample_state; signal_files := ∅ |}).
    reflexivity.
  - apply (webhook_ignores_other_messages up_world 0 0 0 0
             {| form_Body := None; form_From := None |}
             {| bot := sample_state; signal_files := ∅ |}).
    reflexivity.
Defined.

(** X15. A message that is a trading signal is answered signal_processed
    with the id of the stored signal.  The signal appended to the log of
    the day carries the message text, the source whatsapp and the action,
    pair, entry, tp, sl and priority that [extract_signal] reads from the
    text; one dispatch pass follows, raising every active user's counter
    by one and writing the users file once. *)
Theorem webhook_processes_signal (w : world)
    (now_signal now_id now_ts now_path : datetime) (f : form) (s : app_state) :
  is_trading_signal (default "" (form_Body f)) = true ->
  let body := default "" (form_Body f) in
  let res := whatsapp_webhook w now_signal now_id now_ts now_path f s in
  let path := signals_path now_path in
  let parsed := extract_signal now_signal body in
  exists sg,
    fst res = Ret (jsonify 200 [("status", "signal_processed");
                                ("signal_id", sg_id sg)]) /\
    sg_id sg = "SIG" +:+ Clock.stamp14 now_id /\
    sg_message sg = body /\ sg_source sg = "whatsapp" /\
    (sg_action sg, sg_pair sg, sg_entry sg, sg_tp sg, sg_sl sg, sg_priority sg) =
    (sd_action parsed, sd_pair parsed, sd_entry parsed, sd_tp parsed,
     sd_sl parsed, sd_priority parsed) /\
    signal_files (snd res) !! path =
      Some (default [] (signal_files s !! path) ++ [sg]) /\
    users (bot (snd res)) = map bump_active (users (bot s)) /\
    writes (trace (bot (snd res))) = S (writes (trace (bot s))).
Proof.
  intros H. cbv zeta.
  set (body := default "" (form_Body f)) in *.
  set (note := Log INFO ("Incoming message from " +:+ default "" (form_From f) +:+ ": " +:+
                          String.substring 0 80 body)).
  set (s1 := {| bot := {| users := users (bot s); trace := trace (bot s) ++ [note] |};
                signal_files := signal_files s |}).
  destruct (process_signal_run w now_id now_ts now_path
              (extract_signal now_signal body) s1) as (evs & E & Hw & _).
  exists (stored_signal now_id now_ts (extract_signal now_signal body)).
  assert (Hrun : whatsapp_webhook w now_signal now_id now_ts now_path f s =
                 app_bind (process_signal w now_id now_ts now_path
                             (extract_signal now_signal body))
                   (fun signal_id =>
                      app_ret (jsonify 200 [("status", "signal_processed");
                                            ("signal_id", signal_id)])) s1).
  { unfold whatsapp_webhook, dict_get. cbv zeta. fold body. rewrite H.
    unfold app_bind at 1. unfold lift, log, emit. reflexivity. }
  rewrite Hrun. unfold app_bind. rewrite E. unfold app_ret.
  subst s1 note. cbn [fst snd bot signal_files users trace].
  split; [reflexivity|]. split; [reflexivity|]. split; [reflexivity|].
  split; [reflexivity|]. split; [reflexivity|].
  split; [apply lookup_insert_eq|]. split; [reflexivity|].
  rewrite !writes_app, Hw. cbn [writes]. lia.
Qed.

Lemma webhook_processes_signal_witness :
  let f := {| form_Body := Some "BUY BTCUSD entry 50000 tp 51500 sl 49000";
              form_From := Some "whatsapp:+2348012345678" |} in
  let s := {| bot := sample_state; signal_files := ∅ |} in
  let res := whatsapp_webhook up_world 0 0 0 0 f s in
  is_trading_signal (default "" (form_Body f)) = true /\
  exists sg,
    fst res = Ret (jsonify 200 [("status", "signal_processed");
                                ("signal_id", sg_id sg)]) /\
    sg_id sg = "SIG" +:+ Clock.stamp14 0 /\
    users (bot (snd res)) = map bump_active (users sample_state).
Proof.
  cbv zeta. split; [reflexivity|].
  destruct (webhook_processes_signal up_world 0 0 0 0
              {| form_Body := Some "BUY BTCUSD entry 50000 tp 51500 sl 49000";
                 form_From := Some "whatsapp:+2348012345678" |}
              {| bot := sample_state; signal_files := ∅ |} eq_refl)
    as (sg & H1 & H2 & _ & _ & _ & _ & H7 & _).
  exists sg. split; [exact H1|]. split; [exact H2|exact H7].
Defined.

(** ** Histories

    A history is any sequence of calls of the bot's methods and of the
    routes that change its state, each run to its end before the next one
    starts.  [CallActivateUser] is the method: what the activation route
    does after it touches neither the store nor the users file.
    [CallCheckSubscriptions] is one round of the background loop. *)

Inductive call :=
| CallAddUser (now_id now_joined : datetime) (d : user_data)
| CallActivateUser (now : datetime) (user_id : string)
| CallCheckSubscriptions (now : datetime)
| CallProcessSignal (now_id now_ts now_path : datetime) (sd : signal_data)
| RouteAddUser (now_id now_joined : datetime) (data : option user_data)
| RouteDeactivateUser (user_id : string)
| RouteTestSignal (now_id now_ts now_path : datetime)
| RouteWebhook (now_signal now_id now_ts now_path : datetime) (f : form).

Definition perform (w : world) (c : call) : App unit :=
  match c with
  | CallAddUser now_id now_joined d => lift (add_user now_id now_joined d) ;;~ app_ret tt
  | CallActivateUser now user_id => lift (activate_user now user_id) ;;~ app_ret tt
  | CallCheckSubscriptions now => lift (check_subscriptions now)
  | CallProcessSignal now_id now_ts now_path sd =>
      process_signal w now_id now_ts now_path sd ;;~ app_ret tt
  | RouteAddUser now_id now_joined data =>
      lift (route_add_user now_id now_joined data) ;;~ app_ret tt
  | RouteDeactivateUser user_id => lift (route_deactivate_user user_id) ;;~ app_ret tt
  | RouteTestSignal now_id now_ts now_path =>
      route_test_signal w now_id now_ts now_path ;;~ app_ret tt
  | RouteWebhook now_signal now_id now_ts now_path f =>
      whatsapp_webhook w now_signal now_id now_ts now_path f ;;~ app_ret tt
  end.

Fixpoint history (w : world) (cs : list call) : App unit :=
  match cs with
  | [] => app_ret tt
  | c :: cs' => perform w c ;;~ history w cs'
  end.

(** The content of data/users.json after the events [tr], when it was [d]
    before them. *)
Fixpoint users_file (d : list user) (tr : list event) : list user :=
  match tr with
  | [] => d
  | SaveUsers snapshot :: tr' => users_file snapshot tr'
  | _ :: tr' => users_file d tr'
  end.

(** What can happen to one record: activation, deactivation or expiry, one
    more alert while active, and any sequence of these. *)
Inductive evolve : user -> user -> Prop :=
| evolve_activated (now : datetime) (u : user) : evolve u (activated now u)
| evolve_inactive (u : user) : evolve u (set_status "inactive" u)
| evolve_bump (u : user) : u_status u = "active" -> evolve u (bump u)
| evolve_refl (u : user) : evolve u u
| evolve_trans (u v x : user) : evolve u v -> evolve v x -> evolve u x.

(** What can happen to the store: its records evolve in place, and records
    that started as new users follow them. *)
Definition change (us us' : list user) : Prop :=
  exists mid extra,
    us' = mid ++ extra /\ Forall2 evolve us mid /\
    Forall (fun u => exists a b d, evolve (new_user a b d) u) extra.

(** A record of a store that was built by the bot. *)
Definition well_formed (u : user) : Prop :=
  (u_status u = "pending" /\ u_expiry u = None /\ u_alerts_received u = 0) \/
  (u_status u = "active" /\ (exists e, u_expiry u = Some (Iso e)) /\
   0 <= u_alerts_received u) \/
  (u_status u = "inactive" /\ 0 <= u_alerts_received u).

Lemma users_file_app (d : list user) (a b : list event) :
  users_file d (a ++ b) = users_file (users_file d a) b.
Proof.
  revert d. induction a as [|e a IH]; intros d; simpl; [reflexivity|].
  destruct e; apply IH.
Qed.

Lemma users_file_quiet (d : list user) (evs : list event) :
  writes evs = 0%nat -> users_file d evs = d.
Proof.
  induction evs as [|e evs IH]; simpl; [reflexivity|].
  destruct e; auto. discriminate.
Qed.

Lemma users_file_saved (d us : list user) (a b : list event) :
  writes b = 0%nat -> users_file d (a ++ SaveUsers us :: b) = us.
Proof. intros H. rewrite users_file_app. simpl. apply users_file_quiet, H. Qed.

Lemma Forall2_evolve_refl (us : list user) : Forall2 evolve us us.
Proof. induction us; constructor; auto using evolve_refl. Qed.

Lemma Forall2_evolve_map (f : user -> user) (us : list user) :
  (forall u, evolve u (f u)) -> Forall2 evolve us (map f us).
Proof. intros H. induction us; simpl; constructor; auto. Qed.

Lemma Forall2_evolve_trans (a b c : list user) :
  Forall2 evolve a b -> Forall2 evolve b c -> Forall2 evolve a c.
Proof.
  intros H. revert c. induction H as [|x y a b Hxy _ IH]; intros c Hc.
  - inversion Hc. constructor.
  - inversion Hc as [|? z ? c' Hyz Hbc]; subst. constructor.
    + eapply evolve_trans; eauto.
    + apply IH, Hbc.
Qed.

Lemma change_refl (us : list user) : change us us.
Proof.
  exists us, []. rewrite app_nil_r. split; [reflexivity|].
  split; [apply Forall2_evolve_refl|constructor].
Qed.

Lemma change_in_place (us mid : list user) : Forall2 evolve us mid -> change us mid.
Proof.
  intros H. exists mid, []. rewrite app_nil_r. split; [reflexivity|].
  split; [exact H|constructor].
Qed.

Lemma change_trans (a b c : list user) : change a b -> change b c -> change a c.
Proof.
  intros (m1 & x1 & -> & H1 & N1) (m2 & x2 & -> & H2 & N2).
  apply Forall2_app_inv_l in H2 as (k1 & k2 & Hk1 & Hk2 & ->).
  exists k1, (k2 ++ x2). split; [rewrite app_assoc; reflexivity|].
  split; [eapply Forall2_evolve_trans; eauto|].
  apply Forall_app. split; [|exact N2].
  clear - N1 Hk2. induction Hk2 as [|x y l k Hxy _ IH]; [constructor|].
  inversion N1 as [|? ? (a & b & d & Hx) N1']; subst. constructor.
  - exists a, b, d. eapply evolve_trans; eauto.
  - apply IH, N1'.
Qed.

Lemma change_update_first (user_id : string) (f : user -> user) (us us' : list user) :
  (forall u, evolve u (f u)) -> update_first user_id f us = Some us' -> change us us'.
Proof.
  intros Hf. revert us'. induction us as [|u us IH]; intros us' H; simpl in H;
    [discriminate|].
  destruct (String.eqb (u_id u) user_id).
  - injection H as <-. apply change_in_place. constructor; [apply Hf|].
    apply Forall2_evolve_refl.
  - destruct (update_first user_id f us) as [r|]; [|discriminate].
    injection H as <-. destruct (IH r eq_refl) as (mid & extra & -> & Hm & Hx).
    exists (u :: mid), extra. split; [reflexivity|].
    split; [constructor; [apply evolve_refl|exact Hm]|exact Hx].
Qed.

Lemma evolve_sweep_user (now : datetime) (u : user) : evolve u (sweep_user now u).
Proof. unfold sweep_user. destruct (expired now u); constructor. Qed.

Lemma evolve_bump_active (u : user) : evolve u (bump_active u).
Proof.
  unfold bump_active. destruct (is_active u) eqn:E; [|apply evolve_refl].
  apply evolve_bump, is_active_iff, E.
Qed.

Lemma app_bind_assoc {A B C} (m : App A) (k1 : A -> App B) (k2 : B -> App C)
    (s : app_state) :
  app_bind (app_bind m k1) k2 s = app_bind m (fun a => app_bind (k1 a) k2) s.
Proof. unfold app_bind. destruct (m s) as [[a|e] s1]; reflexivity. Qed.

Lemma app_bind_log {A} (lvl : level) (msg : string) (k : unit -> App A) (s : app_state) :
  app_bind (lift (log lvl msg)) k s =
  k tt {| bot := {| users := users (bot s); trace := trace (bot s) ++ [Log lvl msg] |};
          signal_files := signal_files s |}.
Proof. reflexivity. Qed.

(** One call, whatever it is: it returns, its events follow the trace, the
    users file ends up equal to the store if it was equal before, and the
    store has changed in the ways above. *)
Lemma perform_run (w : world) (c : call) (s : app_state) :
  exists evs,
    fst (perform w c s) = Ret tt /\
    trace (bot (snd (perform w c s))) = trace (bot s) ++ evs /\
    users_file (users (bot s)) evs = users (bot (snd (perform w c s))) /\
    change (users (bot s)) (users (bot (snd (perform w c s)))).
Proof.
  destruct c as [a b d|now user_id|now|a b c sd|a b data|user_id|a b c|a0 a b c f];
    unfold perform.
  - unfold app_bind, lift, app_ret. rewrite add_user_spec. cbn [fst snd bot users trace].
    eexists. split; [reflexivity|]. split; [reflexivity|]. split; [reflexivity|].
    exists (users (bot s)), [new_user a b d]. split; [reflexivity|].
    split; [apply Forall2_evolve_refl|]. constructor; [|constructor].
    exists a, b, d. apply evolve_refl.
  - unfold app_bind, lift, app_ret. rewrite activate_user_spec.
    destruct (update_first user_id (activated now) (users (bot s))) as [us'|] eqn:E;
      cbn [fst snd bot users trace].
    + eexists. split; [reflexivity|]. split; [reflexivity|]. split; [reflexivity|].
      eapply change_update_first; [|exact E]. intros u. apply evolve_activated.
    + eexists. split; [reflexivity|]. split; [reflexivity|]. split; [reflexivity|].
      apply change_refl.
  - unfold lift. rewrite check_subscriptions_spec. cbn [fst snd bot users trace].
    eexists. split; [reflexivity|]. split; [reflexivity|]. split.
    + rewrite users_file_app, (users_file_quiet _ _ (writes_sweep_logs now _)).
      destruct (existsb (expired now) (users (bot s))) eqn:E; [reflexivity|].
      simpl. symmetry. apply map_sweep_fixed, E.
    + apply change_in_place, Forall2_evolve_map, evolve_sweep_user.
  - destruct (process_signal_run w a b c sd s) as (evs & E & Hw & _).
    unfold app_bind. cbv zeta in E. rewrite E. unfold app_ret.
    cbn [fst snd bot users trace].
    eexists. split; [reflexivity|]. split; [reflexivity|]. split.
    + apply users_file_saved. reflexivity.
    + apply change_in_place, Forall2_evolve_map, evolve_bump_active.
  - unfold app_bind, lift, app_ret, route_add_user.
    destruct data as [d|]; [destruct (truthy_get (ud_phone d))|].
    + unfold bind. rewrite add_user_spec. unfold ret. cbn [fst snd bot users trace].
      eexists. split; [reflexivity|]. split; [reflexivity|]. split; [reflexivity|].
      exists (users (bot s)), [new_user a b d]. split; [reflexivity|].
      split; [apply Forall2_evolve_refl|]. constructor; [|constructor].
      exists a, b, d. apply evolve_refl.
    + unfold ret. cbn [fst snd bot users trace].
      exists []. rewrite app_nil_r. split; [reflexivity|]. split; [reflexivity|].
      split; [reflexivity|]. apply change_refl.
    + unfold ret. cbn [fst snd bot users trace].
      exists []. rewrite app_nil_r. split; [reflexivity|]. split; [reflexivity|].
      split; [reflexivity|]. apply change_refl.
  - unfold app_bind, lift, app_ret, route_deactivate_user, bind.
    rewrite deactivate_user_spec.
    destruct (update_first user_id (set_status "inactive") (users (bot s)))
      as [us'|] eqn:E; unfold ret; cbn [fst snd bot users trace].
    + eexists. split; [reflexivity|]. split; [reflexivity|]. split; [reflexivity|].
      eapply change_update_first; [|exact E]. intros u. apply evolve_inactive.
    + exists []. rewrite app_nil_r. split; [reflexivity|]. split; [reflexivity|].
      split; [reflexivity|]. apply change_refl.
  - destruct (process_signal_run w a b c test_signal_data s) as (evs & E & Hw & _).
    unfold route_test_signal, app_bind. cbv zeta in E. rewrite E. unfold app_ret.
    cbn [fst snd bot users trace].
    eexists. split; [reflexivity|]. split; [reflexivity|]. split.
    + apply users_file_saved. reflexivity.
    + apply change_in_place, Forall2_evolve_map, evolve_bump_active.
  - unfold whatsapp_webhook, dict_get. cbv zeta.
    set (note := Log INFO ("Incoming message from " +:+ default "" (form_From f) +:+ ": " +:+
                            String.substring 0 80 (default "" (form_Body f)))).
    set (s1 := {| bot := {| users := users (bot s); trace := trace (bot s) ++ [note] |};
                  signal_files := signal_files s |}).
    rewrite app_bind_assoc, app_bind_log. fold note. fold s1.
    destruct (is_trading_signal (default "" (form_Body f))).
    + destruct (process_signal_run w a b c
                  (extract_signal a0 (default "" (form_Body f))) s1) as (evs & E & Hw & _).
      cbv zeta in E. unfold app_bind. rewrite E. unfold app_ret. subst s1.
      cbn [fst snd bot users trace].
      exists (note :: evs ++ [SaveUsers (map bump_active (users (bot s)))]).
      split; [reflexivity|]. split; [rewrite <- app_assoc; reflexivity|]. split.
      * apply (users_file_saved _ _ (note :: evs) []). reflexivity.
      * apply change_in_place, Forall2_evolve_map, evolve_bump_active.
    + unfold app_bind, app_ret. subst s1. cbn [fst snd bot users trace].
      exists [note]. split; [reflexivity|]. split; [reflexivity|].
      split; [reflexivity|]. apply change_refl.
Qed.

Lemma history_run (w : world) (cs : list call) (s : app_state) :
  exists evs,
    fst (history w cs s) = Ret tt /\
    trace (bot (snd (history w cs s))) = trace (bot s) ++ evs /\
    users_file (users (bot s)) evs = users (bot (snd (history w cs s))) /\
    change (users (bot s)) (users (bot (snd (history w cs s)))).
Proof.
  revert s. induction cs as [|c cs IH]; intros s; simpl.
  - exists []. rewrite app_nil_r. repeat split. apply change_refl.
  - destruct (perform_run w c s) as (e1 & R1 & T1 & F1 & C1).
    unfold app_bind. destruct (perform w c s) as [[[]|x] s1]; [|discriminate R1].
    cbn [fst snd] in *.
    destruct (IH s1) as (e2 & R2 & T2 & F2 & C2).
    exists (e1 ++ e2). split; [exact R2|]. split; [rewrite T2, T1, app_assoc; reflexivity|].
    split; [rewrite users_file_app, F1; exact F2|].
    eapply change_trans; eauto.
Qed.

Lemma evolve_keeps (u v : user) :
  evolve u v ->
  u_id v = u_id u /\ u_name v = u_name u /\ u_email v = u_email u /\
  u_phone v = u_phone u /\ u_country v = u_country u /\ u_plan v = u_plan u /\
  u_joined v = u_joined u /\ u_push_token v = u_push_token u /\
  u_alerts_received u <= u_alerts_received v.
Proof.
  induction 1 as [now u|u|u Ha|u|u v x _ IH1 _ IH2]; simpl;
    try (repeat split; lia).
  destruct IH1 as (A1 & A2 & A3 & A4 & A5 & A6 & A7 & A8 & H1).
  destruct IH2 as (B1 & B2 & B3 & B4 & B5 & B6 & B7 & B8 & H2).
  repeat split; try congruence. lia.
Qed.

Lemma new_user_well_formed (a b : datetime) (d : user_data) :
  well_formed (new_user a b d).
Proof. left. repeat split. Qed.

Lemma evolve_well_formed (u v : user) : evolve u v -> well_formed u -> well_formed v.
Proof.
  induction 1 as [now u|u|u Ha|u|u v x _ IH1 _ IH2]; intros H; auto.
  - right. left. simpl. split; [reflexivity|]. split; [eexists; reflexivity|].
    destruct H as [(_ & _ & H)|[(_ & _ & H)|(_ & H)]]; lia.
  - right. right. simpl. split; [reflexivity|].
    destruct H as [(_ & _ & H)|[(_ & _ & H)|(_ & H)]]; lia.
  - destruct H as [(Hs & _)|[(_ & He & Hc)|(Hs & _)]];
      [rewrite Ha in Hs; discriminate| |rewrite Ha in Hs; discriminate].
    right. left. simpl. split; [exact Ha|]. split; [exact He|lia].
Qed.

Lemma change_well_formed (us us' : list user) :
  change us us' -> Forall well_formed us -> Forall well_formed us'.
Proof.
  intros (mid & extra & -> & Hm & Hx) H. apply Forall_app. split.
  - clear Hx. induction Hm as [|x y l k Hxy _ IH]; [constructor|].
    inversion H; subst. constructor; [eapply evolve_well_formed; eauto|auto].
  - eapply Forall_impl; [exact Hx|]. simpl. intros u (a & b & d & Hu).
    eapply evolve_well_formed; [exact Hu|apply new_user_well_formed].
Qed.

Lemma history_keeps_well_formed (w : world) (cs : list call) (s : app_state) :
  Forall well_formed (users (bot s)) ->
  Forall well_formed (users (bot (snd (history w cs s)))).
Proof.
  destruct (history_run w cs s) as (evs & _ & _ & _ & C).
  apply change_well_formed, C.
Qed.


(** X17. No history loses or rewrites a user: the store never shrinks, and
    the record at each position keeps its id, name, email, phone, country,
    plan, joining date and push token for ever, while its alert counter
    never goes down. *)
Theorem history_keeps_records (w : world) (cs : list call) (s : app_state) :
  let s' := snd (history w cs s) in
  (length (users (bot s)) <= length (users (bot s')))%nat /\
  forall j v, users (bot s) !! j = Some v ->
    exists v', users (bot s') !! j = Some v' /\
      u_id v' = u_id v /\ u_name v' = u_name v /\ u_email v' = u_email v /\
      u_phone v' = u_phone v /\ u_country v' = u_country v /\ u_plan v' = u_plan v /\
      u_joined v' = u_joined v /\ u_push_token v' = u_push_token v /\
      u_alerts_received v <= u_alerts_received v'.
Proof.
  cbv zeta. destruct (history_run w cs s) as (evs & _ & _ & _ & C).
  destruct C as (mid & extra & -> & Hm & _). split.
  - rewrite length_app, <- (Forall2_length _ _ _ Hm). lia.
  - intros j v Hv.
    destruct (Forall2_lookup_l _ _ _ _ _ Hm Hv) as (v' & Hv' & He).
    exists v'. split; [apply lookup_app_l_Some, Hv'|apply evolve_keeps, He].
Qed.

(** X18. In a store built by the bot every record is pending, active or
    inactive; a pending user has no expiry and has never been alerted, an
    active user has an expiry that parses, and no counter is negative.
    Every history keeps the store that way. *)
Theorem history_well_formed (w : world) (cs : list call) (s : app_state) :
  Forall well_formed (users (bot s)) ->
  let s' := snd (history w cs s) in
  forall u, In u (users (bot s')) ->
    (u_status u = "pending" /\ u_expiry u = None /\ u_alerts_received u = 0) \/
    (u_status u = "active" /\ (exists e, u_expiry u = Some (Iso e)) /\
     0 <= u_alerts_received u) \/
    (u_status u = "inactive" /\ 0 <= u_alerts_received u).
Proof.
  intros H. cbv zeta. intros u Hu.
  pose proof (history_keeps_well_formed w cs s H) as Hf.
  rewrite List.Forall_forall in Hf. exact (Hf u Hu).
Qed.

(** X19. After any history of a well-formed store, a sweep leaves no
    active user behind whose subscription has run out: every user still
    active after [check_subscriptions] at [now] has an expiry at [now] or
    later. *)
Theorem sweep_leaves_paid_up (w : world) (cs : list call) (now : datetime)
    (s : app_state) :
  Forall well_formed (users (bot s)) ->
  let s1 := snd (history w cs s) in
  let s2 := snd (lift (check_subscriptions now) s1) in
  forall u, In u (users (bot s2)) -> u_status u = "active" ->
    exists e, u_expiry u = Some (Iso e) /\ now <= e.
Proof.
  intros H. cbv zeta.
  pose proof (history_keeps_well_formed w cs s H) as Hf.
  unfold lift. rewrite check_subscriptions_spec. cbn [snd bot users].
  intros u Hu Ha. apply in_map_iff in Hu as (v & <- & Hv).
  rewrite List.Forall_forall in Hf. specialize (Hf v Hv).
  unfold sweep_user in *. destruct (expired now v) eqn:E; [discriminate Ha|].
  destruct Hf as [(Hs & _)|[(_ & (e & He) & _)|(Hs & _)]];
    [rewrite Ha in Hs; discriminate| |rewrite Ha in Hs; discriminate].
  exists e. split; [exact He|].
  destruct (Z_lt_le_dec e now) as [Hlt|Hle]; [|exact Hle].
  assert (Hx : expired now v = true) by (apply expired_iff; eauto).
  congruence.
Qed.

Definition empty_app : app_state :=
  {| bot := {| users := []; trace := [] |}; signal_files := ∅ |}.

Definition eve_data : user_data :=
  {| ud_name := Some "Eve"; ud_email := None; ud_phone := Some "08050000001";
     ud_country := None; ud_plan := None |}.

Lemma history_well_formed_witness :
  let cs := [CallAddUser 0 0 eve_data;
             CallActivateUser 5000000 "TR19700101000000";
             RouteTestSignal 0 0 0;
             RouteDeactivateUser "TR19700101000000";
             RouteAddUser 1000000 1000000 (Some eve_data)] in
  Forall well_formed (users (bot empty_app)) /\
  forall u, In u (users (bot (snd (history up_world cs empty_app)))) ->
    (u_status u = "pending" /\ u_expiry u = None /\ u_alerts_received u = 0) \/
    (u_status u = "active" /\ (exists e, u_expiry u = Some (Iso e)) /\
     0 <= u_alerts_received u) \/
    (u_status u = "inactive" /\ 0 <= u_alerts_received u).
Proof.
  cbv zeta. split; [constructor|].
  apply (history_well_formed up_world
           [CallAddUser 0 0 eve_data;
            CallActivateUser 5000000 "TR19700101000000";
            RouteTestSignal 0 0 0;
            RouteDeactivateUser "TR19700101000000";
            RouteAddUser 1000000 1000000 (Some eve_data)] empty_app).
  constructor.
Defined.

Lemma sweep_leaves_paid_up_witness :
  let cs := [CallAddUser 0 0 eve_data;
             CallActivateUser 5000000 "TR19700101000000"] in
  let s1 := snd (history up_world cs empty_app) in
  let s2 := snd (lift (check_subscriptions (timedelta_days 10)) s1) in
  Forall well_formed (users (bot empty_app)) /\
  forall u, In u (users (bot s2)) -> u_status u = "active" ->
    exists e, u_expiry u = Some (Iso e) /\ timedelta_days 10 <= e.
Proof.
  cbv zeta. split; [constructor|].
  apply (sweep_leaves_paid_up up_world
           [CallAddUser 0 0 eve_data;
            CallActivateUser 5000000 "TR19700101000000"]
           (timedelta_days 10) empty_app).
  constructor.
Defined.

(** ** Payments (payments_symple.py) *)

Module PaymentFacts.
Import Payments.

Definition pending (files : fs) : list payment := _load_json PENDING_FILE files.
Definition confirmed_list (files : fs) : list payment := _load_json CONFIRMED_FILE files.

(** No pending payment has this reference. *)
Definition fresh (reference : string) (files : fs) : Prop :=
  forall q, In q (pending files) -> p_reference q <> reference.

Lemma files_differ : PENDING_FILE <> CONFIRMED_FILE.
Proof. discriminate. Qed.

Lemma has_reference_true (reference : string) (p : payment) :
  has_reference reference p = true <-> p_reference p = reference.
Proof. apply String.eqb_eq. Qed.

Lemma has_reference_false (reference : string) (p : payment) :
  has_reference reference p = false <-> p_reference p <> reference.
Proof. apply String.eqb_neq. Qed.

Lemma find_first {A} (f : A -> bool) (l : list A) (x : A) :
  List.find f l = Some x ->
  exists before after,
    l = before ++ x :: after /\ f x = true /\ forall q, In q before -> f q = false.
Proof.
  induction l as [|a l IH]; simpl; [discriminate|].
  destruct (f a) eqn:E.
  - intros [= <-]. exists [], l. repeat split; auto. intros q [].
  - intros H. destruct (IH H) as (before & after & -> & Hx & Hb).
    exists (a :: before), after. repeat split; auto.
    intros q [<-|Hq]; auto.
Qed.

Lemma find_app_none {A} (f : A -> bool) (l r : list A) :
  (forall q, In q l -> f q = false) -> List.find f (l ++ r) = List.find f r.
Proof.
  induction l as [|a l IH]; simpl; intros H; [reflexivity|].
  rewrite (H a) by auto. apply IH. auto.
Qed.

Lemma filter_all {A} (f : A -> bool) (l : list A) :
  (forall q, In q l -> f q = true) -> List.filter f l = l.
Proof.
  induction l as [|a l IH]; simpl; intros H; [reflexivity|].
  rewrite (H a) by auto. f_equal. apply IH. auto.
Qed.

Lemma confirm_payment_run (now : datetime) (reference : string) (files : fs) :
  confirm_payment now reference files =
  match List.find (has_reference reference) (pending files) with
  | None => (false, files)
  | Some p =>
      (true,
       <[CONFIRMED_FILE := confirmed_list files ++ [confirmed now p]]>
         (<[PENDING_FILE :=
              List.filter (fun q => negb (has_reference reference q)) (pending files)]>
            files))
  end.
Proof.
  unfold confirm_payment, pending, confirmed_list, _load_json, _save_json. cbv zeta.
  destruct (List.find _ _); [|reflexivity].
  rewrite lookup_insert_ne by apply files_differ. reflexivity.
Qed.

Lemma pending_after_confirm (l : list payment) (x : list payment) (files : fs) :
  pending (<[CONFIRMED_FILE := x]> (<[PENDING_FILE := l]> files)) = l.
Proof.
  unfold pending, _load_json.
  rewrite lookup_insert_ne by (intros H; symmetry in H; exact (files_differ H)).
  rewrite lookup_insert_eq. reflexivity.
Qed.

Lemma confirmed_after_confirm (l : list payment) (x : list payment) (files : fs) :
  confirmed_list (<[CONFIRMED_FILE := x]> (<[PENDING_FILE := l]> files)) = x.
Proof. unfold confirmed_list, _load_json. rewrite lookup_insert_eq. reflexivity. Qed.

Lemma create_payment_record_run (self : ManualPaymentSystem)
    (now_ref now_created : datetime) (usr : payer) (files : fs) :
  let p := fst (create_payment_record self now_ref now_created usr files) in
  let files' := snd (create_payment_record self now_ref now_created usr files) in
  pending files' = pending files ++ [p] /\
  confirmed_list files' = confirmed_list files /\
  (forall path, path <> PENDING_FILE -> files' !! path = files !! path) /\
  p_reference p = generate_reference now_ref (default "0000" (payer_phone usr)).
Proof.
  cbv zeta. unfold create_payment_record, pending, confirmed_list, _load_json, _save_json.
  cbn [fst snd]. rewrite lookup_insert_eq.
  split; [reflexivity|]. split.
  - rewrite lookup_insert_ne by apply files_differ. reflexivity.
  - split; [|reflexivity]. intros path H. apply lookup_insert_ne. congruence.
Qed.

Lemma stamp8_digits (t : datetime) :
  String.length (Clock.stamp8 t) = 8%nat /\
  all_chars Py.is_digit (Clock.stamp8 t) = true.
Proof.
  unfold Clock.stamp8. generalize (Clock.fields_of t). intros f. cbv zeta.
  unfold Clock.d2. cbn [String.append String.length all_chars].
  rewrite !digit_is_digit. split; reflexivity.
Qed.


End PaymentFacts.



(** X21. [get_payment_message] is not a pure formatter: each call stores
    one new pending payment at the end of the pending file, leaving its
    earlier entries and every other file alone, and the text it returns
    quotes the reference, amount, name and bank details of that stored
    record.  The record is pending and unconfirmed, in NGN at the system's
    price, and its reference ends with the last four characters of the
    phone, or with 0000 when the user has no phone key. *)
Theorem get_payment_message_records (self : Payments.ManualPaymentSystem)
    (now_ref now_created : datetime) (usr : Payments.payer)
    (files : gmap string (list Payments.payment)) :
  let res := Payments.get_payment_message self now_ref now_created usr files in
  exists p digits,
    fst res = Payments.PaymentRequest (Payments.p_reference p) (Payments.p_amount p)
                (Payments.p_name p) (Payments.p_bank_details p) /\
    PaymentFacts.pending (snd res) = PaymentFacts.pending files ++ [p] /\
    (forall path, path <> Payments.PENDING_FILE -> snd res !! path = files !! path) /\
    Payments.p_user_id p = Payments.payer_id usr /\
    Payments.p_name p = default "Trader" (Payments.payer_name usr) /\
    Payments.p_status p = "pending" /\ Payments.p_confirmed_at p = None /\
    Payments.p_currency p = "NGN" /\
    Payments.p_amount p = Payments.price_ngn (Payments.bank_details_of self) /\
    Payments.p_bank_details p = Payments.bank_details_of self /\
    Payments.p_reference p =
      "TRADEL" +:+ digits +:+
      Payments.last_n 4 (Py.strip (default "0000" (Payments.payer_phone usr))) /\
    String.length digits = 8%nat /\ all_chars Py.is_digit digits = true /\
    (Payments.payer_phone usr = None ->
     Payments.p_reference p = "TRADEL" +:+ digits +:+ "0000").
Proof.
  cbv zeta. unfold Payments.get_payment_message.
  pose proof (PaymentFacts.create_payment_record_run self now_ref now_created usr files)
    as H. cbv zeta in H.
  destruct (Payments.create_payment_record self now_ref now_created usr files)
    as [p files'] eqn:E.
  cbn [fst snd] in *. destruct H as (Hp & _ & Ho & Hr).
  destruct (PaymentFacts.stamp8_digits now_ref) as [Hl Hd].
  exists p, (Clock.stamp8 now_ref).
  split; [reflexivity|]. split; [exact Hp|]. split; [exact Ho|].
  unfold Payments.create_payment_record in E. cbv zeta in E.
  injection E as <- _. cbn [Payments.p_user_id Payments.p_name Payments.p_status
    Payments.p_confirmed_at Payments.p_currency Payments.p_amount
    Payments.p_bank_details Payments.p_reference dict_get].
  do 8 (split; [reflexivity|]).
  split; [exact Hl|]. split; [exact Hd|].
  intros Hn. rewrite Hn. reflexivity.
Qed.

Lemma find_filtered {A} (f : A -> bool) (l : list A) :
  List.find f (List.filter (fun q => negb (f q)) l) = None.
Proof.
  induction l as [|a l IH]; simpl; [reflexivity|].
  destruct (f a) eqn:E; simpl; [exact IH|]. rewrite E. exact IH.
Qed.

(** X22. [confirm_payment] returns True exactly when some pending payment
    has the reference; otherwise it changes no file.  On success the first
    pending payment with the reference is appended to the confirmed file
    with status confirmed and the confirmation time, all its other fields
    kept; every pending payment with that reference leaves the pending
    file, the others stay in order, and no other file changes.  Confirming
    the same reference again returns False and changes nothing. *)
Theorem confirm_payment_effect (now : datetime) (reference : string)
    (files : gmap string (list Payments.payment)) :
  let pend := PaymentFacts.pending files in
  let res := Payments.confirm_payment now reference files in
  (fst res = true <-> exists p, In p pend /\ Payments.p_reference p = reference) /\
  (fst res = false -> snd res = files) /\
  (fst res = true ->
   exists p c before after,
     pend = before ++ p :: after /\ Payments.p_reference p = reference /\
     (forall q, In q before -> Payments.p_reference q <> reference) /\
     PaymentFacts.confirmed_list (snd res) = PaymentFacts.confirmed_list files ++ [c] /\
     Payments.p_status c = "confirmed" /\
     Payments.p_confirmed_at c = Some (Iso now) /\
     (Payments.p_user_id c, Payments.p_name c, Payments.p_phone c, Payments.p_amount c,
      Payments.p_currency c, Payments.p_reference c, Payments.p_created_at c,
      Payments.p_bank_details c) =
     (Payments.p_user_id p, Payments.p_name p, Payments.p_phone p, Payments.p_amount p,
      Payments.p_currency p, Payments.p_reference p, Payments.p_created_at p,
      Payments.p_bank_details p) /\
     PaymentFacts.pending (snd res) =
       List.filter (fun q => negb (String.eqb (Payments.p_reference q) reference)) pend /\
     (forall q, In q (PaymentFacts.pending (snd res)) ->
        Payments.p_reference q <> reference) /\
     (forall path, path <> Payments.PENDING_FILE -> path <> Payments.CONFIRMED_FILE ->
        snd res !! path = files !! path) /\
     forall later, Payments.confirm_payment later reference (snd res) = (false, snd res)).
Proof.
  cbv zeta. rewrite PaymentFacts.confirm_payment_run.
  destruct (List.find (Payments.has_reference reference) (PaymentFacts.pending files))
    as [p|] eqn:E; cbn [fst snd].
  - destruct (PaymentFacts.find_first _ _ _ E) as (before & after & Hl & Hp & Hb).
    apply PaymentFacts.has_reference_true in Hp.
    split; [|split; [discriminate|]].
    { split; [intros _|reflexivity]. exists p. split; [|exact Hp].
      rewrite Hl. apply in_or_app. right. left. reflexivity. }
    intros _. exists p, (Payments.confirmed now p), before, after.
    split; [exact Hl|]. split; [exact Hp|]. split.
    { intros q Hq. apply PaymentFacts.has_reference_false, Hb, Hq. }
    split; [apply PaymentFacts.confirmed_after_confirm|].
    split; [reflexivity|]. split; [reflexivity|]. split; [reflexivity|].
    rewrite PaymentFacts.pending_after_confirm.
    split; [reflexivity|]. split.
    { intros q Hq. apply List.filter_In in Hq as [_ Hq].
      apply negb_true_iff in Hq. apply PaymentFacts.has_reference_false, Hq. }
    split.
    { intros path H1 H2. rewrite !lookup_insert_ne by congruence. reflexivity. }
    intros later. rewrite PaymentFacts.confirm_payment_run.
    rewrite PaymentFacts.pending_after_confirm.
    rewrite (find_filtered (Payments.has_reference reference)). reflexivity.
  - split; [|split; [reflexivity|discriminate]].
    split; [discriminate|]. intros (p & Hp & Hr). exfalso.
    pose proof (List.find_none _ _ E p Hp) as Hn.
    apply PaymentFacts.has_reference_false in Hn. contradiction.
Qed.

Lemma create_then_confirm_run (self : Payments.ManualPaymentSystem)
    (now_ref now_created now : datetime) (usr : Payments.payer)
    (files : gmap string (list Payments.payment)) (more : list Payments.payment) :
  let created := Payments.create_payment_record self now_ref now_created usr files in
  let files1 := <[Payments.PENDING_FILE :=
                    PaymentFacts.pending (snd created) ++ more]> (snd created) in
  PaymentFacts.fresh (Payments.p_reference (fst created)) files ->
  Forall (fun q => Payments.p_reference q = Payments.p_reference (fst created)) more ->
  let res := Payments.confirm_payment now (Payments.p_reference (fst created)) files1 in
  fst res = true /\
  PaymentFacts.pending (snd res) = PaymentFacts.pending files /\
  PaymentFacts.confirmed_list (snd res) =
    PaymentFacts.confirmed_list files ++ [Payments.confirmed now (fst created)].
Proof.
  cbv zeta. intros Hf Hm.
  destruct (PaymentFacts.create_payment_record_run self now_ref now_created usr files)
    as (Hp & Hc & _ & _).
  set (p := fst (Payments.create_payment_record self now_ref now_created usr files)) in *.
  set (f1 := snd (Payments.create_payment_record self now_ref now_created usr files)) in *.
  assert (Hpend : PaymentFacts.pending
                    (<[Payments.PENDING_FILE := PaymentFacts.pending f1 ++ more]> f1) =
                  PaymentFacts.pending files ++ p :: more).
  { unfold PaymentFacts.pending at 1. unfold Payments._load_json.
    rewrite lookup_insert_eq. simpl. rewrite Hp, <- app_assoc. reflexivity. }
  assert (Hconf : PaymentFacts.confirmed_list
                    (<[Payments.PENDING_FILE := PaymentFacts.pending f1 ++ more]> f1) =
                  PaymentFacts.confirmed_list files).
  { unfold PaymentFacts.confirmed_list at 1. unfold Payments._load_json.
    rewrite lookup_insert_ne by apply PaymentFacts.files_differ. exact Hc. }
  assert (Hrun : Payments.confirm_payment now (Payments.p_reference p)
                   (<[Payments.PENDING_FILE := PaymentFacts.pending f1 ++ more]> f1) =
                 (true,
                  <[Payments.CONFIRMED_FILE :=
                      PaymentFacts.confirmed_list files ++ [Payments.confirmed now p]]>
                    (<[Payments.PENDING_FILE :=
                         List.filter
                           (fun q => negb (Payments.has_reference (Payments.p_reference p) q))
                           (PaymentFacts.pending files ++ p :: more)]>
                       (<[Payments.PENDING_FILE := PaymentFacts.pending f1 ++ more]> f1)))).
  { rewrite PaymentFacts.confirm_payment_run, Hpend, Hconf.
    rewrite PaymentFacts.find_app_none
      by (intros q Hq; apply PaymentFacts.has_reference_false, Hf, Hq).
    cbn [List.find]. unfold Payments.has_reference at 1. rewrite String.eqb_refl.
    reflexivity. }
  rewrite Hrun. cbn [fst snd].
  rewrite PaymentFacts.pending_after_confirm, PaymentFacts.confirmed_after_confirm.
  split; [reflexivity|]. split; [|reflexivity].
  rewrite List.filter_app.
  rewrite PaymentFacts.filter_all.
  2:{ intros q Hq. apply negb_true_iff, PaymentFacts.has_reference_false, Hf, Hq. }
  assert (Hnone : List.filter
                    (fun q => negb (Payments.has_reference (Payments.p_reference p) q))
                    (p :: more) = []).
  { cbn [List.filter]. unfold Payments.has_reference at 1. rewrite String.eqb_refl.
    cbn [negb]. clear - Hm. induction Hm as [|q more Hq _ IH]; [reflexivity|].
    cbn [List.filter]. unfold Payments.has_reference at 1. rewrite Hq, String.eqb_refl.
    exact IH. }
  rewrite Hnone. apply app_nil_r.
Qed.

(** X23. Request and confirmation round trip: when no pending payment
    already has the reference, confirming the reference returned by
    [create_payment_record] succeeds, takes the new record out of the
    pending file again, which is then as it was before the request, and
    appends that record, marked confirmed at the confirmation time, to the
    confirmed file. *)
Theorem create_then_confirm (self : Payments.ManualPaymentSystem)
    (now_ref now_created now : datetime) (usr : Payments.payer)
    (files : gmap string (list Payments.payment)) :
  let created := Payments.create_payment_record self now_ref now_created usr files in
  PaymentFacts.fresh (Payments.p_reference (fst created)) files ->
  let res := Payments.confirm_payment now (Payments.p_reference (fst created))
               (snd created) in
  exists c,
    fst res = true /\
    PaymentFacts.pending (snd res) = PaymentFacts.pending files /\
    PaymentFacts.confirmed_list (snd res) = PaymentFacts.confirmed_list files ++ [c] /\
    Payments.p_user_id c = Payments.payer_id usr /\
    Payments.p_reference c = Payments.p_reference (fst created) /\
    Payments.p_status c = "confirmed" /\
    Payments.p_confirmed_at c = Some (Iso now) /\
    Payments.p_created_at c = Iso now_created.
Proof.
  cbv zeta. intros Hf.
  pose proof (create_then_confirm_run self now_ref now_created now usr files [] Hf
                ltac:(constructor)) as H.
  cbv zeta in H. rewrite app_nil_r in H.
  assert (Hid : <[Payments.PENDING_FILE :=
                    PaymentFacts.pending
                      (snd (Payments.create_payment_record self now_ref now_created
                              usr files))]>
                  (snd (Payments.create_payment_record self now_ref now_created usr files))
                = snd (Payments.create_payment_record self now_ref now_created usr files)).
  { unfold Payments.create_payment_record, PaymentFacts.pending, Payments._load_json,
      Payments._save_json. cbn [snd]. rewrite lookup_insert_eq. simpl.
    apply insert_insert_eq. }
  rewrite Hid in H. destruct H as (H1 & H2 & H3).
  eexists. split; [exact H1|]. split; [exact H2|]. split; [exact H3|].
  repeat split.
Qed.

Definition eve_payer : Payments.payer :=
  {| Payments.payer_id := "TR20240314150233"; Payments.payer_name := Some "Eve";
     Payments.payer_phone := Some "08012345678" |}.


Lemma create_then_confirm_witness :
  let created := Payments.create_payment_record Payments.init 0 1 eve_payer ∅ in
  let res := Payments.confirm_payment 2 (Payments.p_reference (fst created))
               (snd created) in
  PaymentFacts.fresh (Payments.p_reference (fst created)) ∅ /\
  exists c,
    fst res = true /\
    PaymentFacts.pending (snd res) = PaymentFacts.pending ∅ /\
    PaymentFacts.confirmed_list (snd res) = PaymentFacts.confirmed_list ∅ ++ [c] /\
    Payments.p_user_id c = "TR20240314150233" /\
    Payments.p_status c = "confirmed".
Proof.
  cbv zeta.
  assert (Hf : PaymentFacts.fresh
                 (Payments.p_reference
                    (fst (Payments.create_payment_record Payments.init 0 1 eve_payer ∅)))
                 ∅) by (intros q []).
  split; [exact Hf|].
  destruct (create_then_confirm Payments.init 0 1 2 eve_payer ∅ Hf)
    as (c & H1 & H2 & H3 & H4 & _ & H6 & _).
  exists c. split; [exact H1|]. split; [exact H2|]. split; [exact H3|].
  split; [exact H4|exact H6].
Defined.



Lemma lower_char_y (c : ascii) :
  Payments.lower_char c = "y"%char -> c = "y"%char \/ c = "Y"%char.
Proof.
  destruct c as [[] [] [] [] [] [] [] []]; vm_compute; intros H;
    first [discriminate H | left; reflexivity | right; reflexivity].
Qed.

Lemma lower_is_y (s : string) : Payments.lower s = "y" <-> s = "y" \/ s = "Y".
Proof.
  split.
  - destruct s as [|c [|c' t]]; simpl; try discriminate.
    intros [= H]. destruct (lower_char_y c H) as [->| ->]; auto.
  - intros [->| ->]; reflexivity.
Qed.

(** X25. [manual_verify] confirms only on a plain yes: it returns True
    exactly when the operator's answer, stripped of surrounding
    whitespace, is y or Y and a pending payment has the reference.  With
    any other answer, or an unknown reference, no file changes; with y or
    Y it does what [confirm_payment] does. *)
Theorem manual_verify_only_on_yes (now : datetime) (reference answer : string)
    (files : gmap string (list Payments.payment)) :
  let res := Payments.manual_verify now reference answer files in
  let yes := Py.strip answer = "y" \/ Py.strip answer = "Y" in
  (fst res = true <->
   yes /\ exists p, In p (PaymentFacts.pending files) /\
                    Payments.p_reference p = reference) /\
  (fst res = false -> snd res = files) /\
  (yes -> res = Payments.confirm_payment now reference files) /\
  (~ yes -> res = (false, files)).
Proof.
  cbv zeta. unfold Payments.manual_verify. cbv zeta.
  destruct (String.eqb (Payments.lower (Py.strip answer)) "y") eqn:E.
  - apply String.eqb_eq, lower_is_y in E.
    rewrite PaymentFacts.confirm_payment_run.
    destruct (List.find (Payments.has_reference reference) (PaymentFacts.pending files))
      as [p|] eqn:F; cbn [fst snd].
    + destruct (PaymentFacts.find_first _ _ _ F) as (before & after & Hl & Hp & _).
      apply PaymentFacts.has_reference_true in Hp.
      split; [|split; [discriminate|split; [reflexivity|contradiction]]].
      split; [intros _|reflexivity]. split; [exact E|]. exists p.
      split; [|exact Hp]. rewrite Hl. apply in_or_app. right. left. reflexivity.
    + split; [|split; [reflexivity|split; [reflexivity|contradiction]]].
      split; [discriminate|]. intros (_ & p & Hp & Hr). exfalso.
      pose proof (List.find_none _ _ F p Hp) as Hn.
      apply PaymentFacts.has_reference_false in Hn. contradiction.
  - assert (Hn : ~ (Py.strip answer = "y" \/ Py.strip answer = "Y")).
    { intros H. apply lower_is_y, String.eqb_eq in H. congruence. }
    cbn [fst snd]. split; [|split; [reflexivity|split; [contradiction|reflexivity]]].
    split; [discriminate|]. intros [H _]. contradiction.
Qed.
